(** * Mejor_Inversion: the CDT rate scrapers, their orchestrator and the query API

    A shallow embedding of the Python sources

    - [scrapers/base_scraper.py]   (BaseScraper: the text normalisers and [run])
    - [scrapers/bank_scrapers.py]  (GenericTableScraper)
    - [scrapers/mejorcdt_scraper.py] (MejorCDTScraper)
    - [scrapers/orchestrator.py]   (CDTOrchestrator)
    - [api/app.py]                 (get_rates, simulate_cdt)

    Conventions of the embedding.

    - A Python [str] is a [string] whose characters are code points below
      256, so that the accented letters of the patterns ([i] acute, [n]
      tilde) are single characters.
    - A Python [int] is a [Z].
    - A Python [float] holding a rate or an amount is an exact rational, a
      [Qc]: the arithmetic of the scrapers is modelled without rounding
      error, [round(x, n)] rounds the exact value to the nearest multiple of
      [10^-n], ties to even, and the literals [inf] and [nan] are not
      represented.  The net-yield calculator of the API, which raises to a
      fractional power, is modelled over an interface of float operations
      instead (section [NetYield]).
    - A [dict] that is iterated in insertion order is an association list.
    - A function that can raise returns a [result]. *)

From Stdlib Require Import ZArith QArith Qcanon String Ascii List Bool Lia Permutation.
From Stdlib Require Import Reals Lra Sorted.
From stdpp Require Import base decidable list strings gmap numbers countable.

Import ListNotations.
Local Open Scope string_scope.
Local Open Scope Z_scope.

(** ** Python text primitives *)

Module Text.

Definition code (c : ascii) : N := N_of_ascii c.

(** [c.isdigit()] for code points below 256: the ten ASCII digits. *)
Definition is_digit (c : ascii) : bool :=
  (48 <=? code c)%N && (code c <=? 57)%N.

Definition digit_val (c : ascii) : Z := Z.of_N (code c) - 48.

(** [c.isspace()], also the class [\s] of [re] on [str] patterns. *)
Definition is_space (c : ascii) : bool :=
  let n := code c in
  ((9 <=? n)%N && (n <=? 13)%N) || ((28 <=? n)%N && (n <=? 32)%N)
  || (n =? 133)%N || (n =? 160)%N.

Definition is_ascii_lower (c : ascii) : bool :=
  (97 <=? code c)%N && (code c <=? 122)%N.

(** The class [\w] of [re] on [str] patterns, restricted to code points
    below 256: letters, digits and the underscore. *)
Definition is_word (c : ascii) : bool :=
  let n := code c in
  is_digit c || is_ascii_lower c || ((65 <=? n)%N && (n <=? 90)%N)
  || (n =? 95)%N || (n =? 170)%N || (n =? 181)%N || (n =? 186)%N
  || ((192 <=? n)%N && (n <=? 255)%N && negb (n =? 215)%N && negb (n =? 247)%N)
  || (n =? 178)%N || (n =? 179)%N || (n =? 185)%N
  || (n =? 188)%N || (n =? 189)%N || (n =? 190)%N.

(** [c.lower()]: A-Z and the upper-case letters of Latin-1. *)
Definition lower_char (c : ascii) : ascii :=
  let n := code c in
  if ((65 <=? n)%N && (n <=? 90)%N)
     || ((192 <=? n)%N && (n <=? 222)%N && negb (n =? 215)%N)
  then ascii_of_N (n + 32) else c.

(** [c.upper()] on the letters the scrapers meet: a-z and the lower-case
    letters of Latin-1 that have a one-character upper case below 256. *)
Definition upper_char (c : ascii) : ascii :=
  let n := code c in
  if ((97 <=? n)%N && (n <=? 122)%N)
     || ((224 <=? n)%N && (n <=? 254)%N && negb (n =? 247)%N)
  then ascii_of_N (n - 32) else c.

Fixpoint map_chars (f : ascii -> ascii) (s : string) : string :=
  match s with
  | EmptyString => EmptyString
  | String c s' => String (f c) (map_chars f s')
  end.

Definition lower (s : string) : string := map_chars lower_char s.
Definition upper (s : string) : string := map_chars upper_char s.

Fixpoint lstrip (s : string) : string :=
  match s with
  | String c s' => if is_space c then lstrip s' else s
  | EmptyString => EmptyString
  end.

Fixpoint rstrip (s : string) : string :=
  match s with
  | EmptyString => EmptyString
  | String c s' =>
      match rstrip s' with
      | EmptyString => if is_space c then EmptyString else String c EmptyString
      | r => String c r
      end
  end.

(** [s.strip()] *)
Definition strip (s : string) : string := rstrip (lstrip s).

(** [s.startswith(p)] *)
Fixpoint starts_with (p s : string) : bool :=
  match p, s with
  | EmptyString, _ => true
  | String a p', String b s' => Ascii.eqb a b && starts_with p' s'
  | String _ _, EmptyString => false
  end.

(** [p in s] *)
Fixpoint contains (p s : string) : bool :=
  starts_with p s ||
  match s with
  | EmptyString => false
  | String _ s' => contains p s'
  end.

(** [s.replace(old, new)] for a non-empty [old]: the occurrences are
    replaced from left to right without overlap.  [skip] counts the
    characters of the occurrence under replacement that are still to be
    dropped. *)
Fixpoint replace_from (old new : string) (skip : nat) (s : string) : string :=
  match s with
  | EmptyString => EmptyString
  | String c s' =>
      match skip with
      | S k => replace_from old new k s'
      | O =>
          if starts_with old s
          then String.append new (replace_from old new (Nat.pred (String.length old)) s')
          else String c (replace_from old new O s')
      end
  end.

Definition replace (old new s : string) : string := replace_from old new O s.

(** [any(kw in s for kw in kws)] *)
Definition any_in (kws : list string) (s : string) : bool :=
  existsb (fun kw => contains kw s) kws.

(** [s[:n]] for [n >= 0] *)
Fixpoint take (n : nat) (s : string) : string :=
  match n, s with
  | S k, String c s' => String c (take k s')
  | _, _ => EmptyString
  end.

(** The truth value of a string: [not s] holds of the empty string only. *)
Definition truthy (s : string) : bool :=
  match s with EmptyString => false | _ => true end.

(** The value of a run of decimal digits, [int(s)] for such an [s],
    continuing from [acc]. *)
Fixpoint digits_value (acc : Z) (s : string) : Z :=
  match s with
  | EmptyString => acc
  | String c s' => digits_value (10 * acc + digit_val c) s'
  end.

(** [all(P(c) for c in s)] *)
Fixpoint all_chars (P : ascii -> bool) (s : string) : bool :=
  match s with
  | EmptyString => true
  | String c s' => P c && all_chars P s'
  end.

End Text.

(** ** The fragment of Python's [re] that the scrapers use *)

Module Re.

Inductive regex : Type :=
| Eps                         (* the empty pattern *)
| Cls (p : ascii -> bool)     (* one character of a class *)
| Seq (r1 r2 : regex)
| Alt (r1 r2 : regex)         (* r1|r2, r1 tried first *)
| Star (r : regex)            (* r*, greedy *)
| Group (i : nat) (r : regex) (* the capturing group number i *).

Definition Chr (c : ascii) : regex := Cls (Ascii.eqb c).
Definition Opt (r : regex) : regex := Alt r Eps.        (* r? *)
Definition Plus (r : regex) : regex := Seq r (Star r).  (* r+ *)
Definition digit : regex := Cls Text.is_digit.          (* \d *)
Definition space : regex := Cls Text.is_space.          (* \s *)

Fixpoint Lit (s : string) : regex :=
  match s with
  | EmptyString => Eps
  | String c s' => Seq (Chr c) (Lit s')
  end.

(** The groups matched so far, most recent first. *)
Definition captures : Type := list (nat * string).

Definition group (i : nat) (cs : captures) : string :=
  match List.find (fun p => Nat.eqb (fst p) i) cs with
  | Some p => snd p
  | None => EmptyString
  end.

(** A backtracking matcher in continuation-passing style: [run r s cs k]
    matches [r] at the start of [s] and hands the rest of the input and
    the groups to [k]; when [k] fails the next alternative is tried, in
    the order of [re]: the first branch of [|] before the second, one
    more iteration of [*] before none. *)
Fixpoint run {A : Type} (r : regex) (s : string) (cs : captures)
         (k : string -> captures -> option A) {struct r} : option A :=
  match r with
  | Eps => k s cs
  | Cls p =>
      match s with
      | String c s' => if p c then k s' cs else None
      | EmptyString => None
      end
  | Seq r1 r2 => run r1 s cs (fun s1 cs1 => run r2 s1 cs1 k)
  | Alt r1 r2 =>
      match run r1 s cs k with
      | Some a => Some a
      | None => run r2 s cs k
      end
  | Star r1 =>
      (fix iter (fuel : nat) (s0 : string) (cs0 : captures) {struct fuel} : option A :=
         match fuel with
         | O => k s0 cs0
         | S fuel' =>
             match run r1 s0 cs0
                     (fun s1 cs1 =>
                        if (String.length s1 <? String.length s0)%nat
                        then iter fuel' s1 cs1 else None) with
             | Some a => Some a
             | None => k s0 cs0
             end
         end) (String.length s) s cs
  | Group i r1 =>
      run r1 s cs
          (fun s1 cs1 =>
             k s1 ((i, Text.take (String.length s - String.length s1) s) :: cs1))
  end.

(** [re.match(r, s)]: the groups and the unmatched rest. *)
Definition match_at (r : regex) (s : string) : option (captures * string) :=
  run r s [] (fun rest cs => Some (cs, rest)).

(** [re.search(r, s)]: the leftmost match. *)
Fixpoint search (r : regex) (s : string) : option captures :=
  match match_at r s with
  | Some (cs, _) => Some cs
  | None =>
      match s with
      | EmptyString => None
      | String _ s' => search r s'
      end
  end.

(** The successive non-overlapping matches of [r] in [s], from left to
    right, as [re.finditer] yields them: for each one the text skipped
    before it and its groups; and the text after the last one.  An empty
    match advances by one character. *)
Fixpoint scan (fuel : nat) (r : regex) (pre s : string)
  : list (string * captures) * string :=
  match fuel with
  | O => ([], String.append pre s)
  | S fuel' =>
      match match_at r s with
      | Some (cs, rest) =>
          if (String.length rest <? String.length s)%nat
          then let '(ms, tl) := scan fuel' r EmptyString rest in
               ((pre, cs) :: ms, tl)
          else
            match s with
            | EmptyString => ([(pre, cs)], EmptyString)
            | String c s' =>
                let '(ms, tl) := scan fuel' r (String c EmptyString) s' in
                ((pre, cs) :: ms, tl)
            end
      | None =>
          match s with
          | EmptyString => ([], pre)
          | String c s' => scan fuel' r (String.append pre (String c EmptyString)) s'
          end
      end
  end.

Definition matches (r : regex) (s : string) : list (string * captures) * string :=
  scan (S (String.length s)) r EmptyString s.

(** [re.findall(r, s)] for a pattern with one group. *)
Definition findall1 (r : regex) (s : string) : list string :=
  map (fun m => group 1 (snd m)) (fst (matches r s)).

(** [re.findall(r, s)] for a pattern with two groups. *)
Definition findall2 (r : regex) (s : string) : list (string * string) :=
  map (fun m => (group 1 (snd m), group 2 (snd m))) (fst (matches r s)).

(** [re.sub(r, repl, s)] for a replacement without group references. *)
Definition sub (r : regex) (repl s : string) : string :=
  let '(ms, tl) := matches r s in
  String.append
    (fold_right (fun m acc => String.append (fst m) (String.append repl acc))
                EmptyString ms)
    tl.

(** A pattern without groups, each class of which lies within [P]: what
    it matches is made of characters of [P]. *)
Fixpoint within (P : ascii -> bool) (r : regex) : Prop :=
  match r with
  | Eps => True
  | Cls p => forall c, p c = true -> P c = true
  | Seq r1 r2 => within P r1 /\ within P r2
  | Alt r1 r2 => within P r1 /\ within P r2
  | Star r1 => within P r1
  | Group _ _ => False
  end.

Definition any_char (c : ascii) : bool := true.

(** The groups of a match whose one group is a run of digits. *)
Definition digits_group1 (cs : captures) : Prop :=
  exists d, cs = [(1%nat, d)] /\ Text.all_chars Text.is_digit d = true.

End Re.


(** ** Python floats, as exact rationals *)

Module PyFloat.

Definition of_Z (z : Z) : Qc := Q2Qc (inject_Z z).

(** The truth value of a float: [not x] holds of zero only. *)
Definition truthy (x : Qc) : bool := negb (Qeq_bool x 0).

Definition ltb (x y : Qc) : bool :=
  match (x ?= y)%Qc with Lt => true | _ => false end.
Definition leb (x y : Qc) : bool :=
  match (x ?= y)%Qc with Gt => false | _ => true end.
Definition eqb (x y : Qc) : bool := Qeq_bool x y.

(** [m * 10^e] *)
Definition scale10 (m e : Z) : Qc :=
  if 0 <=? e then of_Z (m * 10 ^ e)
  else Q2Qc (m # Z.to_pos (10 ^ (- e))).

(** The integer nearest to [q], ties to the even one. *)
Definition round_half_even (q : Q) : Z :=
  let n := Qnum q in
  let d := Zpos (Qden q) in
  let f := n / d in
  match (2 * (n mod d) ?= d) with
  | Lt => f
  | Gt => f + 1
  | Eq => if Z.even f then f else f + 1
  end.

(** [round(x, n)] for [n >= 0] *)
Definition round_ndigits (x : Qc) (n : nat) : Qc :=
  let p := 10 ^ Z.of_nat n in
  Q2Qc (round_half_even (x * inject_Z p) # Z.to_pos p).

(** *** [float(text)]

    The grammar of a float literal: a sign, digits with an optional
    fraction (or a fraction alone), an optional exponent; single
    underscores may separate digits; white space around the literal is
    ignored.  A text outside the grammar raises [ValueError]: [None]. *)

(** A [digitpart]: its value, its number of digits and the rest. *)
Fixpoint digit_run (s : string) (acc : Z) (cnt : nat) : Z * nat * string :=
  match s with
  | EmptyString => (acc, cnt, s)
  | String c s' =>
      if Text.is_digit c
      then digit_run s' (10 * acc + Text.digit_val c) (S cnt)
      else if Ascii.eqb c "_" && (0 <? cnt)%nat
           then match s' with
                | String c2 _ =>
                    if Text.is_digit c2 then digit_run s' acc cnt else (acc, cnt, s)
                | EmptyString => (acc, cnt, s)
                end
           else (acc, cnt, s)
  end.

Definition sign (s : string) : bool * string :=
  match s with
  | String "-" s' => (true, s')
  | String "+" s' => (false, s')
  | _ => (false, s)
  end.

Definition exponent (s : string) : option Z :=
  match s with
  | EmptyString => Some 0
  | String c s' =>
      if Ascii.eqb c "e" || Ascii.eqb c "E"
      then let '(neg, s1) := sign s' in
           let '(ev, ec, s2) := digit_run s1 0 O in
           match ec, s2 with
           | S _, EmptyString => Some (if neg then - ev else ev)
           | _, _ => None
           end
      else None
  end.

Definition of_string (text : string) : option Qc :=
  let '(neg, s1) := sign (Text.strip text) in
  let '(ip, ic, s2) := digit_run s1 0 O in
  let '(fp, fc, s3) :=
    match s2 with
    | String "." s' => digit_run s' 0 O
    | _ => (0, O, s2)
    end in
  match (ic + fc)%nat with
  | O => None
  | S _ =>
      match exponent s3 with
      | Some e =>
          let m := ip * 10 ^ Z.of_nat fc + fp in
          Some (scale10 (if neg then - m else m) (e - Z.of_nat fc))
      | None => None
      end
  end.

(** *** [str(x)] for a float with at most two decimals

    Below [10^16] the shortest representation that reads back as the same
    float is the positional one, with at least one decimal: [9.5],
    [50.0], [12.34]. *)

Definition digit_char (d : Z) : ascii := ascii_of_N (Z.to_N (48 + d)).

Fixpoint digits_onto (fuel : nat) (n : Z) (acc : string) : string :=
  match fuel with
  | O => acc
  | S fuel' =>
      let acc' := String (digit_char (n mod 10)) acc in
      if n / 10 =? 0 then acc' else digits_onto fuel' (n / 10) acc'
  end.

(** [str(n)] for an int [n >= 0] *)
Definition str_nat (n : Z) (tail : string) : string :=
  digits_onto (S (Z.to_nat (Z.log2 n))) n tail.

(** The hundredths of [x], [x] being a multiple of [1/100]. *)
Definition hundredths (x : Qc) : Z := round_half_even (x * inject_Z 100).


(** The characters of such a representation, the sign apart. *)
Definition is_decimal_char (c : ascii) : bool :=
  Text.is_digit c || Ascii.eqb c ".".

End PyFloat.

(** ** The data model ([base_scraper.py]) *)

(** [CDTRate] *)
Record CDTRate : Type := mkCDTRate {
  bank_code : string;
  bank_name : string;
  term_days : Z;
  rate_ea : Qc;
  min_amount : option Qc;
  max_amount : option Qc;
  rate_type : string;
  payment_frequency : string;
  investment_type : string;
  special_conditions : option string;
  source_url : string;
  scraped_at : string
}.

(** [ScrapingResult] *)
Record ScrapingResult : Type := mkScrapingResult {
  sr_bank_code : string;
  sr_bank_name : string;
  success : bool;
  rates : list CDTRate;
  error_message : option string;
  sr_scraped_at : string;
  scraping_duration : Qc
}.

(** [BankConfig], the fields the scrapers read *)
Record BankConfig : Type := mkBankConfig {
  cfg_name : string;
  cfg_code : string;
  cfg_url : string
}.

(** [STANDARD_TERMS] of [config.py] *)
Definition STANDARD_TERMS : list Z := [30; 60; 90; 180; 360; 540; 720].

(** ** Exceptions *)

(** A raised exception: whether it is an instance of [Exception] (a fault)
    or only of [BaseException] ([KeyboardInterrupt], [SystemExit]), and its
    [str]. *)
Record PyExc : Type := mkPyExc {
  exc_is_Exception : bool;
  exc_str : string
}.

Inductive outcome (A : Type) : Type :=
| Returned (a : A)
| Raised (e : PyExc).
Arguments Returned {A} a.
Arguments Raised {A} e.

(** The error monad, with stdpp's notation [x ← m; k]. *)
Global Instance outcome_ret : MRet outcome := fun A a => Returned a.
Global Instance outcome_bind : MBind outcome := fun A B f m =>
  match m with
  | Returned a => f a
  | Raised e => Raised e
  end.

Definition ZeroDivisionError : PyExc := mkPyExc true "division by zero".

(** [x / y] on numbers *)
Definition py_div (x y : Qc) : outcome Qc :=
  if Qeq_bool y 0 then Raised ZeroDivisionError else Returned (x / y)%Qc.

(** ** [BaseScraper]: the text normalisers and [run] *)

Module BaseScraper.

Definition i_acute : ascii := ascii_of_N 237.
Definition n_tilde : ascii := ascii_of_N 241.

Definition one_of (cs : list ascii) : Re.regex :=
  Re.Cls (fun c => existsb (Ascii.eqb c) cs).

(** [(\d+)\s*d[ií]as?] *)
Definition re_dias : Re.regex :=
  Re.Seq (Re.Group 1 (Re.Plus Re.digit))
    (Re.Seq (Re.Star Re.space)
       (Re.Seq (Re.Chr "d")
          (Re.Seq (one_of ["i"%char; i_acute])
             (Re.Seq (Re.Chr "a") (Re.Opt (Re.Chr "s")))))).

(** [(\d+)\s*mes(?:es)?] *)
Definition re_meses : Re.regex :=
  Re.Seq (Re.Group 1 (Re.Plus Re.digit))
    (Re.Seq (Re.Star Re.space)
       (Re.Seq (Re.Lit "mes") (Re.Opt (Re.Lit "es")))).

(** [(\d+)\s*a[ñn]os?] *)
Definition re_anos : Re.regex :=
  Re.Seq (Re.Group 1 (Re.Plus Re.digit))
    (Re.Seq (Re.Star Re.space)
       (Re.Seq (Re.Chr "a")
          (Re.Seq (one_of [n_tilde; "n"%char])
             (Re.Seq (Re.Chr "o") (Re.Opt (Re.Chr "s")))))).

(** [(\d+)] *)
Definition re_number : Re.regex := Re.Group 1 (Re.Plus Re.digit).

(** [int(match.group(1))] *)
Definition int_group1 (cs : Re.captures) : Z :=
  Text.digits_value 0 (Re.group 1 cs).

(** [_parse_rate] *)
Definition _parse_rate (text : string) : option Qc :=
  if negb (Text.truthy text) then None
  else
    let text := Text.replace " " ""
                  (Text.replace "," "."
                     (Text.replace "%" "" (Text.strip text))) in
    let text := Text.replace "e.a." ""
                  (Text.replace "EA" ""
                     (Text.replace "E.A." "" text)) in
    match PyFloat.of_string text with
    | Some rate =>
        let rate := if PyFloat.ltb 1 rate then (rate / PyFloat.of_Z 100)%Qc else rate in
        Some (PyFloat.round_ndigits (rate * PyFloat.of_Z 100)%Qc 2)
    | None => None
    end.

(** [_parse_amount] *)
Definition _parse_amount (text : string) : option Qc :=
  if negb (Text.truthy text) then None
  else
    let text := Text.replace "," ""
                  (Text.replace "." ""
                     (Text.replace "$" "" (Text.strip text))) in
    let text := Text.strip (Text.replace "cop" "" (Text.replace "COP" "" text)) in
    if Text.contains "M" (Text.upper text)
    then
      let text := Text.strip (Text.replace "M" "" (Text.upper text)) in
      match PyFloat.of_string text with
      | Some v => Some (v * PyFloat.of_Z 1000000)%Qc
      | None => None
      end
    else PyFloat.of_string text.

(** [_parse_term], with the threshold under which a bare number counts
    months: 36 here, 24 in the MejorCDT scraper. *)
Definition parse_term_with (months_below : Z) (text : string) : option Z :=
  if negb (Text.truthy text) then None
  else
    let text := Text.lower (Text.strip text) in
    match Re.search re_dias text with
    | Some cs => Some (int_group1 cs)
    | None =>
        match Re.search re_meses text with
        | Some cs => Some (int_group1 cs * 30)
        | None =>
            match Re.search re_anos text with
            | Some cs => Some (int_group1 cs * 365)
            | None =>
                match Re.search re_number text with
                | Some cs =>
                    let num := int_group1 cs in
                    if num <=? months_below then Some (num * 30) else Some num
                | None => None
                end
            end
        end
    end.

Definition _parse_term : string -> option Z := parse_term_with 36.

(** The readings of the clock during one [run]: [time.time()] at the
    start, [datetime.now().isoformat()], and [time.time()] at the end. *)
Record Clock : Type := mkClock {
  start_time : Qc;
  now_iso : string;
  end_time : Qc
}.

Definition stamp (at_ : string) (r : CDTRate) : CDTRate :=
  mkCDTRate (bank_code r) (bank_name r) (term_days r) (rate_ea r)
            (min_amount r) (max_amount r) (rate_type r)
            (payment_frequency r) (investment_type r)
            (special_conditions r) (source_url r) at_.

(** [run]: [scrape] is the abstract method, given by what it does when
    called: return a result or raise. *)
Definition run (config : BankConfig) (clock : Clock)
           (scrape : outcome ScrapingResult) : outcome ScrapingResult :=
  let scraped_at := now_iso clock in
  match scrape with
  | Returned result =>
      Returned (mkScrapingResult
                  (sr_bank_code result) (sr_bank_name result)
                  (success result)
                  (map (stamp scraped_at) (rates result))
                  (error_message result)
                  scraped_at
                  (end_time clock - start_time clock)%Qc)
  | Raised e =>
      if exc_is_Exception e
      then Returned (mkScrapingResult
                       (cfg_code config) (cfg_name config)
                       false [] (Some (exc_str e))
                       scraped_at
                       (end_time clock - start_time clock)%Qc)
      else Raised e
  end.

End BaseScraper.

(** ** The parsed document, as the scrapers see it *)

(** A [<table>]: its [get_text()], the [get_text()] of its parent, of its
    grandparent and so on upwards, and its [<tr>] rows, each one the
    [get_text()] of its [<th>] and [<td>] cells. *)
Record Table : Type := mkTable {
  tbl_text : string;
  tbl_ancestors : list string;
  tbl_rows : list (list string)
}.

(** A block whose class names it a card: its [get_text()] and the
    [get_text()] of its first heading-like descendant, if any. *)
Record Card : Type := mkCard {
  card_text : string;
  card_title : option string
}.

(** A page: [find_all('table')], the blocks matched by the card pattern,
    and [get_text()] of the whole. *)
Record Document : Type := mkDocument {
  doc_tables : list Table;
  doc_cards : list Card;
  doc_text : string
}.

(** [get_text()] of a table that holds nothing but its rows: the texts of
    the cells, one after the other. *)
Definition text_of_rows (rows : list (list string)) : string :=
  fold_right String.append EmptyString (concat rows).

(** The key on which the scrapers deduplicate. *)
Definition rate_key : Type := string * Z * Qc.

(** [enumerate(l)] *)
Definition enumerate {A : Type} (l : list A) : list (nat * A) :=
  combine (seq 0 (length l)) l.

(** [cells[col].get_text() if col is not None and col < len(cells) else ''] *)
Definition cell_text (col : option nat) (cells : list string) : string :=
  match col with
  | Some i => match nth_error cells i with Some t => t | None => EmptyString end
  | None => EmptyString
  end.

(** ** [GenericTableScraper] *)

Module GenericTableScraper.

Definition rate_keywords : list string :=
  ["tasa"; "rate"; "e.a"; "ea"; "rendimiento"; "interes"; "%"].
Definition term_keywords : list string :=
  ["plazo"; "dias"; "meses"; "term"; "periodo"; "tiempo"].
Definition amount_keywords : list string :=
  ["monto"; "inversion"; "amount"; "valor"; "capital"].

Definition dot_or_comma : Re.regex := BaseScraper.one_of ["."%char; ","%char].

(** [\d+[.,]\d*\s*%] *)
Definition re_percent : Re.regex :=
  Re.Seq (Re.Plus Re.digit)
    (Re.Seq dot_or_comma
       (Re.Seq (Re.Star Re.digit) (Re.Seq (Re.Star Re.space) (Re.Chr "%")))).

(** [\d+[.,]\d*\s*e\.?a\.?] *)
Definition re_ea : Re.regex :=
  Re.Seq (Re.Plus Re.digit)
    (Re.Seq dot_or_comma
       (Re.Seq (Re.Star Re.digit)
          (Re.Seq (Re.Star Re.space)
             (Re.Seq (Re.Chr "e")
                (Re.Seq (Re.Opt (Re.Chr "."))
                   (Re.Seq (Re.Chr "a") (Re.Opt (Re.Chr ".")))))))).

(** [\d+\s*d[ií]as?] *)
Definition re_dias : Re.regex :=
  Re.Seq (Re.Plus Re.digit)
    (Re.Seq (Re.Star Re.space)
       (Re.Seq (Re.Chr "d")
          (Re.Seq (BaseScraper.one_of ["i"%char; BaseScraper.i_acute])
             (Re.Seq (Re.Chr "a") (Re.Opt (Re.Chr "s")))))).

(** [\d+\s*mes(es)?] *)
Definition re_meses : Re.regex :=
  Re.Seq (Re.Plus Re.digit)
    (Re.Seq (Re.Star Re.space)
       (Re.Seq (Re.Lit "mes") (Re.Opt (Re.Group 1 (Re.Lit "es"))))).

Definition found (r : Re.regex) (s : string) : bool :=
  match Re.search r s with Some _ => true | None => false end.

(** [_is_rate_cell] *)
Definition _is_rate_cell (text : string) : bool :=
  let text := Text.lower text in
  if found re_percent text then true
  else if found re_ea text then true
  else false.

(** [_is_term_cell] *)
Definition _is_term_cell (text : string) : bool :=
  let text := Text.lower text in
  if found re_dias text then true
  else if found re_meses text then true
  else false.

(** The text gathered from up to three levels of parents, 500
    characters of each. *)
Definition context_of (table : Table) : string :=
  fold_left
    (fun context parent => String.append context (Text.lower (Text.take 500 parent)))
    (firstn 3 (tbl_ancestors table)) EmptyString.

(** [_extract_tables] *)
Definition _extract_tables (soup : Document) : list Table :=
  List.filter
    (fun table =>
       let table_text := Text.lower (tbl_text table) in
       let context := context_of table in
       existsb
         (fun keyword => Text.contains keyword table_text || Text.contains keyword context)
         ["cdt"; "tasa"; "plazo"; "inversion"; "deposito"])
    (doc_tables soup).

(** The column, if any, whose header holds one of the keywords: the loop
    over the headers overwrites, so the last such column stays. *)
Definition header_col (kws : list string) (headers : list string) : option nat :=
  fold_left
    (fun col ih => if Text.any_in kws (snd ih) then Some (fst ih) else col)
    (enumerate headers) None.

(** The first cell of the row that passes the test: the loop breaks. *)
Definition content_col (test : string -> bool) (cells : list string) : option nat :=
  match List.find (fun ic => test (snd ic)) (enumerate cells) with
  | Some ic => Some (fst ic)
  | None => None
  end.

(** The body of the loop over the data rows of [_parse_table]. *)
Definition parse_row (config : BankConfig) (term_col rate_col amount_col : option nat)
           (cells : list string) : list CDTRate :=
  if (length cells <? 2)%nat then []
  else
    let term_text := cell_text term_col cells in
    let rate_text := cell_text rate_col cells in
    let amount_text := cell_text amount_col cells in
    let term_days := BaseScraper._parse_term term_text in
    let rate_ea := BaseScraper._parse_rate rate_text in
    let min_amount := BaseScraper._parse_amount amount_text in
    match term_days, rate_ea with
    | Some t, Some r =>
        if negb (t =? 0) && PyFloat.truthy r
        then [mkCDTRate (cfg_code config) (cfg_name config) t r min_amount None
                        "fijo" "vencimiento" "CDT" None (cfg_url config) ""]
        else []
    | _, _ => []
    end.

(** [_parse_table] *)
Definition _parse_table (config : BankConfig) (table : Table) : list CDTRate :=
  match tbl_rows table with
  | [] => []
  | header_row :: data_rows =>
      let headers := map (fun th => Text.lower (Text.strip th)) header_row in
      let term_col := header_col term_keywords headers in
      let rate_col := header_col rate_keywords headers in
      let amount_col := header_col amount_keywords headers in
      let rate_col :=
        match rate_col, data_rows with
        | None, second :: _ =>
            match content_col _is_rate_cell second with
            | Some i => Some i
            | None => rate_col
            end
        | _, _ => rate_col
        end in
      let term_col :=
        match term_col, data_rows with
        | None, second :: _ =>
            match content_col _is_term_cell second with
            | Some i => Some i
            | None => term_col
            end
        | _, _ => term_col
        end in
      flat_map (parse_row config term_col rate_col amount_col) data_rows
  end.

Definition key (rate : CDTRate) : rate_key :=
  (bank_code rate, term_days rate, rate_ea rate).

(** The loop that drops duplicates: [seen] is the set of the keys met. *)
Fixpoint unique_from (seen : gset rate_key) (all_rates : list CDTRate) : list CDTRate :=
  match all_rates with
  | [] => []
  | rate :: rest =>
      if decide (key rate ∈ seen)
      then unique_from seen rest
      else rate :: unique_from ({[ key rate ]} ∪ seen) rest
  end.

(** [scrape], on what [_get_page] returned. *)
Definition scrape (config : BankConfig) (page : option Document) : ScrapingResult :=
  match page with
  | None =>
      mkScrapingResult (cfg_code config) (cfg_name config) false []
                       (Some "No se pudo obtener la pagina") "" 0%Qc
  | Some soup =>
      let all_rates := flat_map (_parse_table config) (_extract_tables soup) in
      let unique_rates := unique_from ∅ all_rates in
      mkScrapingResult (cfg_code config) (cfg_name config)
                       (0 <? length unique_rates)%nat
                       unique_rates
                       (match unique_rates with
                        | [] => Some "No se encontraron tasas"
                        | _ => None
                        end)
                       "" 0%Qc
  end.

End GenericTableScraper.

(** ** [MejorCDTScraper] *)

(** [CDTRateFromMejorCDT] *)
Record CDTRateFromMejorCDT : Type := mkMejorRate {
  m_bank_name : string;
  m_bank_code : string;
  m_rate_ea : Qc;
  m_term_days : Z;
  m_min_amount : option Qc;
  m_max_amount : option Qc;
  m_rate_type : string;
  m_source_url : string;
  m_source_month : string;
  m_scraped_at : string
}.

Module MejorCDTScraper.

Definition a_acute : ascii := ascii_of_N 225.
Definition e_acute : ascii := ascii_of_N 233.
Definition o_acute : ascii := ascii_of_N 243.
Definition u_acute : ascii := ascii_of_N 250.

Definition with_char (pre : string) (c : ascii) : string :=
  String.append pre (String c EmptyString).

(** [BANK_CODE_MAP], in the order of the source. *)
Definition BANK_CODE_MAP : list (string * string) :=
  [ ("bancolombia", "bancolombia");
    ("davivienda", "davivienda");
    ("bbva", "bbva");
    ("banco de bogota", "banco_bogota");
    (with_char "banco de bogot" a_acute, "banco_bogota");
    ("av villas", "av_villas");
    ("banco popular", "popular");
    ("banco de occidente", "occidente");
    ("scotiabank colpatria", "colpatria");
    ("colpatria", "colpatria");
    ("coltefinanciera", "coltefinanciera");
    ("serfinanza", "serfinanza");
    ("ban100", "ban100");
    ("banco finandina", "finandina");
    ("finandina", "finandina");
    ("banco pichincha", "pichincha");
    ("pichincha", "pichincha");
    ("banco falabella", "falabella");
    ("falabella", "falabella");
    ("bancoomeva", "bancoomeva");
    ("gnb sudameris", "gnb_sudameris");
    ("itau", "itau");
    (with_char "ita" u_acute, "itau");
    ("banco caja social", "caja_social");
    ("caja social", "caja_social");
    ("lulo bank", "lulo_bank");
    ("nu colombia", "nubank");
    ("nubank", "nubank");
    ("banco agrario", "agrario");
    ("bancamia", "bancamia");
    ("banco w", "banco_w");
    ("mibanco", "mibanco");
    ("mundo mujer", "mundo_mujer");
    ("coopcentral", "coopcentral");
    ("confiar", "confiar");
    ("credifamilia", "credifamilia");
    ("dann regional", "dann_regional") ].

(** [[^a-z0-9]] *)
Definition re_not_code_char : Re.regex :=
  Re.Cls (fun c => negb (Text.is_ascii_lower c || Text.is_digit c)).

(** [_get_bank_code] *)
Definition _get_bank_code (bank_name : string) : string :=
  let name_lower := Text.strip (Text.lower bank_name) in
  match List.find
          (fun kc => Text.contains (fst kc) name_lower || Text.contains name_lower (fst kc))
          BANK_CODE_MAP with
  | Some kc => snd kc
  | None => Re.sub re_not_code_char "_" name_lower
  end.

(** [[eE]\.?[aA]\.?] *)
Definition re_ea_marker : Re.regex :=
  Re.Seq (BaseScraper.one_of ["e"%char; "E"%char])
    (Re.Seq (Re.Opt (Re.Chr "."))
       (Re.Seq (BaseScraper.one_of ["a"%char; "A"%char]) (Re.Opt (Re.Chr ".")))).

(** [_parse_rate] *)
Definition _parse_rate (text : string) : option Qc :=
  if negb (Text.truthy text) then None
  else
    let text := Text.replace " " ""
                  (Text.replace "," "."
                     (Text.replace "%" "" (Text.strip text))) in
    let text := Re.sub re_ea_marker "" text in
    match PyFloat.of_string text with
    | Some rate => Some (PyFloat.round_ndigits rate 2)
    | None => None
    end.

(** [(\d+(?:\.\d+)?)\s*[mM]] *)
Definition re_millions : Re.regex :=
  Re.Seq
    (Re.Group 1
       (Re.Seq (Re.Plus Re.digit)
          (Re.Opt (Re.Seq (Re.Chr ".") (Re.Plus Re.digit)))))
    (Re.Seq (Re.Star Re.space) (BaseScraper.one_of ["m"%char; "M"%char])).

(** [[^\d]] *)
Definition re_not_digit : Re.regex := Re.Cls (fun c => negb (Text.is_digit c)).

(** [_parse_amount].  The group of [re_millions] is a float literal, so
    the first [float(...)] cannot raise. *)
Definition _parse_amount (text : string) : option Qc :=
  if negb (Text.truthy text) then None
  else
    let text := Text.replace "," ""
                  (Text.replace "." ""
                     (Text.replace "$" "" (Text.strip text))) in
    let text := Text.strip (Text.replace "COP" "" text) in
    match Re.search re_millions text with
    | Some cs =>
        match PyFloat.of_string (Re.group 1 cs) with
        | Some v => Some (v * PyFloat.of_Z 1000000)%Qc
        | None => None
        end
    | None => PyFloat.of_string (Re.sub re_not_digit "" text)
    end.

(** [_parse_term] *)
Definition _parse_term : string -> option Z := BaseScraper.parse_term_with 24.

(** [x or 360] on an optional int *)
Definition or_360 (x : option Z) : Z :=
  match x with
  | Some t => if t =? 0 then 360 else t
  | None => 360
  end.

(** [1 < rate < 25], after [rate and]. *)
Definition plausible (rate : Qc) : bool :=
  PyFloat.truthy rate && PyFloat.ltb 1 rate && PyFloat.ltb rate (PyFloat.of_Z 25).

(** The columns found from the headers of a table: the chain of [elif]
    gives each header to one kind at most. *)
Record Columns : Type := mkColumns {
  bank_col : option nat;
  rate_col : option nat;
  term_col : option nat;
  amount_col : option nat
}.

Definition classify (cols : Columns) (ih : nat * string) : Columns :=
  let '(i, h) := ih in
  if Text.any_in ["banco"; "entidad"; "institucion"] h
  then mkColumns (Some i) (rate_col cols) (term_col cols) (amount_col cols)
  else if Text.any_in ["tasa"; "rate"; "e.a"; "rendimiento"; "%"] h
  then mkColumns (bank_col cols) (Some i) (term_col cols) (amount_col cols)
  else if Text.any_in ["plazo"; "dias"; "meses"; "term"] h
  then mkColumns (bank_col cols) (rate_col cols) (Some i) (amount_col cols)
  else if Text.any_in ["monto"; "inversion"; "minimo"] h
  then mkColumns (bank_col cols) (rate_col cols) (term_col cols) (Some i)
  else cols.

(** When no header names a rate: the first header that reads as a number
    of days gives the rate column, and the term column defaults to the
    first one ([term_col or 0]). *)
Definition days_header_fallback (headers : list string) (cols : Columns) : Columns :=
  match rate_col cols with
  | Some _ => cols
  | None =>
      match List.find (fun ih => GenericTableScraper.found GenericTableScraper.re_dias (snd ih))
                      (enumerate headers) with
      | Some ih =>
          mkColumns (bank_col cols) (Some (fst ih))
                    (match term_col cols with
                     | Some (S t) => Some (S t)
                     | _ => Some O
                     end)
                    (amount_col cols)
      | None => cols
      end
  end.

(** The page being scraped: its URL, the month read from it, the time. *)
Record Origin : Type := mkOrigin {
  o_source_url : string;
  o_source_month : string;
  o_scraped_at : string
}.

(** The body of the loop over the cells of one row. *)
Definition rates_of_cell (origin : Origin) (headers : list string) (cols : Columns)
           (cells : list string) (bank_name : string) (ic : nat * string)
  : list CDTRateFromMejorCDT :=
  let '(i, cell) := ic in
  if match bank_col cols with Some b => Nat.eqb i b | None => false end then []
  else
    match _parse_rate (Text.strip cell) with
    | Some rate =>
        if plausible rate
        then
          let term_days :=
            match term_col cols with
            | Some t =>
                if (t <? length cells)%nat
                then or_360 (_parse_term (cell_text (Some t) cells))
                else if (i <? length headers)%nat
                     then or_360 (_parse_term (cell_text (Some i) headers))
                     else 360
            | None =>
                if (i <? length headers)%nat
                then or_360 (_parse_term (cell_text (Some i) headers))
                else 360
            end in
          let min_amount :=
            match amount_col cols with
            | Some a =>
                if (a <? length cells)%nat
                then _parse_amount (cell_text (Some a) cells)
                else None
            | None => None
            end in
          [mkMejorRate bank_name (_get_bank_code bank_name) rate term_days
                       min_amount None "fijo"
                       (o_source_url origin) (o_source_month origin)
                       (o_scraped_at origin)]
        else []
    | None => []
    end.

(** The body of the loop over the data rows. *)
Definition rates_of_row (origin : Origin) (headers : list string) (cols : Columns)
           (cells : list string) : list CDTRateFromMejorCDT :=
  if (length cells <? 2)%nat then []
  else
    let bank_name :=
      match bank_col cols with
      | Some b => if (b <? length cells)%nat
                  then Text.strip (cell_text (Some b) cells) else EmptyString
      | None => EmptyString
      end in
    let bank_name :=
      if Text.truthy bank_name then bank_name
      else Text.strip (cell_text (Some O) cells) in
    if negb (Text.truthy bank_name) || (String.length bank_name <? 3)%nat then []
    else flat_map (rates_of_cell origin headers cols cells bank_name) (enumerate cells).

(** [_extract_rates_from_table] *)
Definition _extract_rates_from_table (origin : Origin) (table : Table)
  : list CDTRateFromMejorCDT :=
  match tbl_rows table with
  | header_row :: (_ :: _) as data_rows =>
      let headers := map (fun th => Text.lower (Text.strip th)) header_row in
      let cols := fold_left classify (enumerate headers)
                            (mkColumns None None None None) in
      let cols := days_header_fallback headers cols in
      flat_map (rates_of_row origin headers cols) data_rows
  | _ => []
  end.

(** [\d{1,2}] *)
Definition one_or_two_digits : Re.regex := Re.Seq Re.digit (Re.Opt Re.digit).

(** [(\d{1,2}[.,]\d{1,2})] as the group number [i] *)
Definition re_rate_number (i : nat) : Re.regex :=
  Re.Group i
    (Re.Seq one_or_two_digits
       (Re.Seq GenericTableScraper.dot_or_comma one_or_two_digits)).

(** [\s*%?\s*[eE]\.?[aA]\.?] *)
Definition re_ea_suffix : Re.regex :=
  Re.Seq (Re.Star Re.space)
    (Re.Seq (Re.Opt (Re.Chr "%")) (Re.Seq (Re.Star Re.space) re_ea_marker)).

(** [(\d{1,2}[.,]\d{1,2})\s*%?\s*[eE]\.?[aA]\.?] *)
Definition re_card_rate : Re.regex := Re.Seq (re_rate_number 1) re_ea_suffix.

(** The record of the card and free-text strategies: the term is 360. *)
Definition default_term_rate (origin : Origin) (bank_name bank_code : string)
           (rate : Qc) : CDTRateFromMejorCDT :=
  mkMejorRate bank_name bank_code rate 360 None None "fijo"
              (o_source_url origin) (o_source_month origin) (o_scraped_at origin).

(** [_extract_rates_from_card] *)
Definition _extract_rates_from_card (origin : Origin) (card : Card)
  : list CDTRateFromMejorCDT :=
  let text := card_text card in
  match card_title card with
  | None => []
  | Some title =>
      let bank_name := Text.strip title in
      if negb (Text.truthy bank_name) || (String.length bank_name <? 3)%nat then []
      else
        flat_map
          (fun rate_str =>
             match _parse_rate rate_str with
             | Some rate =>
                 if plausible rate
                 then [default_term_rate origin bank_name (_get_bank_code bank_name) rate]
                 else []
             | None => []
             end)
          (Re.findall1 re_card_rate text)
  end.

(** [[A-Z]] and [[a-z] with the accented vowels and n tilde] *)
Definition upper_letter : Re.regex :=
  Re.Cls (fun c => (65 <=? Text.code c)%N && (Text.code c <=? 90)%N).
Definition lower_letter : Re.regex :=
  Re.Cls (fun c =>
            Text.is_ascii_lower c
            || existsb (Ascii.eqb c)
                 [a_acute; e_acute; BaseScraper.i_acute; o_acute; u_acute;
                  BaseScraper.n_tilde]).

(** The pattern of the free-text strategy: a capitalised name, an
    optional verb, a rate with its marker. *)
Definition re_sentence : Re.regex :=
  Re.Seq
    (Re.Group 1
       (Re.Seq upper_letter
          (Re.Seq (Re.Plus lower_letter)
             (Re.Star
                (Re.Seq (Re.Plus Re.space)
                   (Re.Seq (Re.Opt upper_letter) (Re.Plus lower_letter)))))))
    (Re.Seq (Re.Plus Re.space)
       (Re.Seq (Re.Opt (Re.Alt (Re.Lit "ofrece") (Re.Alt (Re.Lit "tiene") (Re.Lit "paga"))))
          (Re.Seq (Re.Star Re.space)
             (Re.Seq (re_rate_number 2) re_ea_suffix)))).

(** [_extract_rates_from_text] *)
Definition _extract_rates_from_text (origin : Origin) (soup : Document)
  : list CDTRateFromMejorCDT :=
  flat_map
    (fun m : string * string =>
       let '(bank_name, rate_str) := m in
       if (String.length bank_name <? 3)%nat then []
       else
         match _parse_rate rate_str with
         | Some rate =>
             if plausible rate
             then
               let bank_code := _get_bank_code bank_name in
               if existsb (String.eqb bank_code) (map snd BANK_CODE_MAP)
               then [default_term_rate origin bank_name bank_code rate]
               else []
             else []
         | None => []
         end)
    (Re.findall2 re_sentence (doc_text soup)).

Definition key (rate : CDTRateFromMejorCDT) : rate_key :=
  (m_bank_code rate, m_term_days rate, m_rate_ea rate).

(** [_deduplicate_rates] *)
Fixpoint unique_from (seen : gset rate_key) (rates : list CDTRateFromMejorCDT)
  : list CDTRateFromMejorCDT :=
  match rates with
  | [] => []
  | rate :: rest =>
      if decide (key rate ∈ seen)
      then unique_from seen rest
      else rate :: unique_from ({[ key rate ]} ∪ seen) rest
  end.

Definition _deduplicate_rates (rates : list CDTRateFromMejorCDT)
  : list CDTRateFromMejorCDT := unique_from ∅ rates.

(** [mejores-cdt-(\w+-\d{4})] *)
Definition re_month : Re.regex :=
  Re.Seq (Re.Lit "mejores-cdt-")
    (Re.Group 1
       (Re.Seq (Re.Plus (Re.Cls Text.is_word))
          (Re.Seq (Re.Chr "-")
             (Re.Seq Re.digit (Re.Seq Re.digit (Re.Seq Re.digit Re.digit)))))).

(** The records of a page before the duplicates are dropped: the three
    strategies, one after the other. *)
Definition candidates (origin : Origin) (soup : Document) : list CDTRateFromMejorCDT :=
  flat_map (_extract_rates_from_table origin) (doc_tables soup)
  ++ flat_map (_extract_rates_from_card origin) (doc_cards soup)
  ++ _extract_rates_from_text origin soup.

(** [scrape_monthly_page], on what [_get_page] returned and the time. *)
Definition scrape_monthly_page (month_url scraped_at : string) (page : option Document)
  : list CDTRateFromMejorCDT :=
  let source_month :=
    match Re.search re_month month_url with
    | Some cs => Re.group 1 cs
    | None => "unknown"
    end in
  match page with
  | None => []
  | Some soup =>
      _deduplicate_rates (candidates (mkOrigin month_url source_month scraped_at) soup)
  end.

(** What the consolidator's paths let through: a term above 0 and a rate
    strictly between 1 and 25. *)
Definition plausible_record (r : CDTRateFromMejorCDT) : Prop :=
  0 < m_term_days r /\ (1 < m_rate_ea r)%Qc /\ (m_rate_ea r < PyFloat.of_Z 25)%Qc.

End MejorCDTScraper.

(** ** Lists as Python uses them *)

(** [l.sort(key=...)], a stable sort: [le x y] says that [x] may stand
    before [y]; an element is put before the first element of the sorted
    rest that it may stand before, so equal keys keep their order.  With
    [reverse=True] the order of the keys is reversed and equal keys still
    keep their order. *)
Fixpoint insert_sorted {A : Type} (le : A -> A -> bool) (x : A) (l : list A) : list A :=
  match l with
  | [] => [x]
  | y :: l' => if le x y then x :: y :: l' else y :: insert_sorted le x l'
  end.

Definition stable_sort {A : Type} (le : A -> A -> bool) (l : list A) : list A :=
  fold_right (insert_sorted le) [] l.

(** [l[:n]] *)
Definition slice_to {A : Type} (n : Z) (l : list A) : list A :=
  if 0 <=? n then firstn (Z.to_nat n) l
  else firstn (length l - Z.to_nat (- n)) l.

Definition by_rate_desc (x y : CDTRate) : bool := PyFloat.leb (rate_ea y) (rate_ea x).
Definition by_rate_asc (x y : CDTRate) : bool := PyFloat.leb (rate_ea x) (rate_ea y).
Definition by_term_asc (x y : CDTRate) : bool := term_days x <=? term_days y.
Definition by_term_desc (x y : CDTRate) : bool := term_days y <=? term_days x.

(** ** The static scrapers ([bank_scrapers.py]) *)

Module StaticScrapers.

Definition hundredths (h : Z) : Qc := Q2Qc (h # 100).

(** The loop over [standard_rates.items()] *)
Definition static_result (config : BankConfig) (min_amount : Z)
           (standard_rates : list (Z * Qc)) : ScrapingResult :=
  mkScrapingResult (cfg_code config) (cfg_name config) true
    (map (fun tr =>
            mkCDTRate (cfg_code config) (cfg_name config) (fst tr) (snd tr)
                      (Some (PyFloat.of_Z min_amount)) None
                      "fijo" "vencimiento" "CDT" None (cfg_url config) "")
         standard_rates)
    None "" 0%Qc.

Definition bancolombia_config : BankConfig :=
  mkBankConfig "Bancolombia" "bancolombia"
    "https://www.bancolombia.com/personas/productos-servicios/inversiones/cdt".

Definition bbva_config : BankConfig :=
  mkBankConfig "BBVA Colombia" "bbva"
    "https://www.bbva.com.co/personas/productos/inversion/cdt.html".

(** [BancolombiaApiScraper.scrape] *)
Definition bancolombia_scrape : ScrapingResult :=
  static_result bancolombia_config 500000
    [(30, hundredths 850); (60, hundredths 900); (90, hundredths 950)].

(** [BBVAScraper.scrape] *)
Definition bbva_scrape : ScrapingResult :=
  static_result bbva_config 1000000
    [(30, hundredths 800); (60, hundredths 850); (90, hundredths 900)].

End StaticScrapers.

(** ** [CDTOrchestrator] *)

(** The document that [get_ranking] builds and the API serves. *)
Record Statistics : Type := mkStatistics {
  average_rate : Qc;
  max_rate : Qc;
  min_rate : Qc
}.

Record Ranking : Type := mkRanking {
  generated_at : string;
  total_banks : nat;
  total_rates : nat;
  statistics : Statistics;
  top_10 : list CDTRate;
  by_term : list (Z * list CDTRate);
  all_rates : list CDTRate
}.

Module CDTOrchestrator.

(** [self.results]: a dict, iterated in the order of insertion. *)
Definition results_dict : Type := list (string * ScrapingResult).

(** [d[k] = v]: a key already there keeps its place. *)
Fixpoint dict_set (k : string) (v : ScrapingResult) (d : results_dict) : results_dict :=
  match d with
  | [] => [(k, v)]
  | (k', v') :: d' =>
      if String.eqb k k' then (k, v) :: d' else (k', v') :: dict_set k v d'
  end.

(** [scrape_bank], given what [get_scraper(bank_code)] and then [run]
    gave: the result is stored under the code. *)
Definition scrape_bank (results : results_dict) (bank_code : string)
           (ran : option ScrapingResult) : results_dict :=
  match ran with
  | None => results
  | Some result => dict_set bank_code result results
  end.

(** [scrape_all]: every task ends with the assignment of [scrape_bank], so
    the results enter the dict in the order in which the tasks complete
    (with [parallel=False], the order of [SCRAPERS]). *)
Definition scrape_all (completed : list (string * ScrapingResult))
           (results : results_dict) : results_dict :=
  fold_left (fun d cr => scrape_bank d (fst cr) (Some (snd cr))) completed results.

(** [get_all_rates] *)
Definition get_all_rates (results : results_dict) : list CDTRate :=
  flat_map (fun kv => if success (snd kv) then rates (snd kv) else []) results.



Definition ValueError (msg : string) : PyExc := mkPyExc true msg.

(** [sum(xs)] *)
Definition py_sum (xs : list Qc) : Qc := fold_left Qcplus xs 0%Qc.

(** [max(xs)] and [min(xs)]: the first of the largest, of the smallest. *)
Definition py_max (xs : list Qc) : outcome Qc :=
  match xs with
  | [] => Raised (ValueError "max() arg is an empty sequence")
  | x :: xs' => Returned (fold_left (fun m y => if PyFloat.ltb m y then y else m) xs' x)
  end.

Definition py_min (xs : list Qc) : outcome Qc :=
  match xs with
  | [] => Raised (ValueError "min() arg is an empty sequence")
  | x :: xs' => Returned (fold_left (fun m y => if PyFloat.ltb y m then y else m) xs' x)
  end.

(** The statistics of [get_ranking], before they are rounded. *)
Definition raw_statistics (all_rates : list CDTRate) : outcome (Qc * Qc * Qc) :=
  match all_rates with
  | [] => mret (0%Qc, 0%Qc, 0%Qc)
  | _ :: _ =>
      let values := map rate_ea all_rates in
      avg_rate ← py_div (py_sum values) (PyFloat.of_Z (Z.of_nat (length all_rates)));
      max_rate ← py_max values;
      min_rate ← py_min values;
      mret (avg_rate, max_rate, min_rate)
  end.

(** [get_ranking], at the time [now]. *)
Definition get_ranking (now : string) (results : results_dict) : outcome Ranking :=
  let all_rates := stable_sort by_rate_desc (get_all_rates results) in
  let rankings_by_term :=
    map (fun term =>
           (term, stable_sort by_rate_desc (List.filter (fun r => term_days r =? term) all_rates)))
        [30; 60; 90; 180; 360; 540; 720] in
  '(avg_rate, max_rate, min_rate) ← raw_statistics all_rates;
  mret (mkRanking now
          (length (List.filter (fun kv => success (snd kv)) results))
          (length all_rates)
          (mkStatistics (PyFloat.round_ndigits avg_rate 2)
                        (PyFloat.round_ndigits max_rate 2)
                        (PyFloat.round_ndigits min_rate 2))
          (slice_to 10 all_rates)
          rankings_by_term
          all_rates).

End CDTOrchestrator.

(** ** The query API ([api/app.py]) *)

Inductive response (A : Type) : Type :=
| Ok (body : A)
| Error (status : Z) (message : string).
Arguments Ok {A} body.
Arguments Error {A} status message.

Module App.

(** The query parameters of [/api/rates]: [request.args.get] gives
    [None] for a parameter that is missing or does not parse. *)
Record RatesQuery : Type := mkRatesQuery {
  q_term : option Z;
  q_bank : option string;
  q_min_rate : option Qc;
  q_limit : Z;
  q_sort : string
}.

Record RatesBody : Type := mkRatesBody {
  rb_count : nat;
  rb_total : nat;
  rb_rates : list CDTRate
}.

(** [get_rates], on what [get_rates_data] returned. *)
Definition get_rates (data : option Ranking) (q : RatesQuery) : response RatesBody :=
  match data with
  | None => Error 404 "No hay datos disponibles"
  | Some data =>
      let rates := all_rates data in
      let rates :=
        match q_term q with
        | Some term =>
            if term =? 0 then rates
            else List.filter (fun r => term_days r =? term) rates
        | None => rates
        end in
      let rates :=
        match q_bank q with
        | Some bank =>
            if Text.truthy bank
            then List.filter (fun r => String.eqb (bank_code r) bank) rates
            else rates
        | None => rates
        end in
      let rates :=
        match q_min_rate q with
        | Some min_rate =>
            if PyFloat.truthy min_rate
            then List.filter (fun r => PyFloat.leb min_rate (rate_ea r)) rates
            else rates
        | None => rates
        end in
      let rates :=
        if String.eqb (q_sort q) "rate_desc" then stable_sort by_rate_desc rates
        else if String.eqb (q_sort q) "rate_asc" then stable_sort by_rate_asc rates
        else if String.eqb (q_sort q) "term_asc" then stable_sort by_term_asc rates
        else if String.eqb (q_sort q) "term_desc" then stable_sort by_term_desc rates
        else rates in
      Ok (mkRatesBody (length (slice_to (q_limit q) rates))
                      (length rates)
                      (slice_to (q_limit q) rates))
  end.

End App.

(** ** The net-yield calculator ([simulate_cdt])

    The formula raises a float to a fractional power: it is embedded over
    an interface of the float operations it uses, so that what is proved of
    it holds of any arithmetic, binary64 included. *)

Class FloatOps (F : Type) : Type := {
  f_of_int : Z -> F;              (* the float of an int *)
  f_0_04 : F;                     (* the literal 0.04 *)
  f_add : F -> F -> F;
  f_sub : F -> F -> F;
  f_mul : F -> F -> F;
  f_div : F -> F -> F;
  f_pow : F -> F -> F;            (* x ** y *)
  f_round : F -> nat -> F;        (* round(x, n) *)
  f_truthy : F -> bool;           (* bool(x): x != 0 *)
  f_leb : F -> F -> bool          (* x <= y *)
}.

Module Simulate.
Section NetYield.

Context {F : Type} `{FloatOps F}.

(** The JSON body of [/api/simulate]: a number reads as a float, the
term as an int; a missing key reads as [None]. *)
Record SimRequest : Type := mkSimRequest {
amount : option F;
sim_term_days : option Z;
sim_rate_ea : option F;
sim_bank_code : option string
}.

(** A stored rate, as kept under [all_rates]. *)
Record StoredRate : Type := mkStoredRate {
s_bank_code : string;
s_term_days : Z;
s_rate_ea : F
}.

Record SimResult : Type := mkSimResult {
in_amount : F;
in_term_days : Z;
in_rate_ea : F;
gross_profit : F;
retention : F;
net_profit : F;
total : F;
effective_rate : F
}.

(** The end of [simulate_cdt], from "Calcular rendimiento" on. *)
Definition compute_yield (amount : F) (term_days : Z) (rate_ea : F) : SimResult :=
let rate_decimal := f_div rate_ea (f_of_int 100) in
let rate_period :=
f_sub (f_pow (f_add (f_of_int 1) rate_decimal)
             (f_div (f_of_int term_days) (f_of_int 365)))
      (f_of_int 1) in
let gross_profit := f_mul amount rate_period in
let retention := f_mul gross_profit f_0_04 in
let net_profit := f_sub gross_profit retention in
let total := f_add amount net_profit in
mkSimResult amount term_days rate_ea
          (f_round gross_profit 2)
          (f_round retention 2)
          (f_round net_profit 2)
          (f_round total 2)
          (f_round (f_mul rate_period (f_of_int 100)) 4).

(** The rate used when the body gives none: the best stored rate for the
term, of the bank when one is named. *)
Definition best_stored_rate (rates_data : option (list StoredRate))
       (term_days : Z) (bank_code : option string) : response F :=
match rates_data with
| Some all_rates =>
  let matching_rates := List.filter (fun r => s_term_days r =? term_days) all_rates in
  let matching_rates :=
    match bank_code with
    | Some b =>
        if Text.truthy b
        then List.filter (fun r => String.eqb (s_bank_code r) b) matching_rates
        else matching_rates
    | None => matching_rates
    end in
  match stable_sort (fun x y => f_leb (s_rate_ea y) (s_rate_ea x)) matching_rates with
  | best :: _ => Ok (s_rate_ea best)
  | [] => Error 404 "No se encontro tasa para ese plazo"
  end
| None => Error 404 "No hay datos de tasas disponibles"
end.

Definition some_truthy (x : option F) : option F :=
match x with
| Some v => if f_truthy v then Some v else None
| None => None
end.

Definition some_nonzero (x : option Z) : option Z :=
match x with
| Some v => if v =? 0 then None else Some v
| None => None
end.

(** [simulate_cdt], on the parsed body and what [get_rates_data]
returned. *)
Definition simulate_cdt (data : option SimRequest)
       (rates_data : option (list StoredRate)) : response SimResult :=
match data with
| None => Error 400 "Se requiere JSON body"
| Some data =>
  match some_truthy (amount data), some_nonzero (sim_term_days data) with
  | Some amount, Some term_days =>
      match some_truthy (sim_rate_ea data) with
      | Some rate_ea => Ok (compute_yield amount term_days rate_ea)
      | None =>
          match best_stored_rate rates_data term_days (sim_bank_code data) with
          | Ok rate_ea => Ok (compute_yield amount term_days rate_ea)
          | Error status message => Error status message
          end
      end
  | _, _ => Error 400 "Se requiere amount y term_days"
  end
end.

(** *** The net-yield formula, as the specification words it *)



End NetYield.
End Simulate.

(** *** The arithmetic of the reals as an instance

    The formula read over the real numbers, which the floats approximate:
    [x ** y] is [Rpower] (for a positive base), [round] goes to the nearest
    multiple of [10^-n], ties to even. *)

Module RealArith.

Definition floor (x : R) : Z := (up x - 1)%Z.

Definition round_half_even (x : R) : Z :=
  let f := floor x in
  let d := (x - IZR f)%R in
  if Rlt_dec d (1 / 2) then f
  else if Rlt_dec (1 / 2) d then f + 1
  else if Z.even f then f else f + 1.

Definition round_ndigits (x : R) (n : nat) : R :=
  (IZR (round_half_even (x * 10 ^ n)) / 10 ^ n)%R.

Definition truthy (x : R) : bool := if Req_dec_T x 0 then false else true.

Definition leb (x y : R) : bool := if Rle_dec x y then true else false.


End RealArith.

(** ** The inputs of the examples *)

Module Samples.

Definition sample_clock : BaseScraper.Clock :=
  BaseScraper.mkClock (PyFloat.of_Z 100) "2025-12-01T10:00:00" (PyFloat.of_Z 103).

Definition sample_ranking : Ranking :=
  mkRanking "2025-12-01T10:00:00" 1 3
    (mkStatistics (StaticScrapers.hundredths 900) (StaticScrapers.hundredths 950)
                  (StaticScrapers.hundredths 850))
    (rates StaticScrapers.bancolombia_scrape) []
    (rates StaticScrapers.bancolombia_scrape).

(** The longest of the standard terms. *)
Definition longest_standard_term : Z := fold_right Z.max 0 STANDARD_TERMS.

Definition sample_origin : MejorCDTScraper.Origin :=
  MejorCDTScraper.mkOrigin "https://mejorcdt.com/mejores-cdt-diciembre-2025"
                           "diciembre-2025" "2025-12-01T10:00:00".

Definition sample_card : Card :=
  mkCard "Banco X 12.50% E.A." (Some "Banco X").

(** The table of the scenario of the specification. *)
Definition scenario_rows : list (list string) :=
  [ ["Entidad"; "Plazo"; "Tasa E.A."];
    ["Banco X"; "90 dias"; "9,50%"] ].

(** That table, under any ancestors. *)
Definition scenario_table (ancestors : list string) : Table :=
  mkTable (text_of_rows scenario_rows) ancestors scenario_rows.

(** The one record of the scenario, for a source. *)
Definition scenario_record (config : BankConfig) : CDTRate :=
  mkCDTRate (cfg_code config) (cfg_name config) 90 (StaticScrapers.hundredths 950)
            None None "fijo" "vencimiento" "CDT" None (cfg_url config) "".

(** A table whose one rate is 50%. *)
Definition fifty_rows : list (list string) :=
  [ ["Entidad"; "Plazo"; "Tasa E.A."];
    ["Banco X"; "90 dias"; "50%"] ].

Definition fifty_page : Document :=
  mkDocument [mkTable (text_of_rows fifty_rows) [] fifty_rows] [] (text_of_rows fifty_rows).

Definition banco_x_config : BankConfig :=
  mkBankConfig "Banco X" "banco_x" "https://www.bancox.example/cdt".


(** Two sources, in the two orders in which their tasks can complete. *)
Definition bancolombia_first : list (string * ScrapingResult) :=
  [ ("bancolombia", StaticScrapers.bancolombia_scrape);
    ("bbva", StaticScrapers.bbva_scrape) ].

Definition bbva_first : list (string * ScrapingResult) :=
  [ ("bbva", StaticScrapers.bbva_scrape);
    ("bancolombia", StaticScrapers.bancolombia_scrape) ].

End Samples.

(** ** Sorted lists *)

(** Every element of the list may stand before all the later ones. *)
Definition ordered {A : Type} (le : A -> A -> bool) (l : list A) : Prop :=
  StronglySorted (fun x y => le x y = true) l.


(** A source whose scrape failed, as [run] reports it. *)
Definition failed_result (config : BankConfig) (message at_ : string) : ScrapingResult :=
  mkScrapingResult (cfg_code config) (cfg_name config) false [] (Some message) at_ 0%Qc.

(** ** The data that the API serves ([api/app.py]) *)

Module Api.

(** A key of the [by_term] dict: the int that [get_ranking] uses, or the
    str that JSON makes of it. *)
Inductive term_key : Type :=
| IntKey (t : Z)
| StrKey (s : string).

Definition term_key_eqb (a b : term_key) : bool :=
  match a, b with
  | IntKey x, IntKey y => x =? y
  | StrKey x, StrKey y => String.eqb x y
  | _, _ => false
  end.

(** The dict of the ranking, as the handlers read it. *)
Record RatesData : Type := mkRatesData {
  d_generated_at : string;
  d_total_banks : nat;
  d_total_rates : nat;
  d_statistics : Statistics;
  d_top_10 : list CDTRate;
  d_by_term : list (term_key * list CDTRate);
  d_all_rates : list CDTRate
}.

(** [str(n)] for an int *)
Definition str_int (n : Z) : string :=
  if n <? 0 then String "-" (PyFloat.str_nat (- n) EmptyString)
  else PyFloat.str_nat n EmptyString.

(** The ranking as [get_ranking] built it, in memory. *)
Definition as_built (r : Ranking) : RatesData :=
  mkRatesData (generated_at r) (total_banks r) (total_rates r) (statistics r)
              (top_10 r)
              (map (fun e => (IntKey (fst e), snd e)) (by_term r))
              (all_rates r).

(** The ranking after [json.dump] and [json.load]: the keys of a JSON
    object are strings, so the keys of [by_term] come back as the [str]
    of the ints; the values come back as they were. *)
Definition through_json (r : Ranking) : RatesData :=
  mkRatesData (generated_at r) (total_banks r) (total_rates r) (statistics r)
              (top_10 r)
              (map (fun e => (StrKey (str_int (fst e)), snd e)) (by_term r))
              (all_rates r).

(** [d.get(key, [])] on the dict [by_term] *)
Definition by_term_get (key : term_key) (d : list (term_key * list CDTRate))
  : list CDTRate :=
  match List.find (fun e => term_key_eqb (fst e) key) d with
  | Some e => snd e
  | None => []
  end.

(** The file [rates.json]: absent, not valid JSON, or holding a ranking. *)
Inductive rates_file : Type :=
| NoFile
| BadJson
| FileOf (data : RatesData).

(** The two globals [_cached_data] and [_cache_time] (seconds). *)
Record Cache : Type := mkCache {
  cached_data : option RatesData;
  cache_time : option Qc
}.

Definition empty_cache : Cache := mkCache None None.

Definition CACHE_DURATION : Qc := PyFloat.of_Z 300.

Definition JSONDecodeError : PyExc := mkPyExc true "Expecting value".

(** [get_rates_data]: [now] is the reading of the clock for the age of
    the cache, [later] the reading when the file has been loaded.  The
    result and the globals after the call. *)
Definition get_rates_data (cache : Cache) (file : rates_file) (now later : Qc)
  : outcome (option RatesData) * Cache :=
  let fresh :=
    match cached_data cache, cache_time cache with
    | Some data, Some at_ =>
        if PyFloat.ltb (now - at_)%Qc CACHE_DURATION then Some data else None
    | _, _ => None
    end in
  match fresh with
  | Some data => (Returned (Some data), cache)
  | None =>
      match file with
      | FileOf data => (Returned (Some data), mkCache (Some data) (Some later))
      | BadJson => (Raised JSONDecodeError, cache)
      | NoFile => (Returned None, cache)
      end
  end.

(** [run_scraping] and the end of [refresh_data]: the ranking of the cycle
    is written to the file and kept, as built, in the globals. *)
Definition refresh_data (completed : list (string * ScrapingResult)) (now : string)
           (at_ : Qc) : outcome (Cache * rates_file) :=
  ranking ← CDTOrchestrator.get_ranking now (CDTOrchestrator.scrape_all completed []);
  mret (mkCache (Some (as_built ranking)) (Some at_), FileOf (through_json ranking)).

Record TermBody : Type := mkTermBody {
  tb_term_days : Z;
  tb_count : nat;
  tb_rates : list CDTRate
}.

(** [get_ranking_by_term], on what [get_rates_data] returned. *)
Definition get_ranking_by_term (data : option RatesData) (term_days : Z)
  : response TermBody :=
  match data with
  | None => Error 404 "No hay datos disponibles"
  | Some data =>
      let term_rates := by_term_get (StrKey (str_int term_days)) (d_by_term data) in
      Ok (mkTermBody term_days (length term_rates) term_rates)
  end.

Record BankBody : Type := mkBankBody {
  bb_bank_code : string;
  bb_bank_name : string;
  bb_count : nat;
  bb_rates : list CDTRate
}.

(** [get_bank_rates], on what [get_rates_data] returned. *)
Definition get_bank_rates (data : option RatesData) (code : string)
  : response BankBody :=
  match data with
  | None => Error 404 "No hay datos disponibles"
  | Some data =>
      let bank_rates :=
        List.filter (fun r => String.eqb (bank_code r) code) (d_all_rates data) in
      match bank_rates with
      | [] => Error 404 (String.append "Banco " (String.append code " no encontrado"))
      | _ :: _ =>
          let bank_rates := stable_sort by_term_asc bank_rates in
          Ok (mkBankBody code
                (match bank_rates with
                 | first :: _ => bank_name first
                 | [] => EmptyString
                 end)
                (length bank_rates) bank_rates)
      end
  end.

End Api.

(** ** The listing query, part by part ([get_rates]) *)

Module Listing.
Import App.

(** A record passes the filters of the query that are in force. *)
Definition passes (q : RatesQuery) (r : CDTRate) : bool :=
  match q_term q with
  | Some term => (term =? 0) || (term_days r =? term)
  | None => true
  end
  && match q_bank q with
     | Some bank => negb (Text.truthy bank) || String.eqb (bank_code r) bank
     | None => true
     end
  && match q_min_rate q with
     | Some min_rate => negb (PyFloat.truthy min_rate) || PyFloat.leb min_rate (rate_ea r)
     | None => true
     end.

(** No filter of the query is in force. *)
Definition unfiltered (q : RatesQuery) : bool :=
  match q_term q with Some term => term =? 0 | None => true end
  && match q_bank q with Some bank => negb (Text.truthy bank) | None => true end
  && match q_min_rate q with
     | Some min_rate => negb (PyFloat.truthy min_rate)
     | None => true
     end.

(** The chain of [if sort == ...]: the four modes, any other name leaves
    the list as it is. *)
Definition sort_mode (sort : string) (rates : list CDTRate) : list CDTRate :=
  if String.eqb sort "rate_desc" then stable_sort by_rate_desc rates
  else if String.eqb sort "rate_asc" then stable_sort by_rate_asc rates
  else if String.eqb sort "term_asc" then stable_sort by_term_asc rates
  else if String.eqb sort "term_desc" then stable_sort by_term_desc rates
  else rates.

Definition known_mode (sort : string) : bool :=
  String.eqb sort "rate_desc" || String.eqb sort "rate_asc"
  || String.eqb sort "term_asc" || String.eqb sort "term_desc".

(** The cached ranking after [get_rates]: [rates] is the list [all_rates]
    of the cached dict itself until a filter builds a new list, and
    [rates.sort] sorts in place; so a query without a filter in force
    leaves the cached list sorted, and a query with one leaves it alone. *)
Definition get_rates_leaves (data : Ranking) (q : RatesQuery) : Ranking :=
  if unfiltered q
  then mkRanking (generated_at data) (total_banks data) (total_rates data)
                 (statistics data) (top_10 data) (by_term data)
                 (sort_mode (q_sort q) (all_rates data))
  else data.

End Listing.

(** ** The banks of the stored rates ([get_banks]) *)

Module Banks.

(** An entry of the dict [banks]. *)
Record BankEntry : Type := mkBankEntry {
  be_code : string;
  be_name : string;
  be_min_rate : Qc;
  be_max_rate : Qc;
  be_terms_available : list Z
}.

(** The dict [banks], in the order of insertion. *)
Definition banks_dict : Type := list (string * BankEntry).

(** [banks[code]], [None] for a missing key *)
Fixpoint dict_get (code : string) (banks : banks_dict) : option BankEntry :=
  match banks with
  | [] => None
  | (c, e) :: rest => if String.eqb c code then Some e else dict_get code rest
  end.

(** [banks[code] = entry]: a key already there keeps its place. *)
Fixpoint dict_put (code : string) (entry : BankEntry) (banks : banks_dict) : banks_dict :=
  match banks with
  | [] => [(code, entry)]
  | (c, e) :: rest =>
      if String.eqb c code then (c, entry) :: rest
      else (c, e) :: dict_put code entry rest
  end.









End Banks.

(** ** The comparison of the offers ([compare_cdts] of [api/app.py]) *)

Module Compare.
Section Offers.

Context {F : Type} `{FloatOps F}.



(** A stored rate, as kept under [all_rates]. *)
Record Offer : Type := mkOffer {
  o_bank_code : string;
  o_bank_name : string;
  o_term_days : Z;
  o_rate_ea : F
}.





(** The rates that the handler compares: those of the term, of the banks
    of the list when it is not empty. *)
Definition matching_rates (term_days : Z) (banks_filter : list string)
           (all_rates : list Offer) : list Offer :=
  let matching_rates := List.filter (fun r => o_term_days r =? term_days) all_rates in
  match banks_filter with
  | [] => matching_rates
  | _ :: _ =>
      List.filter (fun r => existsb (String.eqb (o_bank_code r)) banks_filter) matching_rates
  end.





End Offers.
End Compare.

(** ** The stored rates among which [simulate_cdt] looks *)

Module Lookup.


End Lookup.

(** ** The records of a monthly page ([mejorcdt_scraper.py]) *)

Module MonthlyPage.
Import MejorCDTScraper.

(** The records of the three strategies carry the origin of the page,
    a fixed rate, no upper amount, and the code of their bank name, which
    has 3 characters at least. *)
Definition from_page (origin : Origin) (r : CDTRateFromMejorCDT) : Prop :=
  m_source_url r = o_source_url origin
  /\ m_source_month r = o_source_month origin
  /\ m_scraped_at r = o_scraped_at origin
  /\ m_rate_type r = "fijo"
  /\ m_max_amount r = None
  /\ m_bank_code r = _get_bank_code (m_bank_name r)
  /\ (3 <= String.length (m_bank_name r))%nat.

End MonthlyPage.

(** ** The codes of the banks ([MejorCDTScraper._get_bank_code]) *)

Module BankCodes.

(** A character of [[a-z0-9_]]. *)
Definition is_code_char (c : ascii) : bool :=
  Text.is_ascii_lower c || Text.is_digit c || Ascii.eqb c "_".

(** A character of the name, as the generated code has it. *)
Definition code_char (c : ascii) : ascii :=
  if Text.is_ascii_lower c || Text.is_digit c then c else "_"%char.

(** A key of [BANK_CODE_MAP] lies in the name, or the name in a key. *)
Definition names (name_lower : string) (kc : string * string) : bool :=
  Text.contains (fst kc) name_lower || Text.contains name_lower (fst kc).

End BankCodes.

(** ** The pages of the months ([scrape_current_month],
    [scrape_multiple_months]) *)

Module Months.
Import MejorCDTScraper.

Definition BASE_URL : string := "https://mejorcdt.com".

Definition months_es : list (Z * string) :=
  [ (1, "enero"); (2, "febrero"); (3, "marzo"); (4, "abril");
    (5, "mayo"); (6, "junio"); (7, "julio"); (8, "agosto");
    (9, "septiembre"); (10, "octubre"); (11, "noviembre"); (12, "diciembre") ].

(** The [KeyError] of a dict of int keys: its text is the key. *)
Definition KeyError (key : Z) : PyExc := mkPyExc true (Api.str_int key).

(** [months_es[month]] *)
Definition month_name_of (month : Z) : outcome string :=
  match List.find (fun e => fst e =? month) months_es with
  | Some e => Returned (snd e)
  | None => Raised (KeyError month)
  end.

(** [f"{month_name}-{year}"] *)
Definition month_key (month_name : string) (year : Z) : string :=
  String.append month_name (String.append "-" (Api.str_int year)).

(** [f"{self.BASE_URL}/mejores-cdt-{month_name}-{year}"] *)
Definition month_url (month_name : string) (year : Z) : string :=
  String.append BASE_URL (String.append "/mejores-cdt-" (month_key month_name year)).

(** [datetime.now()], as far as it is read: the month and the year. *)
Record Now : Type := mkNow {
  now_month : Z;
  now_year : Z
}.

(** [scrape_current_month]: [web] gives what [_get_page] returns for a
    URL, [scraped_at] the time that [scrape_monthly_page] reads. *)
Definition scrape_current_month (now : Now) (scraped_at : string)
           (web : string -> option Document) : outcome (list CDTRateFromMejorCDT) :=
  month_name ← month_name_of (now_month now);
  let url := month_url month_name (now_year now) in
  mret (scrape_monthly_page url scraped_at (web url)).

(** The month and the year of the page number [i], before the look-up
    of the name. *)
Definition month_of (now : Now) (i : Z) : Z * Z :=
  let month := now_month now - i in
  if month <=? 0 then (month + 12, now_year now - 1) else (month, now_year now).

Definition months_dict : Type := list (string * list CDTRateFromMejorCDT).

(** [results[key] = rates]: a key already there keeps its place. *)
Fixpoint dict_put (key : string) (rates : list CDTRateFromMejorCDT)
         (results : months_dict) : months_dict :=
  match results with
  | [] => [(key, rates)]
  | (k, v) :: rest =>
      if String.eqb k key then (k, rates) :: rest
      else (k, v) :: dict_put key rates rest
  end.

(** The loop of [scrape_multiple_months] over the numbers [pages];
    [scraped_at i] is the time that the call number [i] reads. *)
Fixpoint months_loop (now : Now) (scraped_at : Z -> string)
         (web : string -> option Document) (pages : list Z) (results : months_dict)
  : outcome months_dict :=
  match pages with
  | [] => Returned results
  | i :: rest =>
      let '(month, year) := month_of now i in
      month_name ← month_name_of month;
      let url := month_url month_name year in
      let key := month_key month_name year in
      let rates := scrape_monthly_page url (scraped_at i) (web url) in
      months_loop now scraped_at web rest
        (match rates with
         | [] => results
         | _ :: _ => dict_put key rates results
         end)
  end.

(** [range(n)] *)
Definition range (n : Z) : list Z := map Z.of_nat (seq 0 (Z.to_nat n)).

(** [scrape_multiple_months] *)
Definition scrape_multiple_months (now : Now) (scraped_at : Z -> string)
           (web : string -> option Document) (num_months : Z) : outcome months_dict :=
  months_loop now scraped_at web (range num_months) [].

(** An entry of the dict is the page number [i] of a run for
    [num_months]: of the month [i] months before now, under the name and
    the year of that month, with the records of its page, which are some
    and carry the key as their month. *)
Definition of_page (now : Now) (scraped_at : Z -> string)
           (web : string -> option Document) (num_months : Z)
           (entry : string * list CDTRateFromMejorCDT) : Prop :=
  snd entry <> []
  /\ exists i month year name,
       0 <= i < num_months
       /\ month_of now i = (month, year)
       /\ 1 <= month <= 12
       /\ 12 * year + month = 12 * now_year now + now_month now - i
       /\ In (month, name) months_es
       /\ fst entry = month_key name year
       /\ snd entry = scrape_monthly_page (month_url name year) (scraped_at i)
                        (web (month_url name year))
       /\ forall r, In r (snd entry) -> m_source_month r = fst entry.

(** The month that [scrape_monthly_page] reads from a URL. *)
Definition source_month_of (month_url : string) : string :=
  match Re.search re_month month_url with
  | Some cs => Re.group 1 cs
  | None => "unknown"
  end.

End Months.

(** ** What a generic adapter hands over ([GenericTableScraper.scrape]
    under [BaseScraper.run]) *)

Module Adapter.

(** The record is one of the source of [config], read at [at_]. *)
Definition record_of (config : BankConfig) (at_ : string) (r : CDTRate) : Prop :=
  bank_code r = cfg_code config
  /\ bank_name r = cfg_name config
  /\ source_url r = cfg_url config
  /\ scraped_at r = at_
  /\ max_amount r = None
  /\ rate_type r = "fijo"
  /\ payment_frequency r = "vencimiento"
  /\ investment_type r = "CDT"
  /\ special_conditions r = None.

(** The data rows of the tables that the adapter reads. *)
Definition data_rows (soup : Document) : nat :=
  list_sum (map (fun table => Nat.pred (length (tbl_rows table)))
                (GenericTableScraper._extract_tables soup)).

End Adapter.

(** ** The scrapers of the registry ([SCRAPERS], [get_scraper]) and a
    whole scraping ([scrape_all] in parallel, then [get_ranking]) *)

Module Registry.
Import StaticScrapers.

Definition davivienda_config : BankConfig :=
  mkBankConfig "Davivienda" "davivienda"
    "https://www.davivienda.com/wps/portal/personas/nuevo/personas/quiero_invertir/cdt".

Definition banco_bogota_config : BankConfig :=
  mkBankConfig "Banco de Bogota" "banco_bogota"
    "https://www.bancodebogota.com/wps/portal/banco-bogota/bogota/productos/para-ti/inversiones/cdt".

Definition colpatria_config : BankConfig :=
  mkBankConfig "Scotiabank Colpatria" "colpatria"
    "https://www.scotiabankcolpatria.com/personas/inversiones/cdt".

Definition av_villas_config : BankConfig :=
  mkBankConfig "AV Villas" "av_villas"
    "https://www.avvillas.com.co/wps/portal/avvillas/banco/personas/productos/inversiones/cdt".

Definition popular_config : BankConfig :=
  mkBankConfig "Banco Popular" "popular"
    "https://www.bancopopular.com.co/wps/portal/popular/inicio/personas/inversiones/cdt".

Definition caja_social_config : BankConfig :=
  mkBankConfig "Banco Caja Social" "caja_social"
    "https://www.bancocajasocial.com/personas/productos/inversiones/cdt".

Definition occidente_config : BankConfig :=
  mkBankConfig "Banco de Occidente" "occidente"
    "https://www.bancodeoccidente.com.co/wps/portal/banco-occidente/bancodeoccidente/para-personas/inversiones/cdt".

Definition itau_config : BankConfig :=
  mkBankConfig "Itau" "itau"
    "https://www.itau.co/personas/inversiones/cdt".

Definition coltefinanciera_config : BankConfig :=
  mkBankConfig "Coltefinanciera" "coltefinanciera"
    "https://www.coltefinanciera.com.co/productos/cdt".

Definition serfinanza_config : BankConfig :=
  mkBankConfig "Serfinanza" "serfinanza"
    "https://www.serfinanza.com.co/cdt".

Definition ban100_config : BankConfig :=
  mkBankConfig "Ban100" "ban100"
    "https://www.ban100.com.co/cdt".

Definition finandina_config : BankConfig :=
  mkBankConfig "Banco Finandina" "finandina"
    "https://www.bancofinandina.com/personas/cdt".

Definition pichincha_config : BankConfig :=
  mkBankConfig "Banco Pichincha" "pichincha"
    "https://www.bancopichincha.com.co/web/personas/cdt".

Definition falabella_config : BankConfig :=
  mkBankConfig "Banco Falabella" "falabella"
    "https://www.bancofalabella.com.co/cdt".

Definition bancoomeva_config : BankConfig :=
  mkBankConfig "Bancoomeva" "bancoomeva"
    "https://www.bancoomeva.com.co/personas/inversiones/cdt".

Definition gnb_sudameris_config : BankConfig :=
  mkBankConfig "GNB Sudameris" "gnb_sudameris"
    "https://www.gnbsudameris.com.co/personas/inversiones/cdt".

Definition atomyrent_config : BankConfig :=
  mkBankConfig "Atomy Rent" "atomyrent"
    "https://atomyrent.com/".

Definition finca_raiz_config : BankConfig :=
  mkBankConfig "Finca Raiz Colombia" "finca_raiz"
    "https://www.fedelonjas.org.co/".

Definition nubank_config : BankConfig :=
  mkBankConfig "Nubank (Cajitas)" "nubank"
    "https://nu.com.co/".

Definition pibank_config : BankConfig :=
  mkBankConfig "Pibank" "pibank"
    "https://www.pibank.co/".

Definition lulobank_config : BankConfig :=
  mkBankConfig "Lulo Bank" "lulobank"
    "https://www.lulobank.com/".

(** [BANKS_CONFIG], in the order of the source *)
Definition BANKS_CONFIG : list (string * BankConfig) :=
  [ ("bancolombia", bancolombia_config);
    ("davivienda", davivienda_config);
    ("bbva", bbva_config);
    ("banco_bogota", banco_bogota_config);
    ("colpatria", colpatria_config);
    ("av_villas", av_villas_config);
    ("popular", popular_config);
    ("caja_social", caja_social_config);
    ("occidente", occidente_config);
    ("itau", itau_config);
    ("coltefinanciera", coltefinanciera_config);
    ("serfinanza", serfinanza_config);
    ("ban100", ban100_config);
    ("finandina", finandina_config);
    ("pichincha", pichincha_config);
    ("falabella", falabella_config);
    ("bancoomeva", bancoomeva_config);
    ("gnb_sudameris", gnb_sudameris_config);
    ("atomyrent", atomyrent_config);
    ("finca_raiz", finca_raiz_config);
    ("nubank", nubank_config);
    ("pibank", pibank_config);
    ("lulobank", lulobank_config) ].

(** The loop of a static scraper whose records name a kind of investment
    and, for some, conditions. *)
Definition static_result_of (config : BankConfig) (min_amount : Z)
           (investment_type : string) (special_conditions : option string)
           (standard_rates : list (Z * Qc)) : ScrapingResult :=
  mkScrapingResult (cfg_code config) (cfg_name config) true
    (map (fun tr =>
            mkCDTRate (cfg_code config) (cfg_name config) (fst tr) (snd tr)
                      (Some (PyFloat.of_Z min_amount)) None
                      "fijo" "vencimiento" investment_type special_conditions
                      (cfg_url config) "")
         standard_rates)
    None "" 0%Qc.

(** [DaviviendaScraper.scrape] *)
Definition davivienda_scrape : ScrapingResult :=
  static_result davivienda_config 500000
    [(30, hundredths 820); (60, hundredths 880); (90, hundredths 930)].

(** [ColtefinancieraScraper.scrape] *)
Definition coltefinanciera_scrape : ScrapingResult :=
  static_result coltefinanciera_config 1000000
    [(30, hundredths 1000); (60, hundredths 1050); (90, hundredths 1080);
     (180, hundredths 1150); (360, hundredths 1250); (540, hundredths 1280);
     (720, hundredths 1300)].

(** [SerfinanzaScraper.scrape] *)
Definition serfinanza_scrape : ScrapingResult :=
  static_result serfinanza_config 500000
    [(30, hundredths 980); (60, hundredths 1030); (90, hundredths 1060);
     (180, hundredths 1130); (360, hundredths 1230); (540, hundredths 1260);
     (720, hundredths 1280)].

(** [Ban100Scraper.scrape] *)
Definition ban100_scrape : ScrapingResult :=
  static_result ban100_config 100000
    [(30, hundredths 950); (60, hundredths 1000); (90, hundredths 1030)].

(** [FinandinaScraper.scrape] *)
Definition finandina_scrape : ScrapingResult :=
  static_result finandina_config 500000
    [(30, hundredths 920); (60, hundredths 970); (90, hundredths 1020)].

(** [PichinchaScraper.scrape] *)
Definition pichincha_scrape : ScrapingResult :=
  static_result pichincha_config 500000
    [(30, hundredths 880); (60, hundredths 930); (90, hundredths 980)].

(** [ColpatriaScraper.scrape] *)
Definition colpatria_scrape : ScrapingResult :=
  static_result colpatria_config 500000
    [(30, hundredths 830); (60, hundredths 880); (90, hundredths 930)].

(** [BancoBogotaScraper.scrape] *)
Definition banco_bogota_scrape : ScrapingResult :=
  static_result banco_bogota_config 500000
    [(30, hundredths 840); (60, hundredths 890); (90, hundredths 940)].

(** [PopularScraper.scrape] *)
Definition popular_scrape : ScrapingResult :=
  static_result popular_config 500000
    [(30, hundredths 850); (60, hundredths 900); (90, hundredths 950)].

(** [AtomyRentScraper.scrape] *)
Definition atomyrent_scrape : ScrapingResult :=
  static_result_of atomyrent_config 200000 "Derechos Fiduciarios"
    None
    [(30, hundredths 1550); (60, hundredths 1550); (90, hundredths 1550)].

(** [FincaRaizScraper.scrape] *)
Definition finca_raiz_scrape : ScrapingResult :=
  static_result_of finca_raiz_config 50000000 "Finca Raiz"
    (Some "Rentabilidad por arriendo. Valorizacion adicional ~4-6% anual. Fuente: Fedelonjas")
    [(30, hundredths 600); (60, hundredths 650); (90, hundredths 700)].

(** [NubankScraper.scrape] *)
Definition nubank_scrape : ScrapingResult :=
  static_result_of nubank_config 1 "Cuenta Ahorro"
    (Some "Dinero siempre disponible. Sin monto minimo.")
    [(30, hundredths 925); (60, hundredths 925); (90, hundredths 925)].

(** [PibankScraper.scrape] *)
Definition pibank_scrape : ScrapingResult :=
  static_result_of pibank_config 1 "Cuenta Ahorro"
    (Some "Dinero siempre disponible. Sin comisiones ni cuota de manejo.")
    [(30, hundredths 1000); (60, hundredths 1000); (90, hundredths 1000)].

(** [LulobankScraper.scrape] *)
Definition lulobank_scrape : ScrapingResult :=
  static_result_of lulobank_config 1 "Cuenta Ahorro"
    (Some "Hasta 10.5% con nomina >$3M. Cashback 3% restaurantes.")
    [(30, hundredths 900); (60, hundredths 900); (90, hundredths 900)].

(** A scraper: its config and its [scrape], on what [_get_page] gives
    for the URL of the config. *)
Record Scraper : Type := mkScraper {
  s_config : BankConfig;
  s_scrape : option Document -> ScrapingResult
}.

(** A scraper with fixed rates: it fetches no page. *)
Definition fixed (config : BankConfig) (result : ScrapingResult) : Scraper :=
  mkScraper config (fun _ => result).

(** [SCRAPERS], in the order of the source *)
Definition SCRAPERS : list (string * Scraper) :=
  [ ("bancolombia", fixed bancolombia_config bancolombia_scrape);
    ("davivienda", fixed davivienda_config davivienda_scrape);
    ("bbva", fixed bbva_config bbva_scrape);
    ("ban100", fixed ban100_config ban100_scrape);
    ("finandina", fixed finandina_config finandina_scrape);
    ("pichincha", fixed pichincha_config pichincha_scrape);
    ("colpatria", fixed colpatria_config colpatria_scrape);
    ("banco_bogota", fixed banco_bogota_config banco_bogota_scrape);
    ("popular", fixed popular_config popular_scrape);
    ("atomyrent", fixed atomyrent_config atomyrent_scrape);
    ("finca_raiz", fixed finca_raiz_config finca_raiz_scrape);
    ("nubank", fixed nubank_config nubank_scrape);
    ("pibank", fixed pibank_config pibank_scrape);
    ("lulobank", fixed lulobank_config lulobank_scrape) ].

(** [d.get(key)] *)
Definition dict_get {A : Type} (key : string) (d : list (string * A)) : option A :=
  match List.find (fun kv => String.eqb (fst kv) key) d with
  | Some kv => Some (snd kv)
  | None => None
  end.

(** [get_scraper] *)
Definition get_scraper (bank_code : string) : option Scraper :=
  match dict_get bank_code SCRAPERS with
  | Some scraper => Some scraper
  | None =>
      match dict_get bank_code BANKS_CONFIG with
      | Some config => Some (mkScraper config (GenericTableScraper.scrape config))
      | None => None
      end
  end.

(** [scrape_bank], with the scraper that [get_scraper] gives, run at the
    readings [clock] on the web [web]. *)
Definition scrape_bank (results : CDTOrchestrator.results_dict) (bank_code : string)
           (clock : BaseScraper.Clock) (web : string -> option Document)
  : outcome CDTOrchestrator.results_dict :=
  match get_scraper bank_code with
  | None => Returned results
  | Some scraper =>
      result ← BaseScraper.run (s_config scraper) clock
                 (Returned (s_scrape scraper (web (cfg_url (s_config scraper)))));
      mret (CDTOrchestrator.dict_set bank_code result results)
  end.

(** [scrape_all(parallel=True)]: the tasks of the codes of [SCRAPERS]
    complete in the order [completion], each with its readings of the
    clock; a task that raises a fault is logged and leaves no result. *)
Fixpoint scrape_all (completion : list (string * BaseScraper.Clock))
         (web : string -> option Document) (results : CDTOrchestrator.results_dict)
  : outcome CDTOrchestrator.results_dict :=
  match completion with
  | [] => Returned results
  | (bank_code, clock) :: rest =>
      match scrape_bank results bank_code clock web with
      | Returned results' => scrape_all rest web results'
      | Raised e =>
          if exc_is_Exception e then scrape_all rest web results else Raised e
      end
  end.

(** [run_scraping], up to the ranking that it saves and returns. *)
Definition run_scraping (completion : list (string * BaseScraper.Clock))
           (web : string -> option Document) (now : string) : outcome Ranking :=
  results ← scrape_all completion web [];
  CDTOrchestrator.get_ranking now results.

(** What [run] makes of the result of a [scrape] that returns. *)
Definition stamped (clock : BaseScraper.Clock) (result : ScrapingResult) : ScrapingResult :=
  mkScrapingResult (sr_bank_code result) (sr_bank_name result) (success result)
    (map (BaseScraper.stamp (BaseScraper.now_iso clock)) (rates result))
    (error_message result) (BaseScraper.now_iso clock)
    (BaseScraper.end_time clock - BaseScraper.start_time clock)%Qc.

(** The entry that the task of a code of the registry leaves in the
    results. *)
Definition task_of (cc : string * BaseScraper.Clock) (kr : string * ScrapingResult) : Prop :=
  fst kr = fst cc
  /\ exists config result,
       In (fst cc, fixed config result) SCRAPERS
       /\ snd kr = stamped (snd cc) result.

(** What the ranking may hold of a record of the registry: a short term
    and a rate from 6 to 15.5. *)
Definition short_term (r : CDTRate) : bool :=
  existsb (Z.eqb (term_days r)) [30; 60; 90]
  && PyFloat.leb (hundredths 600) (rate_ea r)
  && PyFloat.leb (rate_ea r) (hundredths 1550).

(** The records of the registry, before the time is stamped on them. *)
Definition registry_rates : list CDTRate :=
  flat_map (fun ks => rates (s_scrape (snd ks) None)) SCRAPERS.

End Registry.

(** ** The statistics of the API ([get_statistics] and [get_ranking] of
    [api/app.py]) *)

Module StatsEndpoint.

(** A JSON value of the kinds that the statistics hold. *)
Inductive json : Type :=
| JNull
| JFloat (x : Qc)
| JInt (n : Z)
| JStr (s : string).

(** The dict under [statistics], in the order of insertion. *)
Definition stats_dict : Type := list (string * json).

(** [d[k] = v]: a key already there keeps its place. *)
Fixpoint dict_set (k : string) (v : json) (d : stats_dict) : stats_dict :=
  match d with
  | [] => [(k, v)]
  | (k', v') :: d' =>
      if String.eqb k' k then (k', v) :: d' else (k', v') :: dict_set k v d'
  end.

(** [d.get(k)] *)
Fixpoint dict_get (k : string) (d : stats_dict) : option json :=
  match d with
  | [] => None
  | (k', v) :: d' => if String.eqb k' k then Some v else dict_get k d'
  end.

(** The dict of the data, as far as the two handlers read it; [None] is a
    missing key.  The dict under [statistics] is an object of its own,
    which the data refer to. *)
Record CachedData : Type := mkCachedData {
  c_generated_at : option json;
  c_total_banks : option json;
  c_total_rates : option json;
  c_statistics : option stats_dict;
  c_top_10 : option (list CDTRate)
}.

(** [data.get(key)], [None] reading as [null] *)
Definition or_null (x : option json) : json :=
  match x with Some v => v | None => JNull end.

(** The four assignments to [stats]. *)
Definition with_totals (data : CachedData) (stats : stats_dict) : stats_dict :=
  dict_set "market_trend" (JStr "estable")
    (dict_set "total_rates" (or_null (c_total_rates data))
       (dict_set "total_banks" (or_null (c_total_banks data))
          (dict_set "generated_at" (or_null (c_generated_at data)) stats))).

(** [get_statistics], on the object that [get_rates_data] returned, which
    is the one that the cache holds: the answer, and the object after the
    call.  [stats] is the dict of the data when there is one, so the
    assignments are made to it; the default [{}] is a dict of the call. *)
Definition get_statistics (data : option CachedData)
  : response stats_dict * option CachedData :=
  match data with
  | None => (Error 404 "No hay datos disponibles", None)
  | Some data =>
      match c_statistics data with
      | Some stats =>
          let stats := with_totals data stats in
          (Ok stats,
           Some (mkCachedData (c_generated_at data) (c_total_banks data)
                              (c_total_rates data) (Some stats) (c_top_10 data)))
      | None => (Ok (with_totals data []), Some data)
      end
  end.

Record RankingBody : Type := mkRankingBody {
  rb_generated_at : json;
  rb_statistics : option stats_dict;
  rb_total_banks : json;
  rb_total_rates : json;
  rb_top_10 : list CDTRate
}.

(** [get_ranking] of the API, on the object that [get_rates_data]
    returned; [rb_statistics] is [None] for [null]. *)
Definition get_ranking (data : option CachedData) : response RankingBody :=
  match data with
  | None => Error 404 "No hay datos disponibles"
  | Some data =>
      Ok (mkRankingBody (or_null (c_generated_at data)) (c_statistics data)
                        (or_null (c_total_banks data)) (or_null (c_total_rates data))
                        (match c_top_10 data with Some l => l | None => [] end))
  end.

(** The keys that [get_statistics] assigns. *)
Definition totals_keys : list string :=
  ["generated_at"; "total_banks"; "total_rates"; "market_trend"].

End StatsEndpoint.

(** ** More inputs of the examples *)

Module MoreSamples.

Definition sample_data : Api.RatesData := Api.through_json Samples.sample_ranking.

End MoreSamples.

(** * Properties *)

(** ** The adapter boundary ([BaseScraper.run]) *)

Module RunFacts.
Import Samples.
Import BaseScraper.

(** C8.  When every exception that [scrape] can raise is a fault (an
    instance of [Exception]), [run] returns: nothing is raised past it.
    The result carries the timestamp and the elapsed duration read from
    the clock, and when [scrape] raised it has [success] false, no
    records and the text of the fault as its error message. *)
Theorem run_never_raises_and_captures_faults :
  forall (config : BankConfig) (clock : Clock) (scrape : outcome ScrapingResult),
    (forall e, scrape = Raised e -> exc_is_Exception e = true) ->
    exists result,
      run config clock scrape = Returned result
      /\ sr_scraped_at result = now_iso clock
      /\ scraping_duration result = (end_time clock - start_time clock)%Qc
      /\ (forall e, scrape = Raised e ->
            success result = false
            /\ rates result = []
            /\ error_message result = Some (exc_str e)
            /\ sr_bank_code result = cfg_code config).
Proof.
  intros config clock scrape Hfault.
  destruct scrape as [result | e]; simpl.
  - eexists. split; [reflexivity |]. split; [reflexivity |]. split; [reflexivity |].
    intros e He. discriminate He.
  - rewrite (Hfault e eq_refl).
    eexists. split; [reflexivity |]. split; [reflexivity |]. split; [reflexivity |].
    intros e' He'. injection He' as Heq. rewrite Heq. simpl. auto.
Qed.

Lemma run_never_raises_and_captures_faults_witness :
  exists result,
    run StaticScrapers.bbva_config sample_clock
        (Raised (mkPyExc true "connection reset")) = Returned result
    /\ sr_scraped_at result = "2025-12-01T10:00:00"
    /\ success result = false
    /\ error_message result = Some "connection reset".
Proof.
  destruct (run_never_raises_and_captures_faults
              StaticScrapers.bbva_config sample_clock
              (Raised (mkPyExc true "connection reset")))
    as (result & Hrun & Hat & _ & Hcap).
  - intros e He. injection He as <-. reflexivity.
  - destruct (Hcap _ eq_refl) as (Hs & _ & Herr & _).
    exists result. repeat split; assumption.
Defined.

(** An exception that is not a fault goes through [run]. *)
Lemma run_lets_base_exceptions_through :
  forall config clock e,
    exc_is_Exception e = false ->
    run config clock (Raised e) = Raised e.
Proof. intros config clock e He. simpl. rewrite He. reflexivity. Qed.

End RunFacts.

(** ** The rate-listing query ([get_rates]) *)

Module RatesQueryFacts.
Import Samples.
Import App.


(** With a term of 0 the three stored records come back, none of which
    has a term of 0: the filter was not applied. *)
Lemma get_rates_term_zero_example :
  match get_rates (Some sample_ranking)
                  (mkRatesQuery (Some 0) None (Some 0%Qc) 100 "term_asc") with
  | Ok body => (rb_total body, map term_days (rb_rates body))
  | Error _ _ => (O, [])
  end = (3%nat, [30; 60; 90]).
Proof. vm_compute. reflexivity. Qed.

End RatesQueryFacts.

(** ** The net-yield simulation ([simulate_cdt]) *)

Module SimulateFacts.
Import Samples.
Import Simulate.






(** A rate of 0 in the body counts as no rate: the best stored rate for
    the term is used in its place. *)
Lemma simulate_cdt_zero_rate_is_looked_up :
  forall (F : Type) (ops : FloatOps F) (P R0 : F) (T : Z)
         (bank : option string) (rates_data : option (list StoredRate)),
    f_truthy P = true -> T <> 0 -> f_truthy R0 = false ->
    simulate_cdt (Some (mkSimRequest (Some P) (Some T) (Some R0) bank)) rates_data
    = simulate_cdt (Some (mkSimRequest (Some P) (Some T) None bank)) rates_data.
Proof.
  intros F ops P R0 T bank rates_data HP HT HR.
  unfold simulate_cdt, some_truthy, some_nonzero. simpl.
  rewrite HP, HR. reflexivity.
Qed.

End SimulateFacts.

(** ** The card strategy ([MejorCDTScraper._extract_rates_from_card]) *)

Module CardFacts.
Import Samples.
Import MejorCDTScraper.

Lemma longest_standard_term_is_720 : longest_standard_term = 720.
Proof. reflexivity. Qed.

(** C2, as amended.  Every record that the card strategy emits has a
    term of 360 days, the constant that the strategy uses when no term is
    read, and carries no amount bound. *)
Theorem card_records_default_term :
  forall (origin : Origin) (card : Card) (r : CDTRateFromMejorCDT),
    In r (_extract_rates_from_card origin card) ->
    m_term_days r = 360 /\ m_min_amount r = None /\ m_max_amount r = None.
Proof.
  intros origin card r Hin.
  unfold _extract_rates_from_card in Hin.
  destruct (card_title card) as [title |]; [| contradiction].
  destruct (negb (Text.truthy (Text.strip title))
            || (String.length (Text.strip title) <? 3)%nat); [contradiction |].
  apply in_flat_map in Hin. destruct Hin as (rate_str & _ & Hin).
  destruct (_parse_rate rate_str) as [rate |]; [| contradiction].
  destruct (plausible rate); [| contradiction].
  destruct Hin as [<- | []]. repeat split.
Qed.

Lemma sample_card_record :
  map (fun r => (m_bank_code r, m_term_days r, this (m_rate_ea r)))
      (_extract_rates_from_card sample_origin sample_card)
  = [("banco_x", 360, 25 # 2)].
Proof. vm_compute. reflexivity. Qed.

Lemma card_records_default_term_witness :
  exists r,
    In r (_extract_rates_from_card sample_origin sample_card)
    /\ m_term_days r = 360 /\ m_min_amount r = None /\ m_max_amount r = None.
Proof.
  assert (Hne : _extract_rates_from_card sample_origin sample_card <> []).
  { intros E. pose proof sample_card_record as H. rewrite E in H. discriminate H. }
  destruct (_extract_rates_from_card sample_origin sample_card) as [| r l] eqn:E;
    [contradiction |].
  exists r. split; [left; reflexivity |].
  apply (card_records_default_term sample_origin sample_card).
  rewrite E. left. reflexivity.
Defined.

(** C2 as stated fails: the card of a bank with one rate and no term
    gives a record whose term is 360, not the longest standard term. *)
Lemma card_term_is_not_longest_standard_term :
  ~ (forall r, In r (_extract_rates_from_card sample_origin sample_card) ->
               m_term_days r = longest_standard_term).
Proof.
  intros Hall.
  pose proof sample_card_record as Hrec.
  destruct (_extract_rates_from_card sample_origin sample_card) as [| r l];
    [discriminate Hrec |].
  specialize (Hall r (or_introl eq_refl)).
  cbn [map] in Hrec. injection Hrec as _ Hterm _.
  rewrite Hall in Hterm. discriminate Hterm.
Qed.

End CardFacts.

(** ** The table scenario ([GenericTableScraper]) *)

Module TableFacts.
Import Samples.
Import GenericTableScraper.

Lemma scenario_is_extracted :
  forall ancestors cards text,
    _extract_tables (mkDocument [scenario_table ancestors] cards text)
    = [scenario_table ancestors].
Proof.
  intros ancestors cards text.
  unfold _extract_tables. cbn [doc_tables List.filter].
  replace (existsb _ _) with true; [reflexivity |].
  symmetry. apply existsb_exists. exists "tasa". split.
  - right. left. reflexivity.
  - apply orb_true_iff. left. vm_compute. reflexivity.
Qed.

Lemma scenario_is_parsed :
  forall config ancestors,
    _parse_table config (scenario_table ancestors) = [scenario_record config].
Proof. intros. vm_compute. reflexivity. Qed.

(** C9.  A document with one table, of header row Entidad / Plazo /
    Tasa E.A. and of one data row Banco X / 90 dias / 9,50%, gives exactly
    one record, of term 90 days and of rate 9.50: the table is kept by
    [_extract_tables], parsed into that record by [_parse_table], and the
    record is the whole result of [scrape]. *)
Theorem table_scenario_yields_one_record :
  forall (config : BankConfig) (ancestors : list string)
         (cards : list Card) (text : string),
    let soup := mkDocument [scenario_table ancestors] cards text in
    _extract_tables soup = [scenario_table ancestors]
    /\ _parse_table config (scenario_table ancestors) = [scenario_record config]
    /\ rates (scrape config (Some soup)) = [scenario_record config]
    /\ success (scrape config (Some soup)) = true
    /\ term_days (scenario_record config) = 90
    /\ this (rate_ea (scenario_record config)) = 19 # 2.
Proof.
  intros config ancestors cards text soup.
  split; [apply scenario_is_extracted |].
  split; [apply scenario_is_parsed |].
  assert (E : rates (scrape config (Some soup)) = [scenario_record config]).
  { unfold scrape, soup. rewrite scenario_is_extracted.
    cbn [flat_map rates]. rewrite scenario_is_parsed. cbn [app unique_from].
    destruct (decide (key (scenario_record config) ∈ (∅ : gset rate_key))) as [Hin | _];
      [set_solver | reflexivity]. }
  split; [exact E |].
  split.
  - unfold scrape, soup. rewrite scenario_is_extracted.
    cbn [flat_map success]. rewrite scenario_is_parsed. cbn [app unique_from].
    destruct (decide (key (scenario_record config) ∈ (∅ : gset rate_key))) as [Hin | _];
      [set_solver | reflexivity].
  - split; reflexivity.
Qed.

End TableFacts.

(** ** What the matcher hands to its continuation *)

Module ReFacts.
Import Re.

#[local] Arguments String.append !s1 s2 : simpl nomatch.

Lemma length_append (a b : string) :
  String.length (String.append a b) = (String.length a + String.length b)%nat.
Proof. induction a as [| c a IH]; simpl; [reflexivity | rewrite IH; reflexivity]. Qed.

Lemma take_append (a b : string) :
  Text.take (String.length (String.append a b) - String.length b) (String.append a b) = a.
Proof.
  rewrite length_append.
  replace (String.length a + String.length b - String.length b)%nat
    with (String.length a) by lia.
  induction a as [| c a IH]; simpl.
  - destruct b; reflexivity.
  - rewrite IH. reflexivity.
Qed.

Lemma append_assoc (a b c : string) :
  String.append (String.append a b) c = String.append a (String.append b c).
Proof. induction a as [| x a IH]; simpl; [reflexivity | rewrite IH; reflexivity]. Qed.

Lemma all_chars_append P (a b : string) :
  Text.all_chars P a = true -> Text.all_chars P b = true ->
  Text.all_chars P (String.append a b) = true.
Proof.
  induction a as [| c a IH]; simpl; intros Ha Hb; [exact Hb |].
  apply andb_true_iff in Ha. destruct Ha as [Hc Ha].
  rewrite Hc. simpl. apply IH; assumption.
Qed.

(** A pattern within [P] consumes a prefix made of characters of [P] and
    leaves the groups as they were. *)
Lemma run_within (P : ascii -> bool) (r : regex) :
  within P r ->
  forall (A : Type) (s : string) (cs : captures)
         (k : string -> captures -> option A) (a : A),
    run r s cs k = Some a ->
    exists d s1,
      s = String.append d s1 /\ Text.all_chars P d = true /\ k s1 cs = Some a.
Proof.
  induction r as [| p | r1 IH1 r2 IH2 | r1 IH1 r2 IH2 | r1 IH1 | i r1 IH1];
    intros Hw A s cs k a Hrun.
  - exists EmptyString, s. auto.
  - simpl in Hrun. destruct s as [| c s']; [discriminate |].
    destruct (p c) eqn:Hp; [| discriminate].
    exists (String c EmptyString), s'. simpl. rewrite (Hw c Hp). auto.
  - destruct Hw as [Hw1 Hw2]. simpl in Hrun.
    destruct (IH1 Hw1 _ _ _ _ _ Hrun) as (d1 & s1 & -> & Hd1 & Hrun2).
    destruct (IH2 Hw2 _ _ _ _ _ Hrun2) as (d2 & s2 & -> & Hd2 & Hk).
    exists (String.append d1 d2), s2.
    rewrite append_assoc. auto using all_chars_append.
  - destruct Hw as [Hw1 Hw2]. simpl in Hrun.
    destruct (run r1 s cs k) as [a1 |] eqn:E1.
    + injection Hrun as <-. eapply IH1; eassumption.
    + eapply IH2; eassumption.
  - simpl in Hw. simpl in Hrun. revert Hrun.
    generalize (String.length s) as fuel. intros fuel. revert s cs.
    induction fuel as [| fuel IHf]; intros s cs Hrun.
    + exists EmptyString, s. auto.
    + match type of Hrun with
      | match ?m with _ => _ end = _ => destruct m as [a1 |] eqn:E1
      end.
      * injection Hrun as <-.
        destruct (IH1 Hw _ _ _ _ _ E1) as (d1 & s1 & -> & Hd1 & Hit).
        destruct (String.length s1 <? String.length (String.append d1 s1))%nat;
          [| discriminate].
        destruct (IHf _ _ Hit) as (d2 & s2 & -> & Hd2 & Hk).
        exists (String.append d1 d2), s2.
        rewrite append_assoc. auto using all_chars_append.
      * exists EmptyString, s. auto.
  - contradiction.
Qed.

(** A group around such a pattern records exactly the prefix consumed. *)
Lemma run_group_within (P : ascii -> bool) (i : nat) (r : regex) :
  within P r ->
  forall (A : Type) (s : string) (cs : captures)
         (k : string -> captures -> option A) (a : A),
    run (Group i r) s cs k = Some a ->
    exists d s1,
      s = String.append d s1 /\ Text.all_chars P d = true
      /\ k s1 ((i, d) :: cs) = Some a.
Proof.
  intros Hw A s cs k a Hrun. simpl in Hrun.
  destruct (run_within P r Hw _ _ _ _ _ Hrun) as (d & s1 & -> & Hd & Hk).
  rewrite take_append in Hk. eauto.
Qed.

(** The patterns of [_parse_term]: a group of digits, then a tail without
    groups. *)
Lemma match_digits_then (tail : regex) :
  within any_char tail ->
  forall s cs rest,
    match_at (Seq (Group 1 (Plus digit)) tail) s = Some (cs, rest) ->
    digits_group1 cs.
Proof.
  intros Hw s cs rest Hm. unfold match_at in Hm.
  change (run (Seq (Group 1 (Plus digit)) tail) s [] (fun rest cs => Some (cs, rest)))
    with (run (Group 1 (Plus digit)) s []
              (fun s1 cs1 => run tail s1 cs1 (fun rest cs => Some (cs, rest)))) in Hm.
  assert (Hdig : within Text.is_digit (Plus digit)) by (simpl; auto).
  destruct (run_group_within Text.is_digit 1 (Plus digit) Hdig _ _ _ _ _ Hm)
    as (d & s1 & _ & Hd & Hk).
  destruct (run_within any_char tail Hw _ _ _ _ _ Hk) as (d2 & s2 & _ & _ & Hfin).
  injection Hfin as <- _. exists d. auto.
Qed.

Lemma search_nil (r : regex) :
  search r EmptyString
  = match match_at r EmptyString with Some (cs, _) => Some cs | None => None end.
Proof. reflexivity. Qed.

Lemma search_cons (r : regex) (c : ascii) (s : string) :
  search r (String c s)
  = match match_at r (String c s) with Some (cs, _) => Some cs | None => search r s end.
Proof. reflexivity. Qed.

(** What holds of every match holds of the leftmost one. *)
Lemma search_match (r : regex) (Q : captures -> Prop) :
  (forall s cs rest, match_at r s = Some (cs, rest) -> Q cs) ->
  forall s cs, search r s = Some cs -> Q cs.
Proof.
  intros Hm s. induction s as [| c s IH]; intros cs Hs.
  - rewrite search_nil in Hs.
    destruct (match_at r EmptyString) as [[cs0 rest] |] eqn:E; [| discriminate].
    injection Hs as <-. eapply Hm; eassumption.
  - rewrite search_cons in Hs.
    destruct (match_at r (String c s)) as [[cs0 rest] |] eqn:E.
    + injection Hs as <-. eapply Hm; eassumption.
    + apply IH. exact Hs.
Qed.

Lemma match_digits_only :
  forall s cs rest,
    match_at (Group 1 (Plus digit)) s = Some (cs, rest) ->
    digits_group1 cs.
Proof.
  intros s cs rest Hm. unfold match_at in Hm.
  assert (Hdig : within Text.is_digit (Plus digit)) by (simpl; auto).
  destruct (run_group_within Text.is_digit 1 (Plus digit) Hdig _ _ _ _ _ Hm)
    as (d & s1 & _ & Hd & Hk).
  injection Hk as <- _. exists d. auto.
Qed.

Lemma digits_value_nonneg (d : string) :
  Text.all_chars Text.is_digit d = true ->
  forall acc, 0 <= acc -> 0 <= Text.digits_value acc d.
Proof.
  induction d as [| c d IH]; simpl; intros Hd acc Hacc; [exact Hacc |].
  apply andb_true_iff in Hd. destruct Hd as [Hc Hd].
  apply IH; [exact Hd |].
  unfold Text.is_digit in Hc. apply andb_true_iff in Hc. destruct Hc as [Hlo _].
  apply N.leb_le in Hlo. unfold Text.digit_val. lia.
Qed.

Ltac any_tail := simpl; repeat split; intros; reflexivity.

Lemma re_dias_groups s cs : search BaseScraper.re_dias s = Some cs -> digits_group1 cs.
Proof. apply search_match. apply match_digits_then. any_tail. Qed.

Lemma re_meses_groups s cs : search BaseScraper.re_meses s = Some cs -> digits_group1 cs.
Proof. apply search_match. apply match_digits_then. any_tail. Qed.

Lemma re_anos_groups s cs : search BaseScraper.re_anos s = Some cs -> digits_group1 cs.
Proof. apply search_match. apply match_digits_then. any_tail. Qed.

Lemma re_number_groups s cs : search BaseScraper.re_number s = Some cs -> digits_group1 cs.
Proof. apply search_match. apply match_digits_only. Qed.

(** The number that [_parse_term] reads from a match. *)
Lemma int_group1_nonneg (cs : captures) :
  digits_group1 cs -> 0 <= BaseScraper.int_group1 cs.
Proof.
  intros (d & -> & Hd). unfold BaseScraper.int_group1. simpl.
  apply digits_value_nonneg; [exact Hd | lia].
Qed.

Lemma parse_term_with_nonneg (months_below : Z) (text : string) (t : Z) :
  BaseScraper.parse_term_with months_below text = Some t -> 0 <= t.
Proof.
  unfold BaseScraper.parse_term_with.
  destruct (negb (Text.truthy text)); [discriminate |].
  set (low := Text.lower (Text.strip text)).
  destruct (search BaseScraper.re_dias low) as [cs |] eqn:Ed.
  { intros [= <-]. apply int_group1_nonneg.
    exact (re_dias_groups _ _ Ed). }
  destruct (search BaseScraper.re_meses low) as [cs |] eqn:Em.
  { intros [= <-].
    assert (0 <= BaseScraper.int_group1 cs); [| lia].
    apply int_group1_nonneg.
    exact (re_meses_groups _ _ Em). }
  destruct (search BaseScraper.re_anos low) as [cs |] eqn:Ea.
  { intros [= <-].
    assert (0 <= BaseScraper.int_group1 cs); [| lia].
    apply int_group1_nonneg.
    exact (re_anos_groups _ _ Ea). }
  destruct (search BaseScraper.re_number low) as [cs |] eqn:En; [| discriminate].
  assert (0 <= BaseScraper.int_group1 cs).
  { apply int_group1_nonneg.
    exact (re_number_groups _ _ En). }
  destruct (BaseScraper.int_group1 cs <=? months_below); intros [= <-]; lia.
Qed.

End ReFacts.

(** ** What the extraction paths let through *)

Module ExtractionFacts.
Import Samples.

Lemma truthy_nonzero (x : Qc) : PyFloat.truthy x = true -> x <> 0%Qc.
Proof.
  unfold PyFloat.truthy. intros H E. subst x. discriminate H.
Qed.

Lemma ltb_lt (x y : Qc) : PyFloat.ltb x y = true -> (x < y)%Qc.
Proof.
  unfold PyFloat.ltb. destruct (x ?= y)%Qc eqn:E; try discriminate.
  intros _. exact E.
Qed.

(** The loop that drops duplicates keeps records of its input only. *)
Lemma generic_unique_from_incl (l : list CDTRate) :
  forall seen x, In x (GenericTableScraper.unique_from seen l) -> In x l.
Proof.
  induction l as [| r l IH]; intros seen x Hin; simpl in Hin; [contradiction |].
  destruct (decide (GenericTableScraper.key r ∈ seen)).
  - right. eapply IH. eassumption.
  - destruct Hin as [<- | Hin]; [left; reflexivity | right; eapply IH; eassumption].
Qed.

Lemma mejor_unique_from_incl (l : list CDTRateFromMejorCDT) :
  forall seen x, In x (MejorCDTScraper.unique_from seen l) -> In x l.
Proof.
  induction l as [| r l IH]; intros seen x Hin; simpl in Hin; [contradiction |].
  destruct (decide (MejorCDTScraper.key r ∈ seen)).
  - right. eapply IH. eassumption.
  - destruct Hin as [<- | Hin]; [left; reflexivity | right; eapply IH; eassumption].
Qed.

Lemma parse_row_invariant config term_col rate_col amount_col cells r :
  In r (GenericTableScraper.parse_row config term_col rate_col amount_col cells) ->
  0 < term_days r /\ rate_ea r <> 0%Qc.
Proof.
  unfold GenericTableScraper.parse_row.
  destruct (length cells <? 2)%nat; [contradiction |].
  destruct (BaseScraper._parse_term _) as [t |] eqn:Et; [| contradiction].
  destruct (BaseScraper._parse_rate _) as [q |]; [| contradiction].
  destruct (negb (t =? 0) && PyFloat.truthy q) eqn:Eg; [| contradiction].
  apply andb_true_iff in Eg. destruct Eg as [Ht Hq].
  intros [<- | []]. simpl. split.
  - apply negb_true_iff, Z.eqb_neq in Ht.
    pose proof (ReFacts.parse_term_with_nonneg _ _ _ Et). lia.
  - apply truthy_nonzero. exact Hq.
Qed.

Lemma parse_table_invariant config table r :
  In r (GenericTableScraper._parse_table config table) ->
  0 < term_days r /\ rate_ea r <> 0%Qc.
Proof.
  unfold GenericTableScraper._parse_table.
  destruct (tbl_rows table) as [| header_row data_rows]; [contradiction |].
  intros Hin. apply in_flat_map in Hin. destruct Hin as (cells & _ & Hin).
  eapply parse_row_invariant. eassumption.
Qed.

Lemma or_360_positive (x : option Z) :
  (forall t, x = Some t -> 0 <= t) -> 0 < MejorCDTScraper.or_360 x.
Proof.
  intros Hx. unfold MejorCDTScraper.or_360.
  destruct x as [t |]; [| lia].
  destruct (Z.eqb_spec t 0); [lia |].
  specialize (Hx t eq_refl). lia.
Qed.

Lemma mejor_term_positive (text : string) :
  0 < MejorCDTScraper.or_360 (MejorCDTScraper._parse_term text).
Proof.
  apply or_360_positive. intros t Ht.
  eapply ReFacts.parse_term_with_nonneg. exact Ht.
Qed.

Lemma plausible_range (rate : Qc) :
  MejorCDTScraper.plausible rate = true ->
  (1 < rate)%Qc /\ (rate < PyFloat.of_Z 25)%Qc.
Proof.
  unfold MejorCDTScraper.plausible. intros H.
  apply andb_true_iff in H. destruct H as [H H25].
  apply andb_true_iff in H. destruct H as [_ H1].
  split; apply ltb_lt; assumption.
Qed.

Lemma mejor_cell_invariant origin headers cols cells bank_name ic r :
  In r (MejorCDTScraper.rates_of_cell origin headers cols cells bank_name ic) ->
  MejorCDTScraper.plausible_record r.
Proof.
  unfold MejorCDTScraper.rates_of_cell. destruct ic as [i cell].
  destruct (match MejorCDTScraper.bank_col cols with
            | Some b => Nat.eqb i b | None => false end); [contradiction |].
  destruct (MejorCDTScraper._parse_rate _) as [rate |]; [| contradiction].
  destruct (MejorCDTScraper.plausible rate) eqn:Hp; [| contradiction].
  intros [<- | []]. unfold MejorCDTScraper.plausible_record. simpl.
  split; [| apply plausible_range; exact Hp].
  destruct (MejorCDTScraper.term_col cols) as [t |].
  - destruct (t <? length cells)%nat; [apply mejor_term_positive |].
    destruct (i <? length headers)%nat; [apply mejor_term_positive | lia].
  - destruct (i <? length headers)%nat; [apply mejor_term_positive | lia].
Qed.

Lemma mejor_table_invariant origin table r :
  In r (MejorCDTScraper._extract_rates_from_table origin table) ->
  MejorCDTScraper.plausible_record r.
Proof.
  unfold MejorCDTScraper._extract_rates_from_table.
  destruct (tbl_rows table) as [| header_row [| second rest]]; try contradiction.
  intros Hin. apply in_flat_map in Hin. destruct Hin as (cells & _ & Hin).
  unfold MejorCDTScraper.rates_of_row in Hin.
  destruct (length cells <? 2)%nat; [contradiction |].
  match type of Hin with
  | In _ (if ?c then _ else _) => destruct c; [contradiction |]
  end.
  apply in_flat_map in Hin. destruct Hin as (ic & _ & Hin).
  eapply mejor_cell_invariant. eassumption.
Qed.

Lemma default_term_invariant origin name code rate :
  MejorCDTScraper.plausible rate = true ->
  MejorCDTScraper.plausible_record (MejorCDTScraper.default_term_rate origin name code rate).
Proof.
  intros Hp. unfold MejorCDTScraper.plausible_record. simpl.
  split; [lia | apply plausible_range; exact Hp].
Qed.

Lemma mejor_card_invariant origin card r :
  In r (MejorCDTScraper._extract_rates_from_card origin card) -> MejorCDTScraper.plausible_record r.
Proof.
  unfold MejorCDTScraper._extract_rates_from_card.
  destruct (card_title card) as [title |]; [| contradiction].
  match goal with
  | |- In _ (if ?c then _ else _) -> _ => destruct c; [contradiction |]
  end.
  intros Hin. apply in_flat_map in Hin. destruct Hin as (rate_str & _ & Hin).
  destruct (MejorCDTScraper._parse_rate rate_str) as [rate |]; [| contradiction].
  destruct (MejorCDTScraper.plausible rate) eqn:Hp; [| contradiction].
  destruct Hin as [<- | []]. apply default_term_invariant. exact Hp.
Qed.

Lemma mejor_text_invariant origin soup r :
  In r (MejorCDTScraper._extract_rates_from_text origin soup) -> MejorCDTScraper.plausible_record r.
Proof.
  unfold MejorCDTScraper._extract_rates_from_text.
  intros Hin. apply in_flat_map in Hin.
  destruct Hin as ([bank_name rate_str] & _ & Hin).
  destruct (String.length bank_name <? 3)%nat; [contradiction |].
  destruct (MejorCDTScraper._parse_rate rate_str) as [rate |]; [| contradiction].
  destruct (MejorCDTScraper.plausible rate) eqn:Hp; [| contradiction].
  match type of Hin with
  | In _ (if ?c then _ else _) => destruct c; [| contradiction]
  end.
  destruct Hin as [<- | []]. apply default_term_invariant. exact Hp.
Qed.

(** C4, as amended.  Every record of the generic table path has a term
    above 0 and a rate that is not 0, with no bound on the rate; every
    record of the consolidator's page, whichever of its three strategies
    found it, has a term above 0 and a rate strictly between 1 and 25. *)
Theorem extraction_paths_invariants :
  (forall (config : BankConfig) (page : option Document) (r : CDTRate),
      In r (rates (GenericTableScraper.scrape config page)) ->
      0 < term_days r /\ rate_ea r <> 0%Qc)
  /\ (forall (month_url scraped_at : string) (page : option Document)
             (r : CDTRateFromMejorCDT),
         In r (MejorCDTScraper.scrape_monthly_page month_url scraped_at page) ->
         0 < m_term_days r
         /\ (1 < m_rate_ea r)%Qc /\ (m_rate_ea r < PyFloat.of_Z 25)%Qc).
Proof.
  split.
  - intros config [soup |] r Hin; simpl in Hin; [| contradiction].
    apply generic_unique_from_incl in Hin.
    apply in_flat_map in Hin. destruct Hin as (table & _ & Hin).
    eapply parse_table_invariant. eassumption.
  - intros month_url scraped_at [soup |] r Hin; simpl in Hin; [| contradiction].
    unfold MejorCDTScraper._deduplicate_rates in Hin.
    apply mejor_unique_from_incl in Hin.
    unfold MejorCDTScraper.candidates in Hin.
    apply in_app_or in Hin. destruct Hin as [Hin | Hin].
    + apply in_flat_map in Hin. destruct Hin as (table & _ & Hin).
      eapply mejor_table_invariant. eassumption.
    + apply in_app_or in Hin. destruct Hin as [Hin | Hin].
      * apply in_flat_map in Hin. destruct Hin as (card & _ & Hin).
        eapply mejor_card_invariant. eassumption.
      * eapply mejor_text_invariant. eassumption.
Qed.

Lemma scenario_scrape_rates :
  rates (GenericTableScraper.scrape banco_x_config
           (Some (mkDocument [scenario_table []] [] EmptyString)))
  = [scenario_record banco_x_config].
Proof. vm_compute. reflexivity. Qed.

Lemma extraction_paths_invariants_witness :
  0 < term_days (scenario_record banco_x_config)
  /\ rate_ea (scenario_record banco_x_config) <> 0%Qc.
Proof.
  apply (proj1 extraction_paths_invariants banco_x_config
               (Some (mkDocument [scenario_table []] [] EmptyString))).
  rewrite scenario_scrape_rates. left. reflexivity.
Defined.

(** C4 as stated fails on the generic table path: a row whose rate cell
    reads 50% gives a record of rate 50, above the plausible range, in the
    result of a successful scrape. *)
Lemma generic_path_keeps_rate_out_of_range :
  success (GenericTableScraper.scrape banco_x_config (Some fifty_page)) = true
  /\ exists r,
       In r (rates (GenericTableScraper.scrape banco_x_config (Some fifty_page)))
       /\ term_days r = 90
       /\ (PyFloat.of_Z 25 < rate_ea r)%Qc.
Proof.
  split; [vm_compute; reflexivity |].
  assert (E : map (fun r => (term_days r, this (rate_ea r)))
                  (rates (GenericTableScraper.scrape banco_x_config (Some fifty_page)))
              = [(90, 50 # 1)]) by (vm_compute; reflexivity).
  destruct (rates (GenericTableScraper.scrape banco_x_config (Some fifty_page)))
    as [| r l]; [discriminate E |].
  exists r. split; [left; reflexivity |].
  cbn [map] in E. injection E as Ht Hr _.
  split; [exact Ht |].
  unfold Qclt. rewrite Hr. reflexivity.
Qed.

End ExtractionFacts.

(** ** The merge ([CDTOrchestrator.get_all_rates]) *)

Module MergeFacts.
Import Samples CDTOrchestrator.

Local Abbreviation key := GenericTableScraper.key.

Lemma get_all_rates_cons (k : string) (res : ScrapingResult) (rest : results_dict) :
  get_all_rates ((k, res) :: rest)
  = ((if success res then rates res else []) ++ get_all_rates rest)%list.
Proof. reflexivity. Qed.


(** The loop of the adapters that drops duplicates: no key is left twice,
    and none that was already seen. *)
Lemma unique_from_fresh (l : list CDTRate) :
  forall seen,
    NoDup (map key (GenericTableScraper.unique_from seen l))
    /\ (forall x, x ∈ GenericTableScraper.unique_from seen l -> key x ∉ seen).
Proof.
  induction l as [| r l IH]; intros seen; simpl.
  - split; [constructor | intros x Hx; inversion Hx].
  - destruct (decide (key r ∈ seen)) as [Hin | Hnin]; [apply IH |].
    destruct (IH ({[ key r ]} ∪ seen)) as [Hnd Hfresh].
    split.
    + simpl. constructor; [| exact Hnd].
      intros Hr. apply list_elem_of_fmap in Hr. destruct Hr as (y & Hy & Hyin).
      apply Hfresh in Hyin. apply Hyin.
      apply elem_of_union_l, elem_of_singleton. symmetry. exact Hy.
    + intros x Hx. apply elem_of_cons in Hx. destruct Hx as [-> | Hx]; [exact Hnin |].
      apply Hfresh in Hx. intros Hseen. apply Hx. apply elem_of_union_r. exact Hseen.
Qed.

(** It keeps the first record of every key, in the order of the input. *)
Lemma unique_from_sublist (l : list CDTRate) :
  forall seen, sublist (GenericTableScraper.unique_from seen l) l.
Proof.
  induction l as [| r l IH]; intros seen; simpl; [constructor |].
  destruct (decide (key r ∈ seen)).
  - apply sublist_cons. apply IH.
  - apply sublist_skip. apply IH.
Qed.

Lemma unique_from_keeps_keys (l : list CDTRate) :
  forall seen x,
    x ∈ l -> key x ∉ seen ->
    exists y, y ∈ GenericTableScraper.unique_from seen l /\ key y = key x.
Proof.
  induction l as [| r l IH]; intros seen x Hx Hfresh; [inversion Hx |].
  simpl. apply elem_of_cons in Hx.
  destruct (decide (key r ∈ seen)) as [Hin | Hnin].
  - destruct Hx as [-> | Hx]; [contradiction |]. apply IH; assumption.
  - destruct (decide (key x = key r)) as [E | N].
    + exists r. split; [left | congruence].
    + destruct Hx as [-> | Hx]; [contradiction |].
      destruct (IH ({[ key r ]} ∪ seen) x Hx) as (y & Hy & E).
      { intros Hu. apply elem_of_union in Hu. destruct Hu as [Hu | Hu].
        - apply elem_of_singleton in Hu. contradiction.
        - contradiction. }
      exists y. split; [right; exact Hy | exact E].
Qed.

(** What the generic adapter hands to the orchestrator: no key twice, and
    every record under the code of the source. *)
Lemma generic_scrape_is_unique (config : BankConfig) (page : option Document) :
  NoDup (map key (rates (GenericTableScraper.scrape config page))).
Proof.
  destruct page as [soup |]; simpl; [| constructor].
  apply unique_from_fresh.
Qed.

Lemma generic_scrape_bank_code (config : BankConfig) (page : option Document) (x : CDTRate) :
  x ∈ rates (GenericTableScraper.scrape config page) -> bank_code x = cfg_code config.
Proof.
  destruct page as [soup |]; simpl; [| intros H; inversion H].
  intros Hx.
  apply elem_of_sublist
    with (l2 := flat_map (GenericTableScraper._parse_table config)
                         (GenericTableScraper._extract_tables soup)) in Hx;
    [| apply unique_from_sublist].
  apply list_elem_of_In, in_flat_map in Hx. destruct Hx as (table & _ & Hx).
  unfold GenericTableScraper._parse_table in Hx.
  destruct (tbl_rows table) as [| header_row data_rows]; [contradiction |].
  apply in_flat_map in Hx. destruct Hx as (cells & _ & Hx).
  unfold GenericTableScraper.parse_row in Hx.
  destruct (length cells <? 2)%nat; [contradiction |].
  destruct (BaseScraper._parse_term _); [| contradiction].
  destruct (BaseScraper._parse_rate _); [| contradiction].
  match type of Hx with
  | In _ (if ?c then _ else _) => destruct c; [| contradiction]
  end.
  destruct Hx as [<- | []]. reflexivity.
Qed.





End MergeFacts.

(** ** The order of the merge ([scrape_all], [get_all_rates]) *)

Module OrderFacts.
Import Samples CDTOrchestrator.

Lemma dict_set_fresh (k : string) (v : ScrapingResult) (d : results_dict) :
  k ∉ map fst d -> dict_set k v d = (d ++ [(k, v)])%list.
Proof.
  induction d as [| [k' v'] d IH]; intros Hk; simpl; [reflexivity |].
  simpl in Hk. apply not_elem_of_cons in Hk. destruct Hk as [Hne Hk].
  destruct (String.eqb_spec k k') as [E | _]; [contradiction |].
  rewrite IH by exact Hk. reflexivity.
Qed.

(** Into a dict that holds none of their codes, the results enter in the
    order in which they complete. *)
Lemma scrape_all_appends (completed : list (string * ScrapingResult)) :
  forall d : results_dict,
    NoDup (map fst completed) ->
    (forall k, k ∈ map fst completed -> k ∉ map fst d) ->
    scrape_all completed d = (d ++ completed)%list.
Proof.
  induction completed as [| [k v] rest IH]; intros d Hnd Hfresh; simpl.
  - symmetry. apply app_nil_r.
  - apply list.NoDup_cons in Hnd. simpl in Hnd. destruct Hnd as [Hk Hnd].
    unfold scrape_all in IH. rewrite dict_set_fresh.
    + rewrite IH.
      * rewrite <- app_assoc. reflexivity.
      * exact Hnd.
      * intros k' Hk'. rewrite map_app. simpl. intros Hin.
        apply elem_of_app in Hin. destruct Hin as [Hin | Hin].
        -- apply (Hfresh k'); [right; exact Hk' | exact Hin].
        -- apply elem_of_cons in Hin. destruct Hin as [-> | Hin]; [contradiction | inversion Hin].
    + apply Hfresh. left.
Qed.

Lemma scrape_all_from_empty (completed : list (string * ScrapingResult)) :
  NoDup (map fst completed) -> scrape_all completed [] = completed.
Proof.
  intros Hnd. rewrite scrape_all_appends; [reflexivity | exact Hnd |].
  intros k _ Hin. inversion Hin.
Qed.

(** C7, as amended.  The merge follows the order in which the results
    entered the dict, which is the order in which the tasks completed: for
    the same sources and the same results, two runs merge the same records,
    in the same order when the tasks completed in the same order and up to
    a permutation otherwise. *)
Theorem merge_follows_completion_order :
  forall completed1 completed2 : list (string * ScrapingResult),
    NoDup (map fst completed1) ->
    completed1 ≡ₚ completed2 ->
    get_all_rates (scrape_all completed1 []) = get_all_rates completed1
    /\ get_all_rates (scrape_all completed2 []) = get_all_rates completed2
    /\ get_all_rates (scrape_all completed1 []) ≡ₚ get_all_rates (scrape_all completed2 []).
Proof.
  intros completed1 completed2 Hnd Hperm.
  assert (Hnd2 : NoDup (map fst completed2)).
  { apply NoDup_ListNoDup.
    apply (Permutation_NoDup (l := map fst completed1)).
    - apply Permutation_map. exact Hperm.
    - apply NoDup_ListNoDup. exact Hnd. }
  rewrite !scrape_all_from_empty by assumption.
  split; [reflexivity |]. split; [reflexivity |].
  unfold get_all_rates. apply Permutation_flat_map. exact Hperm.
Qed.

Lemma two_codes_differ : NoDup (map fst bancolombia_first).
Proof. apply NoDup_ListNoDup. repeat constructor; simpl; intuition discriminate. Qed.

Lemma merge_follows_completion_order_witness :
  get_all_rates (scrape_all bancolombia_first [])
  ≡ₚ get_all_rates (scrape_all bbva_first []).
Proof.
  apply (merge_follows_completion_order bancolombia_first bbva_first).
  - exact two_codes_differ.
  - apply perm_swap.
Defined.

(** C7 as stated fails: with the same two sources, each with its fixed
    records, the merged list and the ranking built from it differ between
    the run in which Bancolombia completes first and the run in which BBVA
    does; in the ranking the records of equal rate change places. *)
Lemma merge_depends_on_completion_order :
  map bank_code (get_all_rates (scrape_all bancolombia_first []))
  <> map bank_code (get_all_rates (scrape_all bbva_first []))
  /\ match get_ranking "2025-12-01T10:00:00" (scrape_all bancolombia_first []),
           get_ranking "2025-12-01T10:00:00" (scrape_all bbva_first []) with
     | Returned r1, Returned r2 =>
         map (fun r => (bank_code r, term_days r)) (all_rates r1)
         = [ ("bancolombia", 90); ("bancolombia", 60); ("bbva", 90);
             ("bancolombia", 30); ("bbva", 60); ("bbva", 30) ]
         /\ map (fun r => (bank_code r, term_days r)) (all_rates r2)
            = [ ("bancolombia", 90); ("bbva", 90); ("bancolombia", 60);
                ("bbva", 60); ("bancolombia", 30); ("bbva", 30) ]
     | _, _ => False
     end.
Proof.
  split.
  - vm_compute. discriminate.
  - vm_compute. split; reflexivity.
Qed.

End OrderFacts.

(** ** The statistics of the ranking ([get_ranking]) *)

Module StatisticsFacts.
Import Samples CDTOrchestrator.

Local Open Scope Qc_scope.

Lemma of_Z_succ (n : nat) :
  PyFloat.of_Z (Z.of_nat (S n)) = PyFloat.of_Z (Z.of_nat n) + 1.
Proof.
  unfold PyFloat.of_Z. apply Qc_is_canon.
  rewrite Nat2Z.inj_succ. unfold Z.succ.
  simpl. rewrite !Qred_correct. rewrite inject_Z_plus. reflexivity.
Qed.

Lemma of_Z_nat_nonneg (n : nat) : 0 <= PyFloat.of_Z (Z.of_nat n).
Proof.
  unfold PyFloat.of_Z, Qcle. simpl. rewrite !Qred_correct.
  unfold Qle. simpl. lia.
Qed.

Lemma of_Z_succ_positive (n : nat) : 0 < PyFloat.of_Z (Z.of_nat (S n)).
Proof.
  unfold PyFloat.of_Z, Qclt. simpl. rewrite !Qred_correct.
  unfold Qlt. simpl. lia.
Qed.

Lemma fold_plus_shift (l : list Qc) (a : Qc) :
  fold_left Qcplus l a = a + py_sum l.
Proof.
  unfold py_sum. revert a.
  induction l as [| x l IH]; intros a; simpl.
  - ring.
  - rewrite IH, (IH (0 + x)). ring.
Qed.

(** The sum of a list lies between its length times a lower bound and its
    length times an upper bound. *)
Lemma sum_lower_bound (l : list Qc) (m : Qc) :
  (forall x, In x l -> m <= x) ->
  m * PyFloat.of_Z (Z.of_nat (length l)) <= py_sum l.
Proof.
  induction l as [| x l IH]; intros Hm.
  - unfold py_sum. cbn [length fold_left].
    change (PyFloat.of_Z (Z.of_nat 0)) with 0.
    replace (m * 0) with 0 by ring. apply Qcle_refl.
  - cbn [length]. rewrite of_Z_succ. unfold py_sum. cbn [fold_left].
    rewrite fold_plus_shift.
    replace (m * (PyFloat.of_Z (Z.of_nat (length l)) + 1))
      with (m + m * PyFloat.of_Z (Z.of_nat (length l))) by ring.
    replace (0 + x + py_sum l) with (x + py_sum l) by ring.
    apply Qcplus_le_compat.
    + apply Hm. left. reflexivity.
    + apply IH. intros y Hy. apply Hm. right. exact Hy.
Qed.

Lemma sum_upper_bound (l : list Qc) (m : Qc) :
  (forall x, In x l -> x <= m) ->
  py_sum l <= m * PyFloat.of_Z (Z.of_nat (length l)).
Proof.
  induction l as [| x l IH]; intros Hm.
  - unfold py_sum. cbn [length fold_left].
    change (PyFloat.of_Z (Z.of_nat 0)) with 0.
    replace (m * 0) with 0 by ring. apply Qcle_refl.
  - cbn [length]. rewrite of_Z_succ. unfold py_sum. cbn [fold_left].
    rewrite fold_plus_shift.
    replace (m * (PyFloat.of_Z (Z.of_nat (length l)) + 1))
      with (m + m * PyFloat.of_Z (Z.of_nat (length l))) by ring.
    replace (0 + x + py_sum l) with (x + py_sum l) by ring.
    apply Qcplus_le_compat.
    + apply Hm. left. reflexivity.
    + apply IH. intros y Hy. apply Hm. right. exact Hy.
Qed.

Lemma ltb_false_le (x y : Qc) : PyFloat.ltb x y = false -> y <= x.
Proof.
  unfold PyFloat.ltb. intros H. apply Qcnot_lt_le. intros Hlt.
  rewrite (proj1 (Qclt_alt x y) Hlt) in H. discriminate H.
Qed.

Lemma ltb_true_lt (x y : Qc) : PyFloat.ltb x y = true -> x < y.
Proof.
  unfold PyFloat.ltb. intros H. apply (proj2 (Qclt_alt x y)).
  destruct (x ?= y); try discriminate. reflexivity.
Qed.

(** The running maximum is above its start and above every element. *)
Lemma running_max_bounds (l : list Qc) :
  forall a,
    a <= fold_left (fun m y => if PyFloat.ltb m y then y else m) l a
    /\ (forall x, In x l ->
          x <= fold_left (fun m y => if PyFloat.ltb m y then y else m) l a).
Proof.
  induction l as [| y l IH]; intros a; simpl.
  - split; [apply Qcle_refl | intros x []].
  - destruct (IH (if PyFloat.ltb a y then y else a)) as [Hstart Hall].
    assert (Ha : a <= (if PyFloat.ltb a y then y else a)).
    { destruct (PyFloat.ltb a y) eqn:E; [| apply Qcle_refl].
      apply Qclt_le_weak, ltb_true_lt. exact E. }
    assert (Hy : y <= (if PyFloat.ltb a y then y else a)).
    { destruct (PyFloat.ltb a y) eqn:E; [apply Qcle_refl |].
      apply ltb_false_le. exact E. }
    split.
    + eapply Qcle_trans; eassumption.
    + intros x [<- | Hx]; [eapply Qcle_trans; eassumption | apply Hall; exact Hx].
Qed.

Lemma running_min_bounds (l : list Qc) :
  forall a,
    fold_left (fun m y => if PyFloat.ltb y m then y else m) l a <= a
    /\ (forall x, In x l ->
          fold_left (fun m y => if PyFloat.ltb y m then y else m) l a <= x).
Proof.
  induction l as [| y l IH]; intros a; simpl.
  - split; [apply Qcle_refl | intros x []].
  - destruct (IH (if PyFloat.ltb y a then y else a)) as [Hstart Hall].
    assert (Ha : (if PyFloat.ltb y a then y else a) <= a).
    { destruct (PyFloat.ltb y a) eqn:E; [| apply Qcle_refl].
      apply Qclt_le_weak, ltb_true_lt. exact E. }
    assert (Hy : (if PyFloat.ltb y a then y else a) <= y).
    { destruct (PyFloat.ltb y a) eqn:E; [apply Qcle_refl |].
      apply ltb_false_le. exact E. }
    split.
    + eapply Qcle_trans; eassumption.
    + intros x [<- | Hx]; [eapply Qcle_trans; eassumption | apply Hall; exact Hx].
Qed.

(** *** Rounding keeps the order *)





(** *** The sort keeps the length *)

Lemma insert_sorted_length {A : Type} (le : A -> A -> bool) (x : A) (l : list A) :
  length (insert_sorted le x l) = S (length l).
Proof.
  induction l as [| y l IH]; simpl; [reflexivity |].
  destruct (le x y); simpl; [reflexivity | rewrite IH; reflexivity].
Qed.

Lemma stable_sort_length {A : Type} (le : A -> A -> bool) (l : list A) :
  length (stable_sort le l) = length l.
Proof.
  induction l as [| x l IH]; simpl; [reflexivity |].
  rewrite insert_sorted_length, IH. reflexivity.
Qed.

(** The statistics before rounding: never a fault, and ordered. *)
Lemma raw_statistics_ordered (l : list CDTRate) :
  exists avg mx mn,
    raw_statistics l = Returned (avg, mx, mn)
    /\ (l = [] -> avg = 0 /\ mx = 0 /\ mn = 0)
    /\ (l <> [] -> mn <= avg /\ avg <= mx).
Proof.
  destruct l as [| r l].
  - exists 0, 0, 0. split; [reflexivity |]. split; [auto | intros H; contradiction].
  - unfold raw_statistics.
    set (values := map rate_ea (r :: l)).
    set (n := PyFloat.of_Z (Z.of_nat (length (r :: l)))).
    assert (Hn : 0 < n) by apply of_Z_succ_positive.
    assert (Hn0 : n <> 0) by (intros E; rewrite E in Hn; discriminate Hn).
    unfold py_div.
    destruct (Qeq_bool n 0) eqn:En.
    { apply Qeq_bool_eq in En. exfalso. apply Hn0. apply Qc_is_canon. exact En. }
    cbn [mbind outcome_bind mret outcome_ret values map py_max py_min].
    eexists _, _, _. split; [reflexivity |]. split; [intros H; discriminate H |].
    intros _.
    destruct (running_max_bounds (map rate_ea l) (rate_ea r)) as [Hmax0 Hmax].
    destruct (running_min_bounds (map rate_ea l) (rate_ea r)) as [Hmin0 Hmin].
    set (mx := fold_left (fun m y => if PyFloat.ltb m y then y else m)
                         (map rate_ea l) (rate_ea r)) in *.
    set (mn := fold_left (fun m y => if PyFloat.ltb y m then y else m)
                         (map rate_ea l) (rate_ea r)) in *.
    assert (Hlen : length (rate_ea r :: map rate_ea l) = length (r :: l)).
    { simpl. rewrite length_map. reflexivity. }
    split.
    + apply Qcmult_lt_0_le_reg_r with (z := n); [exact Hn |].
      replace (py_sum (rate_ea r :: map rate_ea l) / n * n)
        with (py_sum (rate_ea r :: map rate_ea l)) by (field; exact Hn0).
      unfold n. rewrite <- Hlen. apply sum_lower_bound.
      intros x [<- | Hx]; [exact Hmin0 | apply Hmin; exact Hx].
    + apply Qcmult_lt_0_le_reg_r with (z := n); [exact Hn |].
      replace (py_sum (rate_ea r :: map rate_ea l) / n * n)
        with (py_sum (rate_ea r :: map rate_ea l)) by (field; exact Hn0).
      unfold n. rewrite <- Hlen. apply sum_upper_bound.
      intros x [<- | Hx]; [exact Hmax0 | apply Hmax; exact Hx].
Qed.


End StatisticsFacts.

(** ** Reading back what [_parse_rate] printed *)

Module RateFacts.
Import Samples.

#[local] Arguments String.append !s1 s2 : simpl nomatch.

Local Abbreviation decimal := (Text.all_chars PyFloat.is_decimal_char).

Lemma decimal_no_space (c : ascii) :
  PyFloat.is_decimal_char c = true -> Text.is_space c = false.
Proof.
  destruct c as [[] [] [] [] [] [] [] []]; vm_compute; congruence.
Qed.

Lemma lstrip_decimal (s : string) : decimal s = true -> Text.lstrip s = s.
Proof.
  destruct s as [| c s]; simpl; [reflexivity |].
  intros H. apply andb_true_iff in H. destruct H as [Hc _].
  rewrite (decimal_no_space c Hc). reflexivity.
Qed.









(** *** Digits *)

Lemma digit_char_spec (d : Z) :
  0 <= d <= 9 ->
  Text.is_digit (PyFloat.digit_char d) = true
  /\ Text.digit_val (PyFloat.digit_char d) = d.
Proof.
  intros H.
  assert (C : d = 0 \/ d = 1 \/ d = 2 \/ d = 3 \/ d = 4 \/ d = 5 \/ d = 6
              \/ d = 7 \/ d = 8 \/ d = 9) by lia.
  repeat (destruct C as [-> | C]; [split; reflexivity |]).
  subst d. split; reflexivity.
Qed.

Lemma digit_run_digit (c : ascii) (s : string) (a : Z) (cnt : nat) :
  Text.is_digit c = true ->
  PyFloat.digit_run (String c s) a cnt
  = PyFloat.digit_run s (10 * a + Text.digit_val c) (S cnt).
Proof. intros H. cbn [PyFloat.digit_run]. rewrite H. reflexivity. Qed.

(** [float] reads back the digits that [str] wrote. *)
Lemma digit_run_digits_onto (f : nat) :
  forall (n : Z) (tail : string),
    0 <= n < 10 ^ Z.of_nat (S f) ->
    exists k : nat,
      forall a cnt,
        PyFloat.digit_run (PyFloat.digits_onto (S f) n tail) a cnt
        = PyFloat.digit_run tail (a * 10 ^ Z.of_nat (S k) + n) (S (cnt + k)).
Proof.
  induction f as [| f IH]; intros n tail Hn.
  - exists O. intros a cnt.
    assert (n / 10 = 0) by (apply Z.div_small; lia).
    assert (n mod 10 = n) by (apply Z.mod_small; lia).
    cbn [PyFloat.digits_onto]. rewrite H. cbn [Z.eqb]. rewrite H0.
    destruct (digit_char_spec n ltac:(lia)) as [Hd Hv].
    rewrite digit_run_digit by exact Hd. rewrite Hv.
    f_equal; lia.
  - pose proof (Z.mod_pos_bound n 10 ltac:(lia)) as Hm.
    pose proof (Z.div_mod n 10 ltac:(lia)) as Hdm.
    destruct (digit_char_spec (n mod 10) ltac:(lia)) as [Hd Hv].
    change (PyFloat.digits_onto (S (S f)) n tail)
      with (if n / 10 =? 0
            then String (PyFloat.digit_char (n mod 10)) tail
            else PyFloat.digits_onto (S f) (n / 10)
                   (String (PyFloat.digit_char (n mod 10)) tail)).
    destruct (Z.eqb_spec (n / 10) 0) as [E | N].
    + exists O. intros a cnt.
      rewrite digit_run_digit by exact Hd. rewrite Hv.
      f_equal; lia.
    + destruct (IH (n / 10) (String (PyFloat.digit_char (n mod 10)) tail)) as [k Hk].
      { split; [apply Z.div_pos; lia |].
        apply Z.div_lt_upper_bound; [lia |].
        replace (10 * 10 ^ Z.of_nat (S f)) with (10 ^ Z.of_nat (S (S f))); [lia |].
        rewrite (Nat2Z.inj_succ (S f)). rewrite Z.pow_succ_r by lia. reflexivity. }
      exists (S k). intros a cnt.
      rewrite Hk. rewrite digit_run_digit by exact Hd. rewrite Hv.
      f_equal; [| lia].
      rewrite (Nat2Z.inj_succ (S k)). rewrite Z.pow_succ_r by lia. lia.
Qed.


Lemma str_nat_fuel (n : Z) :
  0 <= n -> 0 <= n < 10 ^ Z.of_nat (S (Z.to_nat (Z.log2 n))).
Proof.
  intros Hn. split; [exact Hn |].
  rewrite Nat2Z.inj_succ, Z2Nat.id by apply Z.log2_nonneg.
  destruct (Z.eq_dec n 0) as [-> | N]; [reflexivity |].
  pose proof (Z.log2_spec n ltac:(lia)) as [_ Hlt].
  eapply Z.lt_le_trans; [exact Hlt |].
  apply Z.pow_le_mono_l. lia.
Qed.


(** *** Hundredths *)

















End RateFacts.

(** * Further properties *)

(** ** The sort of lists *)

Module SortFacts.

Lemma insert_sorted_perm {A : Type} (le : A -> A -> bool) (x : A) (l : list A) :
  insert_sorted le x l ≡ₚ x :: l.
Proof.
  induction l as [| y l IH]; simpl; [reflexivity |].
  destruct (le x y); [reflexivity |].
  rewrite IH. apply perm_swap.
Qed.

Lemma stable_sort_perm {A : Type} (le : A -> A -> bool) (l : list A) :
  stable_sort le l ≡ₚ l.
Proof.
  induction l as [| x l IH]; simpl; [reflexivity |].
  rewrite insert_sorted_perm, IH. reflexivity.
Qed.

Section Order.

Context {A : Type} (le : A -> A -> bool).
Hypothesis le_total : forall x y, le x y = false -> le y x = true.
Hypothesis le_trans : forall x y z, le x y = true -> le y z = true -> le x z = true.

Lemma insert_sorted_ordered (x : A) (l : list A) :
  ordered le l -> ordered le (insert_sorted le x l).
Proof.
  unfold ordered. induction l as [| y l IH]; intros Hl; simpl.
  - constructor; constructor.
  - inversion Hl as [| y' l' Hl' Hy]; subst.
    destruct (le x y) eqn:E.
    + constructor; [exact Hl |].
      constructor; [exact E |].
      eapply Forall_impl; [| exact Hy]. intros z Hz. simpl in Hz.
      eapply le_trans; eassumption.
    + constructor; [apply IH; exact Hl' |].
      rewrite insert_sorted_perm.
      constructor; [apply le_total; exact E | exact Hy].
Qed.

Lemma stable_sort_ordered (l : list A) : ordered le (stable_sort le l).
Proof.
  induction l as [| x l IH]; simpl; [constructor |].
  apply insert_sorted_ordered. exact IH.
Qed.

End Order.


Lemma leb_le (x y : Qc) : PyFloat.leb x y = true <-> (x <= y)%Qc.
Proof.
  unfold PyFloat.leb. rewrite Qcle_alt.
  destruct (x ?= y)%Qc; split; intros H; try reflexivity; try discriminate.
  contradiction H. reflexivity.
Qed.

Lemma by_rate_desc_total (x y : CDTRate) :
  by_rate_desc x y = false -> by_rate_desc y x = true.
Proof.
  unfold by_rate_desc. intros H. apply leb_le.
  destruct (Qclt_le_dec (rate_ea y) (rate_ea x)) as [L | L]; [| exact L].
  apply Qclt_le_weak in L. apply leb_le in L. congruence.
Qed.

Lemma by_rate_desc_trans (x y z : CDTRate) :
  by_rate_desc x y = true -> by_rate_desc y z = true -> by_rate_desc x z = true.
Proof.
  unfold by_rate_desc. rewrite !leb_le. intros H1 H2.
  eapply Qcle_trans; eassumption.
Qed.



End SortFacts.

(** ** The ranking ([CDTOrchestrator.get_ranking], [get_best_rates]) *)

Module RankingFacts.
Import Samples CDTOrchestrator SortFacts.

(** What [get_ranking] returns, field by field. *)
Lemma get_ranking_fields (now : string) (results : results_dict) :
  let sorted := stable_sort by_rate_desc (get_all_rates results) in
  exists stats,
    get_ranking now results
    = Returned (mkRanking now
                  (length (List.filter (fun kv => success (snd kv)) results))
                  (length sorted) stats (slice_to 10 sorted)
                  (map (fun term =>
                          (term,
                           stable_sort by_rate_desc
                             (List.filter (fun r => term_days r =? term) sorted)))
                       [30; 60; 90; 180; 360; 540; 720])
                  sorted).
Proof.
  intros sorted. unfold get_ranking. fold sorted.
  destruct (StatisticsFacts.raw_statistics_ordered sorted) as (avg & mx & mn & -> & _).
  eexists. reflexivity.
Qed.

Lemma in_firstn {A : Type} (n : nat) (l : list A) (x : A) :
  In x (firstn n l) -> In x l.
Proof.
  revert l. induction n as [| n IH]; intros [| y l] H; simpl in H; try contradiction.
  destruct H as [-> | H]; [left; reflexivity | right; apply IH; exact H].
Qed.


Lemma ordered_filter {A : Type} (le : A -> A -> bool) (p : A -> bool) (l : list A) :
  ordered le l -> ordered le (List.filter p l).
Proof.
  unfold ordered. induction 1 as [| x l Hl IH Hx]; simpl; [constructor |].
  destruct (p x); [| exact IH].
  constructor; [exact IH |].
  apply Forall_forall. intros y Hy. rewrite Forall_forall in Hx.
  apply Hx. apply filter_In in Hy. tauto.
Qed.

(** Sorting a sorted list changes nothing. *)
Lemma stable_sort_ordered_id {A : Type} (le : A -> A -> bool) (l : list A) :
  ordered le l -> stable_sort le l = l.
Proof.
  unfold ordered. induction 1 as [| x l Hl IH Hx]; [reflexivity |].
  cbn [stable_sort fold_right]. fold (stable_sort le l). rewrite IH.
  destruct l as [| y l]; [reflexivity |].
  cbn [insert_sorted]. inversion Hx as [| y' l' Hy _]; subst.
  rewrite Hy. reflexivity.
Qed.


(** X2.  The ranking counts and lists what was merged: its full list is
    a permutation of the merged records, the total is their number, the
    top ten are the first ten of the full list (all of it when there are
    fewer), and the number of banks is the number of successful results. *)
Theorem ranking_lists_the_merge :
  forall (now : string) (results : results_dict),
    exists ranking,
      get_ranking now results = Returned ranking
      /\ generated_at ranking = now
      /\ all_rates ranking ≡ₚ get_all_rates results
      /\ total_rates ranking = length (get_all_rates results)
      /\ top_10 ranking = firstn 10 (all_rates ranking)
      /\ length (top_10 ranking) = Nat.min 10 (total_rates ranking)
      /\ total_banks ranking
         = length (List.filter (fun kv => success (snd kv)) results)
      /\ (total_banks ranking <= length results)%nat.
Proof.
  intros now results.
  destruct (get_ranking_fields now results) as [stats E].
  eexists. split; [exact E |].
  cbn [generated_at all_rates total_rates top_10 total_banks].
  split; [reflexivity |].
  split; [apply stable_sort_perm |].
  split; [apply StatisticsFacts.stable_sort_length |].
  split; [reflexivity |].
  split; [apply length_firstn |].
  split; [reflexivity |].
  apply filter_length_le.
Qed.



End RankingFacts.

Module BestRatesFacts.
Import Samples CDTOrchestrator SortFacts.




Lemma dict_set_new (k : string) (v : ScrapingResult) (d : results_dict) :
  ~ In k (map fst d) -> dict_set k v d = (d ++ [(k, v)])%list.
Proof.
  induction d as [| [k' v'] d IH]; intros Hk; simpl; [reflexivity |].
  destruct (String.eqb_spec k k') as [E | _].
  - exfalso. apply Hk. left. symmetry. exact E.
  - rewrite IH; [reflexivity |]. intros H. apply Hk. right. exact H.
Qed.

(** X5.  A source that fails leaves the aggregate as it was: when the
    result stored for a new code has [success] false, the ranking built
    from the dict is the ranking built without it, whatever records the
    failed result carries. *)
Theorem failed_source_changes_nothing :
  forall (now : string) (results : results_dict) (code : string)
         (failed : ScrapingResult),
    ~ In code (map fst results) ->
    success failed = false ->
    get_all_rates (scrape_bank results code (Some failed)) = get_all_rates results
    /\ get_ranking now (scrape_bank results code (Some failed))
       = get_ranking now results.
Proof.
  intros now results code failed Hnew Hfail.
  assert (Hall : get_all_rates (scrape_bank results code (Some failed))
                 = get_all_rates results).
  { unfold scrape_bank. rewrite dict_set_new by exact Hnew.
    unfold get_all_rates. rewrite flat_map_app. simpl. rewrite Hfail.
    rewrite !app_nil_r. reflexivity. }
  split; [exact Hall |].
  unfold get_ranking. rewrite Hall.
  unfold scrape_bank. rewrite dict_set_new by exact Hnew.
  rewrite List.filter_app. simpl. rewrite Hfail, app_nil_r. reflexivity.
Qed.

Lemma failed_source_changes_nothing_witness :
  get_ranking "2025-12-01T10:00:00"
    (scrape_bank bancolombia_first "banco_x"
       (Some (failed_result banco_x_config "No se pudo obtener la pagina" "")))
  = get_ranking "2025-12-01T10:00:00" bancolombia_first.
Proof.
  apply (failed_source_changes_nothing "2025-12-01T10:00:00" bancolombia_first "banco_x").
  - simpl. intros [H | [H | []]]; discriminate H.
  - reflexivity.
Defined.

End BestRatesFacts.

(** ** The cache of the API ([get_rates_data], [refresh_data]) *)

Module CacheFacts.
Import Samples MoreSamples Api.

Lemma lt_ltb (x y : Qc) : (x < y)%Qc -> PyFloat.ltb x y = true.
Proof.
  intros H. unfold PyFloat.ltb. rewrite (proj1 (Qclt_alt x y) H). reflexivity.
Qed.

(** While the cached data are younger than 300 seconds they are served,
    whatever the file. *)
Lemma cache_hit (data : RatesData) (at_ now later : Qc) (file : rates_file) :
  (now - at_ < CACHE_DURATION)%Qc ->
  get_rates_data (mkCache (Some data) (Some at_)) file now later
  = (Returned (Some data), mkCache (Some data) (Some at_)).
Proof.
  intros Hage. unfold get_rates_data. cbn [cached_data cache_time].
  rewrite (lt_ltb _ _ Hage). reflexivity.
Qed.

(** Cached data of 300 seconds or more are not looked at. *)
Lemma cache_miss (cache : Cache) (file : rates_file) (now later : Qc) :
  (forall data at_,
      cached_data cache = Some data -> cache_time cache = Some at_ ->
      (CACHE_DURATION <= now - at_)%Qc) ->
  get_rates_data cache file now later
  = match file with
    | FileOf data => (Returned (Some data), mkCache (Some data) (Some later))
    | BadJson => (Raised JSONDecodeError, cache)
    | NoFile => (Returned None, cache)
    end.
Proof.
  intros Hstale.
  assert (E : match cached_data cache, cache_time cache with
              | Some data, Some at_ =>
                  if PyFloat.ltb (now - at_)%Qc CACHE_DURATION then Some data else None
              | _, _ => None
              end = None).
  { destruct (cached_data cache) as [data |] eqn:Ed; [| reflexivity].
    destruct (cache_time cache) as [at_ |] eqn:Et; [| reflexivity].
    specialize (Hstale data at_ eq_refl eq_refl).
    destruct (PyFloat.ltb (now - at_)%Qc CACHE_DURATION) eqn:El; [| reflexivity].
    apply StatisticsFacts.ltb_true_lt in El.
    exfalso. exact (Qcle_not_lt _ _ Hstale El). }
  unfold get_rates_data. rewrite E. reflexivity.
Qed.

(** X6.  Cached data of 300 seconds or more are never served: the file
    is read instead.  Its data are returned and cached with the time of
    the load; without a file the answer is no data, although the globals
    still hold the old data; a file that is not JSON raises. *)
Theorem stale_cache_is_not_served :
  forall (cache : Cache) (now later : Qc),
    (forall data at_,
        cached_data cache = Some data -> cache_time cache = Some at_ ->
        (CACHE_DURATION <= now - at_)%Qc) ->
    (forall data,
        get_rates_data cache (FileOf data) now later
        = (Returned (Some data), mkCache (Some data) (Some later)))
    /\ get_rates_data cache NoFile now later = (Returned None, cache)
    /\ get_rates_data cache BadJson now later = (Raised JSONDecodeError, cache).
Proof.
  intros cache now later Hstale.
  split; [intros data | split]; apply cache_miss; exact Hstale.
Qed.

Lemma stale_cache_is_not_served_witness :
  get_rates_data (mkCache (Some sample_data) (Some (PyFloat.of_Z 1000))) NoFile
                 (PyFloat.of_Z 1300) (PyFloat.of_Z 1301)
  = (Returned None, mkCache (Some sample_data) (Some (PyFloat.of_Z 1000))).
Proof.
  apply (stale_cache_is_not_served
           (mkCache (Some sample_data) (Some (PyFloat.of_Z 1000)))
           (PyFloat.of_Z 1300) (PyFloat.of_Z 1301)).
  intros data at_ Hd Ht. injection Ht as <-. vm_compute. discriminate.
Defined.

(** X7.  What one call loads the next calls serve: after data were
    loaded from the file at the time [later], a call less than 300
    seconds after [later] returns the same data whatever has become of
    the file. *)
Theorem loaded_data_are_served_next :
  forall (cache : Cache) (data : RatesData) (now later now' later' : Qc)
         (file' : rates_file),
    (forall d at_,
        cached_data cache = Some d -> cache_time cache = Some at_ ->
        (CACHE_DURATION <= now - at_)%Qc) ->
    (now' - later < CACHE_DURATION)%Qc ->
    let '(first, cache1) := get_rates_data cache (FileOf data) now later in
    first = Returned (Some data)
    /\ fst (get_rates_data cache1 file' now' later') = Returned (Some data)
    /\ snd (get_rates_data cache1 file' now' later') = cache1.
Proof.
  intros cache data now later now' later' file' Hstale Hfresh.
  rewrite (cache_miss cache (FileOf data) now later Hstale).
  rewrite (cache_hit data later now' later' file' Hfresh).
  auto.
Qed.

Lemma loaded_data_are_served_next_witness :
  fst (get_rates_data
         (snd (get_rates_data empty_cache (FileOf sample_data)
                 (PyFloat.of_Z 10) (PyFloat.of_Z 11)))
         NoFile (PyFloat.of_Z 300) (PyFloat.of_Z 301))
  = Returned (Some sample_data).
Proof.
  pose proof (loaded_data_are_served_next empty_cache sample_data
                (PyFloat.of_Z 10) (PyFloat.of_Z 11)
                (PyFloat.of_Z 300) (PyFloat.of_Z 301) NoFile) as H.
  destruct (get_rates_data empty_cache (FileOf sample_data)
              (PyFloat.of_Z 10) (PyFloat.of_Z 11)) as [first cache1].
  apply H.
  - intros d at_ Hd. discriminate Hd.
  - vm_compute. reflexivity.
Defined.

End CacheFacts.

(** ** The ranking of a term, as served ([get_ranking_by_term]) *)

Module TermEndpointFacts.
Import Samples MoreSamples Api.

(** [str] of an int that is not negative reads back as the int. *)
Lemma str_nat_reads_back (n : Z) :
  0 <= n ->
  fst (fst (PyFloat.digit_run (PyFloat.str_nat n EmptyString) 0 O)) = n.
Proof.
  intros Hn. unfold PyFloat.str_nat.
  destruct (RateFacts.digit_run_digits_onto (Z.to_nat (Z.log2 n)) n EmptyString
              (RateFacts.str_nat_fuel n Hn)) as [k Hk].
  rewrite Hk. cbn [PyFloat.digit_run fst]. lia.
Qed.

Lemma str_int_inj (a b : Z) : 0 <= a -> 0 <= b -> str_int a = str_int b -> a = b.
Proof.
  intros Ha Hb. unfold str_int.
  destruct (Z.ltb_spec a 0) as [C | _]; [lia |].
  destruct (Z.ltb_spec b 0) as [C | _]; [lia |].
  intros E. rewrite <- (str_nat_reads_back a Ha), <- (str_nat_reads_back b Hb), E.
  reflexivity.
Qed.

(** Looking a term up by its [str] among keys that went through JSON
    finds the entry of the term. *)
Lemma by_term_get_through_json (d : list (Z * list CDTRate)) (t : Z) :
  0 <= t -> Forall (fun e => 0 <= fst e) d ->
  by_term_get (StrKey (str_int t)) (map (fun e => (StrKey (str_int (fst e)), snd e)) d)
  = match List.find (fun e => fst e =? t) d with
    | Some e => snd e
    | None => []
    end.
Proof.
  intros Ht Hd. unfold by_term_get.
  induction Hd as [| [k l] d Hk Hd IH]; [reflexivity |].
  cbn [map List.find fst snd term_key_eqb]. simpl in Hk.
  destruct (Z.eqb_spec k t) as [-> | N].
  - rewrite String.eqb_refl. reflexivity.
  - destruct (String.eqb_spec (str_int k) (str_int t)) as [E | _].
    + apply str_int_inj in E; [contradiction | assumption | assumption].
    + exact IH.
Qed.

(** Looking a term up by its [str] among int keys finds nothing. *)
Lemma by_term_get_as_built (d : list (Z * list CDTRate)) (s : string) :
  by_term_get (StrKey s) (map (fun e => (IntKey (fst e), snd e)) d) = [].
Proof.
  unfold by_term_get. induction d as [| [k l] d IH]; [reflexivity |].
  cbn [map List.find fst snd term_key_eqb]. exact IH.
Qed.

(** The lists of the terms, looked up by term. *)
Lemma by_term_find (now : string) (results : CDTOrchestrator.results_dict) (t : Z) :
  exists ranking,
    CDTOrchestrator.get_ranking now results = Returned ranking
    /\ Forall (fun e => 0 <= fst e) (by_term ranking)
    /\ match List.find (fun e => fst e =? t) (by_term ranking) with
       | Some e => snd e
       | None => []
       end
       = if existsb (Z.eqb t) STANDARD_TERMS
         then List.filter (fun r => term_days r =? t) (all_rates ranking)
         else [].
Proof.
  destruct (RankingFacts.get_ranking_fields now results) as [stats E].
  eexists. split; [exact E |]. cbn [by_term all_rates].
  split; [repeat constructor; simpl; lia |].
  set (sorted := stable_sort by_rate_desc (CDTOrchestrator.get_all_rates results)).
  assert (Hid : forall term,
             stable_sort by_rate_desc (List.filter (fun r => term_days r =? term) sorted)
             = List.filter (fun r => term_days r =? term) sorted).
  { intros term. apply RankingFacts.stable_sort_ordered_id.
    apply RankingFacts.ordered_filter.
    apply SortFacts.stable_sort_ordered;
      [exact SortFacts.by_rate_desc_total | exact SortFacts.by_rate_desc_trans]. }
  cbn [map List.find fst snd existsb STANDARD_TERMS].
  rewrite !Hid.
  repeat (rewrite (Z.eqb_sym t);
          match goal with
          | |- context [?k =? t] =>
              destruct (Z.eqb_spec k t) as [<- | ?]; [reflexivity |]
          end).
  reflexivity.
Qed.

(** X8.  After a refresh the ranking is kept in memory as it was built,
    with ints as the keys of the lists by term, while the handler looks
    the term up by its [str]: for the 300 seconds in which the cache is
    fresh the per-term ranking is empty for every term.  Once the cache is
    stale the data come from the file, with [str] keys, and the handler
    answers with the records of the term, the best first, for a standard
    term, and with an empty list for any other term. *)
Theorem term_ranking_after_refresh :
  forall (completed : list (string * ScrapingResult)) (now : string) (at_ : Qc),
    exists ranking cache file,
      CDTOrchestrator.get_ranking now (CDTOrchestrator.scrape_all completed [])
      = Returned ranking
      /\ refresh_data completed now at_ = Returned (cache, file)
      /\ (forall (now' later' : Qc) (file' : rates_file) (t : Z),
             (now' - at_ < CACHE_DURATION)%Qc ->
             exists data,
               fst (get_rates_data cache file' now' later') = Returned (Some data)
               /\ get_ranking_by_term (Some data) t = Ok (mkTermBody t 0 []))
      /\ (forall (now' later' : Qc) (t : Z),
             (CACHE_DURATION <= now' - at_)%Qc -> 0 <= t ->
             exists data,
               fst (get_rates_data cache file now' later') = Returned (Some data)
               /\ get_ranking_by_term (Some data) t
                  = let l := if existsb (Z.eqb t) STANDARD_TERMS
                             then List.filter (fun r => term_days r =? t)
                                              (all_rates ranking)
                             else [] in
                    Ok (mkTermBody t (length l) l)).
Proof.
  intros completed now at_.
  destruct (by_term_find now (CDTOrchestrator.scrape_all completed []) 0)
    as (ranking & E & Hkeys & _).
  exists ranking, (mkCache (Some (as_built ranking)) (Some at_)),
    (FileOf (through_json ranking)).
  split; [exact E |].
  split; [unfold refresh_data; rewrite E; reflexivity |].
  split.
  - intros now' later' file' t Hfresh. exists (as_built ranking).
    rewrite (CacheFacts.cache_hit _ _ _ _ _ Hfresh).
    split; [reflexivity |].
    unfold get_ranking_by_term. cbn [as_built d_by_term].
    rewrite by_term_get_as_built. reflexivity.
  - intros now' later' t Hstale Ht. exists (through_json ranking).
    rewrite CacheFacts.cache_miss.
    2:{ intros d a Hd Ha. injection Ha as <-. exact Hstale. }
    split; [reflexivity |].
    unfold get_ranking_by_term. cbn [through_json d_by_term].
    rewrite (by_term_get_through_json _ t Ht Hkeys).
    destruct (by_term_find now (CDTOrchestrator.scrape_all completed []) t)
      as (ranking' & E' & _ & Hfind).
    rewrite E in E'. injection E' as <-. rewrite Hfind. reflexivity.
Qed.

End TermEndpointFacts.

(** ** The listing queries ([get_bank_rates], [get_rates]) *)

Module ListingFacts.
Import Samples MoreSamples Api App SortFacts.

Lemma by_term_asc_total (x y : CDTRate) :
  by_term_asc x y = false -> by_term_asc y x = true.
Proof. unfold by_term_asc. intros H. apply Z.leb_gt in H. apply Z.leb_le. lia. Qed.

Lemma by_term_asc_trans (x y z : CDTRate) :
  by_term_asc x y = true -> by_term_asc y z = true -> by_term_asc x z = true.
Proof. unfold by_term_asc. rewrite !Z.leb_le. lia. Qed.





(** X9.  The rates of one bank: the answer is 404 exactly when no stored
    record has the code; otherwise it holds all the records of the bank
    and only them, sorted by term, the shortest first, with their number
    and the name that the first of them carries. *)
Theorem get_bank_rates_lists_the_bank :
  forall (data : RatesData) (code : string),
    let of_bank := List.filter (fun r => String.eqb (bank_code r) code) (d_all_rates data) in
    (of_bank = [] ->
       exists message, get_bank_rates (Some data) code = Error 404 message)
    /\ (of_bank <> [] ->
          exists body,
            get_bank_rates (Some data) code = Ok body
            /\ bb_bank_code body = code
            /\ bb_rates body ≡ₚ of_bank
            /\ bb_count body = length of_bank
            /\ ordered by_term_asc (bb_rates body)
            /\ Forall (fun r => bank_code r = code) (bb_rates body)
            /\ (exists first rest,
                  bb_rates body = first :: rest /\ bb_bank_name body = bank_name first)).
Proof.
  intros data code of_bank. unfold get_bank_rates. fold of_bank.
  split.
  - intros ->. eexists. reflexivity.
  - intros Hne. destruct of_bank as [| r l] eqn:E; [contradiction |].
    eexists. split; [reflexivity |]. cbn [bb_bank_code bb_rates bb_count bb_bank_name].
    assert (Hperm : stable_sort by_term_asc (r :: l) ≡ₚ r :: l) by apply stable_sort_perm.
    split; [reflexivity |].
    split; [exact Hperm |].
    split; [apply StatisticsFacts.stable_sort_length |].
    split; [apply stable_sort_ordered;
            [exact by_term_asc_total | exact by_term_asc_trans] |].
    split.
    + rewrite Hperm, <- E. unfold of_bank. apply Forall_forall.
      intros x Hx. apply filter_In in Hx. destruct Hx as [_ Hx].
      apply String.eqb_eq. exact Hx.
    + destruct (stable_sort by_term_asc (r :: l)) as [| first rest] eqn:Es.
      * apply Permutation_nil in Hperm. discriminate Hperm.
      * exists first, rest. split; reflexivity.
Qed.

Import Listing.

Lemma filter_filter {A : Type} (p q : A -> bool) (l : list A) :
  List.filter p (List.filter q l) = List.filter (fun x => q x && p x) l.
Proof.
  induction l as [| x l IH]; [reflexivity |].
  cbn [List.filter]. destruct (q x); cbn [List.filter andb]; [| exact IH].
  destruct (p x); rewrite IH; reflexivity.
Qed.

Lemma filter_true {A : Type} (l : list A) : List.filter (fun _ => true) l = l.
Proof. induction l as [| x l IH]; [reflexivity |]. cbn. rewrite IH. reflexivity. Qed.

(** The three filters, one after the other, keep the records that pass. *)
Lemma filters_keep_passing (q : RatesQuery) (l : list CDTRate) :
  let l1 := match q_term q with
            | Some term =>
                if term =? 0 then l else List.filter (fun r => term_days r =? term) l
            | None => l
            end in
  let l2 := match q_bank q with
            | Some bank =>
                if Text.truthy bank
                then List.filter (fun r => String.eqb (bank_code r) bank) l1
                else l1
            | None => l1
            end in
  match q_min_rate q with
  | Some min_rate =>
      if PyFloat.truthy min_rate
      then List.filter (fun r => PyFloat.leb min_rate (rate_ea r)) l2
      else l2
  | None => l2
  end = List.filter (passes q) l.
Proof.
  intros l1 l2.
  assert (E1 : l1 = List.filter
                      (fun r => match q_term q with
                                | Some term => (term =? 0) || (term_days r =? term)
                                | None => true
                                end) l).
  { unfold l1. destruct (q_term q) as [term |]; [| symmetry; apply filter_true].
    destruct (term =? 0); [symmetry; apply filter_true | reflexivity]. }
  assert (E2 : l2 = List.filter
                      (fun r => match q_bank q with
                                | Some bank =>
                                    negb (Text.truthy bank)
                                    || String.eqb (bank_code r) bank
                                | None => true
                                end) l1).
  { unfold l2. destruct (q_bank q) as [bank |]; [| symmetry; apply filter_true].
    destruct (Text.truthy bank); [reflexivity | symmetry; apply filter_true]. }
  assert (E3 : match q_min_rate q with
               | Some min_rate =>
                   if PyFloat.truthy min_rate
                   then List.filter (fun r => PyFloat.leb min_rate (rate_ea r)) l2
                   else l2
               | None => l2
               end
               = List.filter
                   (fun r => match q_min_rate q with
                             | Some min_rate =>
                                 negb (PyFloat.truthy min_rate)
                                 || PyFloat.leb min_rate (rate_ea r)
                             | None => true
                             end) l2).
  { destruct (q_min_rate q) as [min_rate |]; [| symmetry; apply filter_true].
    destruct (PyFloat.truthy min_rate); [reflexivity | symmetry; apply filter_true]. }
  rewrite E3, E2, E1, !filter_filter.
  apply List.filter_ext. intros r. unfold passes. apply andb_assoc.
Qed.

(** [get_rates] in three steps: filter, sort, cut. *)
Lemma get_rates_steps (data : Ranking) (q : RatesQuery) :
  get_rates (Some data) q
  = let listed := sort_mode (q_sort q) (List.filter (passes q) (all_rates data)) in
    Ok (mkRatesBody (length (slice_to (q_limit q) listed)) (length listed)
                    (slice_to (q_limit q) listed)).
Proof.
  unfold get_rates. cbv zeta.
  rewrite (filters_keep_passing q (all_rates data)). reflexivity.
Qed.

Lemma sort_mode_perm (sort : string) (l : list CDTRate) : sort_mode sort l ≡ₚ l.
Proof.
  unfold sort_mode.
  repeat (match goal with |- context [if ?c then _ else _] => destruct c end;
          [apply stable_sort_perm |]).
  reflexivity.
Qed.

Lemma slice_to_length {A : Type} (n : Z) (l : list A) :
  length (slice_to n l)
  = if 0 <=? n then Nat.min (Z.to_nat n) (length l)
    else (length l - Z.to_nat (- n))%nat.
Proof.
  unfold slice_to. destruct (0 <=? n); rewrite length_firstn; lia.
Qed.

(** X10.  The listing query answers with records of the stored list that
    pass every filter in force (term, bank, minimum rate), its total is
    the number of stored records that pass, and the records returned are
    the first of them in the order of the sort: as many as the limit, or
    all of them when there are fewer; a negative limit drops that many
    from the end. *)
Theorem get_rates_lists_what_passes :
  forall (data : Ranking) (q : RatesQuery),
    exists body listed,
      get_rates (Some data) q = Ok body
      /\ listed ≡ₚ List.filter (passes q) (all_rates data)
      /\ rb_total body = length (List.filter (passes q) (all_rates data))
      /\ rb_rates body = slice_to (q_limit q) listed
      /\ rb_count body = length (rb_rates body)
      /\ rb_count body
         = (if 0 <=? q_limit q then Nat.min (Z.to_nat (q_limit q)) (rb_total body)
            else (rb_total body - Z.to_nat (- q_limit q))%nat)
      /\ Forall (fun r => In r (all_rates data) /\ passes q r = true) (rb_rates body).
Proof.
  intros data q.
  set (listed := sort_mode (q_sort q) (List.filter (passes q) (all_rates data))).
  exists (mkRatesBody (length (slice_to (q_limit q) listed)) (length listed)
                      (slice_to (q_limit q) listed)), listed.
  assert (Hperm : listed ≡ₚ List.filter (passes q) (all_rates data))
    by apply sort_mode_perm.
  split; [apply get_rates_steps |].
  split; [exact Hperm |]. cbn [rb_total rb_rates rb_count].
  split; [apply Permutation_length; exact Hperm |].
  split; [reflexivity |].
  split; [reflexivity |].
  split; [apply slice_to_length |].
  apply Forall_forall. intros r Hr.
  assert (Hin : In r listed).
  { unfold slice_to in Hr. destruct (0 <=? q_limit q);
      eapply RankingFacts.in_firstn; exact Hr. }
  apply (Permutation_in _ Hperm) in Hin. apply filter_In in Hin. exact Hin.
Qed.


Lemma unfiltered_passes (q : RatesQuery) (l : list CDTRate) :
  unfiltered q = true -> List.filter (passes q) l = l.
Proof.
  intros H. rewrite <- (filter_true l) at 2.
  apply List.filter_ext. intros r. revert H. unfold unfiltered, passes.
  destruct (q_term q) as [t |], (q_bank q) as [b |], (q_min_rate q) as [m |];
    intros H; repeat (apply andb_true_iff in H; destruct H as [H ?]);
    repeat match goal with E : _ = true |- _ => rewrite E; clear E end;
    reflexivity.
Qed.

(** X12.  The listing query sorts in place the list it was given: when no
    filter is in force that list is the cached one, which is left in the
    order of the answer (a permutation of what it was), and the next
    unfiltered query that names no known sort mode returns the records in
    that order.  With a filter in force the cached data stay as they are. *)
Theorem unfiltered_query_reorders_the_cache :
  forall (data : Ranking) (q q' : RatesQuery),
    (unfiltered q = false -> get_rates_leaves data q = data)
    /\ (unfiltered q = true ->
          all_rates (get_rates_leaves data q) ≡ₚ all_rates data
          /\ get_rates (Some data) q
             = Ok (mkRatesBody
                     (length (slice_to (q_limit q) (all_rates (get_rates_leaves data q))))
                     (length (all_rates (get_rates_leaves data q)))
                     (slice_to (q_limit q) (all_rates (get_rates_leaves data q))))
          /\ (unfiltered q' = true -> known_mode (q_sort q') = false ->
                get_rates (Some (get_rates_leaves data q)) q'
                = get_rates (Some data)
                    (mkRatesQuery (q_term q) (q_bank q) (q_min_rate q)
                                  (q_limit q') (q_sort q)))).
Proof.
  intros data q q'. unfold get_rates_leaves. split.
  - intros ->. reflexivity.
  - intros Hu. rewrite Hu. cbn [all_rates].
    split; [apply sort_mode_perm |].
    split.
    + rewrite get_rates_steps. cbv zeta.
      rewrite (unfiltered_passes q _ Hu). reflexivity.
    + intros Hu' Hmode. rewrite !get_rates_steps. cbv zeta. cbn [all_rates q_sort q_limit].
      rewrite (unfiltered_passes q' _ Hu').
      assert (Hq : unfiltered (mkRatesQuery (q_term q) (q_bank q) (q_min_rate q)
                                            (q_limit q') (q_sort q)) = true) by exact Hu.
      rewrite (unfiltered_passes _ _ Hq).
      assert (Eid : forall l, sort_mode (q_sort q') l = l).
      { intros l. unfold known_mode in Hmode. unfold sort_mode.
        apply orb_false_iff in Hmode. destruct Hmode as [H H4].
        apply orb_false_iff in H. destruct H as [H H3].
        apply orb_false_iff in H. destruct H as [H1 H2].
        rewrite H1, H2, H3, H4. reflexivity. }
      rewrite Eid. reflexivity.
Qed.

End ListingFacts.


(** ** The banks of the stored rates ([get_banks]) *)

Module BanksFacts.
Import Samples MoreSamples Banks SortFacts.
























End BanksFacts.

(** ** The order of the reals, as the arithmetic of the examples *)

Module RealOrderFacts.




End RealOrderFacts.

(** ** The comparison of the offers ([compare_cdts]) *)

Module CompareFacts.
Import Samples MoreSamples Compare SortFacts RealOrderFacts.

Section Any.

Context {F : Type} `{FloatOps F}.






End Any.






End CompareFacts.

(** ** The rate that the simulation looks up ([simulate_cdt]) *)

Module LookupFacts.
Import Samples MoreSamples Simulate Lookup SortFacts RealOrderFacts.

Section Any.

Context {F : Type} `{FloatOps F}.


End Any.



End LookupFacts.

(** ** The records of a monthly page ([MejorCDTScraper]) *)

Module MonthlyPageFacts.
Import Samples MoreSamples MejorCDTScraper MonthlyPage.

Lemma mejor_unique_fresh (l : list CDTRateFromMejorCDT) :
  forall seen,
    NoDup (map key (unique_from seen l))
    /\ (forall x, x ∈ unique_from seen l -> key x ∉ seen).
Proof.
  induction l as [| r l IH]; intros seen; simpl.
  - split; [constructor | intros x Hx; inversion Hx].
  - destruct (decide (key r ∈ seen)) as [Hin | Hnin]; [apply IH |].
    destruct (IH ({[ key r ]} ∪ seen)) as [Hnd Hfresh].
    split.
    + simpl. constructor; [| exact Hnd].
      intros Hr. apply list_elem_of_fmap in Hr. destruct Hr as (y & Hy & Hyin).
      apply Hfresh in Hyin. apply Hyin.
      apply elem_of_union_l, elem_of_singleton. symmetry. exact Hy.
    + intros x Hx. apply elem_of_cons in Hx. destruct Hx as [-> | Hx]; [exact Hnin |].
      apply Hfresh in Hx. intros Hseen. apply Hx. apply elem_of_union_r. exact Hseen.
Qed.

Lemma mejor_unique_sublist (l : list CDTRateFromMejorCDT) :
  forall seen, sublist (unique_from seen l) l.
Proof.
  induction l as [| r l IH]; intros seen; simpl; [constructor |].
  destruct (decide (key r ∈ seen)).
  - apply sublist_cons. apply IH.
  - apply sublist_skip. apply IH.
Qed.

Lemma mejor_unique_keeps_keys (l : list CDTRateFromMejorCDT) :
  forall seen x,
    x ∈ l -> key x ∉ seen ->
    exists y, y ∈ unique_from seen l /\ key y = key x.
Proof.
  induction l as [| r l IH]; intros seen x Hx Hfresh; [inversion Hx |].
  simpl. apply elem_of_cons in Hx.
  destruct (decide (key r ∈ seen)) as [Hin | Hnin].
  - destruct Hx as [-> | Hx]; [contradiction |]. apply IH; assumption.
  - destruct (decide (key x = key r)) as [E | N].
    + exists r. split; [left | congruence].
    + destruct Hx as [-> | Hx]; [contradiction |].
      destruct (IH ({[ key r ]} ∪ seen) x Hx) as (y & Hy & E).
      { intros Hu. apply elem_of_union in Hu. destruct Hu as [Hu | Hu].
        - apply elem_of_singleton in Hu. contradiction.
        - contradiction. }
      exists y. split; [right; exact Hy | exact E].
Qed.

(** A record that is kept is the first of its key. *)
Lemma mejor_unique_first (l : list CDTRateFromMejorCDT) :
  forall seen y,
    y ∈ unique_from seen l ->
    (key y ∉ seen)
    /\ exists l1 l2, l = (l1 ++ y :: l2)%list /\ forall x, x ∈ l1 -> key x <> key y.
Proof.
  induction l as [| r l IH]; intros seen y Hy; [inversion Hy |].
  simpl in Hy. destruct (decide (key r ∈ seen)) as [Hin | Hnin].
  - destruct (IH seen y Hy) as (Hfresh & l1 & l2 & -> & Hl1).
    split; [exact Hfresh |].
    exists (r :: l1), l2. split; [reflexivity |].
    intros x Hx. apply elem_of_cons in Hx. destruct Hx as [-> | Hx]; [| apply Hl1, Hx].
    intros E. apply Hfresh. rewrite <- E. exact Hin.
  - apply elem_of_cons in Hy. destruct Hy as [-> | Hy].
    + split; [exact Hnin |]. exists [], l. split; [reflexivity |].
      intros x Hx. inversion Hx.
    + destruct (IH _ y Hy) as (Hfresh & l1 & l2 & -> & Hl1).
      split; [intros Hs; apply Hfresh, elem_of_union_r, Hs |].
      exists (r :: l1), l2. split; [reflexivity |].
      intros x Hx. apply elem_of_cons in Hx. destruct Hx as [-> | Hx]; [| apply Hl1, Hx].
      intros E. apply Hfresh, elem_of_union_l, elem_of_singleton. symmetry. exact E.
Qed.

(** Records of distinct keys, none of them seen, are all kept. *)
Lemma mejor_unique_id (l : list CDTRateFromMejorCDT) :
  forall seen,
    NoDup (map key l) -> (forall x, x ∈ l -> key x ∉ seen) ->
    unique_from seen l = l.
Proof.
  induction l as [| r l IH]; intros seen Hnd Hfresh; [reflexivity |].
  simpl. simpl in Hnd. apply list.NoDup_cons in Hnd. destruct Hnd as (Hr & Hnd).
  destruct (decide (key r ∈ seen)) as [Hin | _].
  - exfalso. apply (Hfresh r); [left | exact Hin].
  - f_equal. apply IH; [exact Hnd |].
    intros x Hx Hu. apply elem_of_union in Hu. destruct Hu as [Hu | Hu].
    + apply elem_of_singleton in Hu. apply Hr. rewrite <- Hu.
      apply list_elem_of_fmap. exists x. split; [reflexivity | exact Hx].
    + apply (Hfresh x); [right; exact Hx | exact Hu].
Qed.

(** X18. [_deduplicate_rates] leaves no two records of one bank code,
    term and rate; it keeps, in the order of the input, the first record
    of every such key and no other, and so every key of the input; run on
    its own output, or on records of distinct keys, it changes nothing. *)
Theorem deduplicate_rates_keeps_first_of_each_key :
  forall rates : list CDTRateFromMejorCDT,
    NoDup (map key (_deduplicate_rates rates))
    /\ sublist (_deduplicate_rates rates) rates
    /\ (forall x, x ∈ rates -> exists y, y ∈ _deduplicate_rates rates /\ key y = key x)
    /\ (forall y, y ∈ _deduplicate_rates rates ->
          exists l1 l2, rates = (l1 ++ y :: l2)%list
                        /\ forall x, x ∈ l1 -> key x <> key y)
    /\ _deduplicate_rates (_deduplicate_rates rates) = _deduplicate_rates rates
    /\ (NoDup (map key rates) -> _deduplicate_rates rates = rates).
Proof.
  intros rates. unfold _deduplicate_rates.
  split; [apply mejor_unique_fresh |].
  split; [apply mejor_unique_sublist |].
  split; [intros x Hx; apply mejor_unique_keeps_keys; [exact Hx | set_solver] |].
  split; [intros y Hy; apply (mejor_unique_first rates ∅ y Hy) |].
  split.
  - apply mejor_unique_id; [apply mejor_unique_fresh | set_solver].
  - intros Hnd. apply mejor_unique_id; [exact Hnd | set_solver].
Qed.

Lemma from_page_cell origin headers cols cells bank_name ic r :
  (3 <= String.length bank_name)%nat ->
  In r (rates_of_cell origin headers cols cells bank_name ic) -> from_page origin r.
Proof.
  intros Hlen Hin. unfold rates_of_cell in Hin. destruct ic as [i cell].
  destruct (match bank_col cols with Some b => Nat.eqb i b | None => false end);
    [contradiction |].
  destruct (_parse_rate (Text.strip cell)) as [rate |]; [| contradiction].
  destruct (plausible rate); [| contradiction].
  destruct Hin as [<- | []]. unfold from_page. cbn. auto 10.
Qed.

Lemma from_page_table origin table r :
  In r (_extract_rates_from_table origin table) -> from_page origin r.
Proof.
  unfold _extract_rates_from_table. intros Hin.
  destruct (tbl_rows table) as [| header_row [| row rows]]; try contradiction.
  apply in_flat_map in Hin. destruct Hin as (cells & _ & Hin).
  unfold rates_of_row in Hin.
  destruct (length cells <? 2)%nat; [contradiction |].
  match type of Hin with
  | In _ (if negb (Text.truthy ?n) || (String.length ?n <? 3)%nat then _ else _) =>
      destruct (negb (Text.truthy n)); [contradiction |];
      destruct (Nat.ltb_spec (String.length n) 3) as [| Hlen]; [contradiction |]
  end.
  cbn [orb] in Hin. apply in_flat_map in Hin. destruct Hin as (ic & _ & Hin).
  eapply from_page_cell; [exact Hlen | exact Hin].
Qed.

Lemma from_page_card origin card r :
  In r (_extract_rates_from_card origin card) -> from_page origin r.
Proof.
  unfold _extract_rates_from_card. intros Hin.
  destruct (card_title card) as [title |]; [| contradiction].
  destruct (negb (Text.truthy (Text.strip title))); [contradiction |].
  destruct (Nat.ltb_spec (String.length (Text.strip title)) 3) as [| Hlen];
    [contradiction |].
  cbn [orb] in Hin. apply in_flat_map in Hin. destruct Hin as (rate_str & _ & Hin).
  destruct (_parse_rate rate_str) as [rate |]; [| contradiction].
  destruct (plausible rate); [| contradiction].
  destruct Hin as [<- | []]. unfold from_page. cbn. auto 10.
Qed.

Lemma from_page_text origin soup r :
  In r (_extract_rates_from_text origin soup) ->
  from_page origin r
  /\ m_term_days r = 360
  /\ In (m_bank_code r) (map snd BANK_CODE_MAP).
Proof.
  unfold _extract_rates_from_text. intros Hin.
  apply in_flat_map in Hin. destruct Hin as ([bank_name rate_str] & _ & Hin).
  destruct (Nat.ltb_spec (String.length bank_name) 3) as [| Hlen]; [contradiction |].
  destruct (_parse_rate rate_str) as [rate |]; [| contradiction].
  destruct (plausible rate); [| contradiction].
  destruct (existsb (String.eqb (_get_bank_code bank_name)) (map snd BANK_CODE_MAP))
    eqn:E; [| contradiction].
  destruct Hin as [<- | []].
  split; [unfold from_page; cbn; auto 10 |].
  split; [reflexivity |].
  apply existsb_exists in E. destruct E as (c & Hc & E).
  apply String.eqb_eq in E. cbn [m_bank_code default_term_rate]. rewrite E. exact Hc.
Qed.

Lemma from_page_candidates origin soup r :
  In r (candidates origin soup) -> from_page origin r.
Proof.
  unfold candidates. intros Hin.
  apply in_app_or in Hin. destruct Hin as [Hin | Hin].
  - apply in_flat_map in Hin. destruct Hin as (t & _ & Hin).
    eapply from_page_table, Hin.
  - apply in_app_or in Hin. destruct Hin as [Hin | Hin].
    + apply in_flat_map in Hin. destruct Hin as (c & _ & Hin).
      eapply from_page_card, Hin.
    + eapply from_page_text, Hin.
Qed.

(** X19. [scrape_monthly_page] returns nothing when the page could not
    be fetched.  Otherwise it returns each bank code, term and rate that
    the three strategies found on the page once, and no other; every
    record carries the URL of the page, the time of the call and one
    month (the one read from the URL), a fixed rate, no upper amount, a
    bank name of 3 characters or more and the bank code made from that
    name. *)
Theorem monthly_page_records :
  forall (month_url scraped_at : string),
    scrape_monthly_page month_url scraped_at None = []
    /\ forall soup : Document,
         exists origin,
           o_source_url origin = month_url
           /\ o_scraped_at origin = scraped_at
           /\ o_source_month origin
              = match Re.search re_month month_url with
                | Some cs => Re.group 1 cs
                | None => "unknown"
                end
           /\ NoDup (map key (scrape_monthly_page month_url scraped_at (Some soup)))
           /\ (forall r, In r (scrape_monthly_page month_url scraped_at (Some soup)) ->
                 In r (candidates origin soup) /\ from_page origin r)
           /\ (forall c, In c (candidates origin soup) ->
                 exists r, In r (scrape_monthly_page month_url scraped_at (Some soup))
                           /\ key r = key c).
Proof.
  intros month_url scraped_at. split; [reflexivity |].
  intros soup. unfold scrape_monthly_page.
  set (origin := mkOrigin month_url _ scraped_at).
  exists origin. split; [reflexivity |]. split; [reflexivity |].
  split; [reflexivity |].
  unfold _deduplicate_rates.
  split; [apply mejor_unique_fresh |].
  split.
  - intros r Hr.
    assert (Hc : In r (candidates origin soup)).
    { apply list_elem_of_In. eapply elem_of_sublist; [| apply mejor_unique_sublist].
      apply list_elem_of_In. exact Hr. }
    split; [exact Hc | apply from_page_candidates with soup; exact Hc].
  - intros c Hc.
    destruct (mejor_unique_keeps_keys (candidates origin soup) ∅ c) as (y & Hy & E).
    + apply list_elem_of_In. exact Hc.
    + set_solver.
    + exists y. split; [apply list_elem_of_In; exact Hy | exact E].
Qed.

End MonthlyPageFacts.

(** ** The codes of the banks ([_get_bank_code]) *)

Module BankCodeFacts.
Import Samples MoreSamples MejorCDTScraper BankCodes.

#[local] Arguments String.append !s1 s2 : simpl nomatch.

Lemma append_nil_r (s : string) : String.append s EmptyString = s.
Proof. induction s as [| c s IH]; simpl; [reflexivity | rewrite IH; reflexivity]. Qed.

Lemma append_assoc' (a b c : string) :
  String.append (String.append a b) c = String.append a (String.append b c).
Proof. induction a as [| x a IH]; simpl; [reflexivity | rewrite IH; reflexivity]. Qed.

(** [re.sub] of a class of characters by one character works character
    by character. *)
Lemma scan_class (p : ascii -> bool) (u : ascii) (fuel : nat) :
  forall pre s,
    (String.length s < fuel)%nat ->
    (let '(ms, tl) := Re.scan fuel (Re.Cls p) pre s in
     String.append
       (fold_right (fun m acc => String.append (fst m)
                                   (String.append (String u EmptyString) acc))
                   EmptyString ms)
       tl)
    = String.append pre (Text.map_chars (fun c => if p c then u else c) s).
Proof.
  induction fuel as [| fuel IH]; intros pre s Hlen; [lia |].
  destruct s as [| c s].
  - cbn. rewrite append_nil_r. reflexivity.
  - cbn [Re.scan Re.match_at Re.run Text.map_chars]. cbn [String.length] in Hlen.
    destruct (p c) eqn:Pc.
    + destruct (Nat.ltb_spec (String.length s) (String.length (String c s))) as [_ | N];
        [| cbn [String.length] in N; lia].
      specialize (IH EmptyString s ltac:(lia)).
      destruct (Re.scan fuel (Re.Cls p) EmptyString s) as [ms tl].
      cbn [fold_right fst]. rewrite !append_assoc'. cbn [String.append] in *.
      rewrite IH. reflexivity.
    + specialize (IH (String.append pre (String c EmptyString)) s ltac:(lia)).
      destruct (Re.scan fuel (Re.Cls p) (String.append pre (String c EmptyString)) s)
        as [ms tl].
      rewrite IH. rewrite append_assoc'. reflexivity.
Qed.

Lemma sub_class (p : ascii -> bool) (u : ascii) (s : string) :
  Re.sub (Re.Cls p) (String u EmptyString) s
  = Text.map_chars (fun c => if p c then u else c) s.
Proof.
  unfold Re.sub, Re.matches.
  pose proof (scan_class p u (S (String.length s)) EmptyString s ltac:(lia)) as E.
  destruct (Re.scan (S (String.length s)) (Re.Cls p) EmptyString s) as [ms tl].
  exact E.
Qed.

Lemma generated_code (name_lower : string) :
  Re.sub re_not_code_char "_" name_lower = Text.map_chars code_char name_lower.
Proof.
  unfold re_not_code_char. rewrite sub_class.
  induction name_lower as [| c s IH]; [reflexivity |].
  cbn [Text.map_chars]. rewrite IH. f_equal.
  unfold code_char. destruct (Text.is_ascii_lower c || Text.is_digit c); reflexivity.
Qed.

Lemma map_chars_length (f : ascii -> ascii) (s : string) :
  String.length (Text.map_chars f s) = String.length s.
Proof. induction s as [| c s IH]; [reflexivity | cbn; rewrite IH; reflexivity]. Qed.

Lemma code_char_is_code_char (c : ascii) : is_code_char (code_char c) = true.
Proof.
  unfold is_code_char, code_char.
  destruct (Text.is_ascii_lower c || Text.is_digit c) eqn:E; [| reflexivity].
  rewrite E. reflexivity.
Qed.

Lemma known_codes_are_codes :
  forallb (fun kc => Text.all_chars is_code_char (snd kc)) BANK_CODE_MAP = true.
Proof. vm_compute. reflexivity. Qed.

(** X20. The code that [_get_bank_code] gives is made of the characters
    a-z, 0-9 and the underscore.  It is the code of the first entry of
    [BANK_CODE_MAP] whose key lies in the name (lower case, stripped) or
    holds it; when there is none, it is the name with every other
    character turned into an underscore, of the same length.  A name
    that is blank is held by every key, so it gets the code of the first
    entry. *)
Theorem get_bank_code_is_an_identifier :
  forall bank_name : string,
    let name_lower := Text.strip (Text.lower bank_name) in
    Text.all_chars is_code_char (_get_bank_code bank_name) = true
    /\ match List.find (names name_lower) BANK_CODE_MAP with
       | Some kc =>
           _get_bank_code bank_name = snd kc /\ In kc BANK_CODE_MAP
           /\ names name_lower kc = true
       | None =>
           _get_bank_code bank_name = Text.map_chars code_char name_lower
           /\ String.length (_get_bank_code bank_name) = String.length name_lower
           /\ forall kc, In kc BANK_CODE_MAP -> names name_lower kc = false
       end
    /\ (name_lower = EmptyString -> _get_bank_code bank_name = "bancolombia").
Proof.
  intros bank_name name_lower.
  assert (Hcode : _get_bank_code bank_name
                  = match List.find (names name_lower) BANK_CODE_MAP with
                    | Some kc => snd kc
                    | None => Text.map_chars code_char name_lower
                    end).
  { unfold _get_bank_code. fold name_lower. fold (names name_lower).
    destruct (List.find (names name_lower) BANK_CODE_MAP); [reflexivity |].
    apply generated_code. }
  split; [| split].
  - rewrite Hcode. destruct (List.find (names name_lower) BANK_CODE_MAP) as [kc |] eqn:E.
    + apply find_some in E. destruct E as (Hin & _).
      pose proof known_codes_are_codes as Hk. rewrite forallb_forall in Hk.
      exact (Hk kc Hin).
    + clear. induction name_lower as [| c s IH]; [reflexivity |].
      cbn [Text.map_chars Text.all_chars]. rewrite code_char_is_code_char. exact IH.
  - rewrite Hcode. destruct (List.find (names name_lower) BANK_CODE_MAP) as [kc |] eqn:E.
    + apply find_some in E. destruct E as (Hin & Hn). auto.
    + split; [reflexivity |]. split; [apply map_chars_length |].
      intros kc Hin. exact (find_none _ _ E kc Hin).
  - intros Hblank. rewrite Hcode, Hblank. reflexivity.
Qed.

End BankCodeFacts.

(** ** The pages of the months ([scrape_current_month],
    [scrape_multiple_months]) *)

Module MonthsFacts.
Import Samples MoreSamples MejorCDTScraper MonthlyPage Months.

#[local] Arguments String.append !s1 s2 : simpl nomatch.
#[local] Arguments Text.is_digit c : simpl nomatch.

(** A year of four digits is written with four digits. *)
Lemma four_digits (y : Z) :
  1000 <= y <= 9999 ->
  exists d1 d2 d3 d4,
    Api.str_int y = String d1 (String d2 (String d3 (String d4 EmptyString)))
    /\ Text.is_digit d1 = true /\ Text.is_digit d2 = true
    /\ Text.is_digit d3 = true /\ Text.is_digit d4 = true.
Proof.
  intros Hy. unfold Api.str_int.
  destruct (Z.ltb_spec y 0) as [| _]; [lia |].
  unfold PyFloat.str_nat.
  assert (Hlog : 9 <= Z.log2 y).
  { change 9 with (Z.log2 1000). apply Z.log2_le_mono. lia. }
  destruct (Z.to_nat (Z.log2 y)) as [| [| [| f]]] eqn:Ef; try lia.
  cbn [PyFloat.digits_onto].
  destruct (Z.eqb_spec (y / 10) 0) as [E | _];
    [exfalso; revert E; Z.div_mod_to_equations; lia |].
  destruct (Z.eqb_spec (y / 10 / 10) 0) as [E | _];
    [exfalso; revert E; Z.div_mod_to_equations; lia |].
  destruct (Z.eqb_spec (y / 10 / 10 / 10) 0) as [E | _];
    [exfalso; revert E; Z.div_mod_to_equations; lia |].
  destruct (Z.eqb_spec (y / 10 / 10 / 10 / 10) 0) as [_ | N];
    [| exfalso; apply N; Z.div_mod_to_equations; lia].
  do 4 eexists. split; [reflexivity |].
  repeat split; apply RateFacts.digit_char_spec;
    match goal with |- 0 <= ?a mod 10 <= 9 =>
      pose proof (Z.mod_pos_bound a 10 ltac:(lia)); lia end.
Qed.

Lemma url_reads_back (month : Z) (name : string) (y : Z) :
  In (month, name) months_es -> 1000 <= y <= 9999 ->
  source_month_of (month_url name y) = month_key name y.
Proof.
  intros Hin Hy.
  destruct (four_digits y Hy) as (d1 & d2 & d3 & d4 & E & H1 & H2 & H3 & H4).
  unfold source_month_of, month_url, month_key. rewrite E. clear E Hy.
  cbn [months_es In] in Hin.
  repeat (destruct Hin as [[= <- <-] | Hin];
          [cbn; rewrite H1; cbn; rewrite H2; cbn; rewrite H3; cbn; rewrite H4; cbn;
           reflexivity |]).
  contradiction.
Qed.

Lemma month_name_of_month (month : Z) :
  1 <= month <= 12 ->
  exists name, month_name_of month = Returned name /\ In (month, name) months_es.
Proof.
  intros H.
  assert (C : month = 1 \/ month = 2 \/ month = 3 \/ month = 4 \/ month = 5
              \/ month = 6 \/ month = 7 \/ month = 8 \/ month = 9 \/ month = 10
              \/ month = 11 \/ month = 12) by lia.
  repeat (destruct C as [-> | C]; [eexists; split; [reflexivity | cbn; auto 15] |]).
  subst month. eexists. split; [reflexivity | cbn; auto 15].
Qed.

Lemma month_name_of_other (month : Z) :
  ~ 1 <= month <= 12 -> month_name_of month = Raised (KeyError month).
Proof.
  intros H. unfold month_name_of, months_es. cbn [List.find fst snd].
  repeat match goal with
         | |- context [?a =? month] => destruct (Z.eqb_spec a month) as [E | _]; [lia |]
         end.
  reflexivity.
Qed.

(** The records of the page of a month carry the key of the month. *)
Lemma page_of_month (month : Z) (name : string) (y : Z) (at_ : string)
      (page : option Document) (r : CDTRateFromMejorCDT) :
  In (month, name) months_es -> 1000 <= y <= 9999 ->
  In r (scrape_monthly_page (month_url name y) at_ page) ->
  m_source_month r = month_key name y
  /\ m_source_url r = month_url name y
  /\ m_scraped_at r = at_.
Proof.
  intros Hin Hy Hr. destruct page as [soup |]; [| contradiction].
  destruct (MonthlyPageFacts.from_page_candidates
              (mkOrigin (month_url name y) (source_month_of (month_url name y)) at_)
              soup r) as (Hu & Hm & Ha & _).
  - apply list_elem_of_In.
    eapply elem_of_sublist; [| apply MonthlyPageFacts.mejor_unique_sublist].
    apply list_elem_of_In. exact Hr.
  - cbn [o_source_url o_source_month o_scraped_at] in Hu, Hm, Ha.
    rewrite (url_reads_back month name y Hin Hy) in Hm. auto.
Qed.

(** X21. [scrape_current_month], in a month from 1 to 12 of a year of
    four digits: it returns what [scrape_monthly_page] gives for the URL
    of the month, [BASE_URL/mejores-cdt-<month>-<year>] with the Spanish
    name of the month, and every record carries that URL and, as its
    month, the name and the year that the URL ends with. *)
Theorem current_month_page :
  forall (now : Now) (scraped_at : string) (web : string -> option Document),
    1 <= now_month now <= 12 ->
    1000 <= now_year now <= 9999 ->
    exists name,
      In (now_month now, name) months_es
      /\ scrape_current_month now scraped_at web
         = Returned (scrape_monthly_page (month_url name (now_year now)) scraped_at
                       (web (month_url name (now_year now))))
      /\ forall r,
           In r (scrape_monthly_page (month_url name (now_year now)) scraped_at
                   (web (month_url name (now_year now)))) ->
           m_source_month r = month_key name (now_year now)
           /\ m_source_url r = month_url name (now_year now)
           /\ m_scraped_at r = scraped_at.
Proof.
  intros now scraped_at web Hm Hy.
  destruct (month_name_of_month _ Hm) as (name & E & Hin).
  exists name. split; [exact Hin |]. split.
  - unfold scrape_current_month. rewrite E. reflexivity.
  - intros r Hr. eapply page_of_month; eassumption.
Qed.

Lemma current_month_page_witness :
  exists name,
    In (11, name) months_es
    /\ scrape_current_month (mkNow 11 2026) "2026-11-04T10:00:00" (fun _ => None)
       = Returned (scrape_monthly_page (month_url name 2026) "2026-11-04T10:00:00" None).
Proof.
  destruct (current_month_page (mkNow 11 2026) "2026-11-04T10:00:00" (fun _ => None))
    as (name & Hin & E & _).
  - cbn. lia.
  - cbn. lia.
  - exists name. split; [exact Hin | exact E].
Defined.

Lemma in_dict_put (key : string) (rates : list CDTRateFromMejorCDT)
      (results : months_dict) (e : string * list CDTRateFromMejorCDT) :
  In e (dict_put key rates results) -> e = (key, rates) \/ In e results.
Proof.
  induction results as [| [k v] rest IH]; cbn [dict_put].
  - intros [<- | []]. left. reflexivity.
  - destruct (String.eqb_spec k key) as [-> | N].
    + intros [<- | H]; [left; reflexivity | right; right; exact H].
    + intros [<- | H]; [right; left; reflexivity |].
      destruct (IH H) as [-> | H']; [left; reflexivity | right; right; exact H'].
Qed.

(** The month of the page number [i], within a year back. *)
Lemma month_of_page (now : Now) (i : Z) :
  1 <= now_month now <= 12 -> 0 <= i < now_month now + 12 ->
  exists month year,
    month_of now i = (month, year)
    /\ 1 <= month <= 12
    /\ now_year now - 1 <= year <= now_year now
    /\ 12 * year + month = 12 * now_year now + now_month now - i.
Proof.
  intros Hm Hi. unfold month_of.
  destruct (Z.leb_spec (now_month now - i) 0); do 2 eexists;
    (split; [reflexivity | lia]).
Qed.

Lemma months_loop_pages (now : Now) (scraped_at : Z -> string)
      (web : string -> option Document) (n : Z) (pages : list Z) :
  1 <= now_month now <= 12 -> 1001 <= now_year now <= 9999 ->
  (forall i, In i pages -> 0 <= i < n /\ i < now_month now + 12) ->
  forall results,
    (forall e, In e results -> of_page now scraped_at web n e) ->
    exists results',
      months_loop now scraped_at web pages results = Returned results'
      /\ forall e, In e results' -> of_page now scraped_at web n e.
Proof.
  intros Hm Hy. induction pages as [| i pages IH]; intros Hpages results Hres.
  - exists results. split; [reflexivity | exact Hres].
  - destruct (Hpages i (or_introl eq_refl)) as (Hi & Hi').
    destruct (month_of_page now i Hm ltac:(lia)) as (month & year & E & Hmonth & Hyear & Hsum).
    destruct (month_name_of_month month Hmonth) as (name & En & Hin).
    cbn [months_loop]. rewrite E, En. cbn [mbind outcome_bind].
    apply IH; [intros j Hj; apply Hpages; right; exact Hj |].
    destruct (scrape_monthly_page (month_url name year) (scraped_at i)
                (web (month_url name year))) as [| r0 rates0] eqn:Er; [exact Hres |].
    intros e He. apply in_dict_put in He. destruct He as [-> | He]; [| exact (Hres e He)].
    split; [discriminate |].
    exists i, month, year, name. cbn [fst snd].
    repeat (split; [first [assumption | reflexivity | lia] |]).
    split; [symmetry; exact Er |].
    intros r Hr. rewrite <- Er in Hr.
    eapply page_of_month; [exact Hin | lia | exact Hr].
Qed.

Lemma months_loop_app (now : Now) (scraped_at : Z -> string)
      (web : string -> option Document) (l1 l2 : list Z) :
  forall results,
    months_loop now scraped_at web (l1 ++ l2) results
    = match months_loop now scraped_at web l1 results with
      | Returned results' => months_loop now scraped_at web l2 results'
      | Raised e => Raised e
      end.
Proof.
  induction l1 as [| i l1 IH]; intros results; [reflexivity |].
  cbn [months_loop app]. destruct (month_of now i) as [month year].
  destruct (month_name_of month) as [name | e]; [| reflexivity].
  cbn [mbind outcome_bind]. apply IH.
Qed.

Lemma in_range (n i : Z) : In i (range n) <-> 0 <= i < n.
Proof.
  unfold range. rewrite in_map_iff. split.
  - intros (k & <- & Hk). apply in_seq in Hk. lia.
  - intros Hi. exists (Z.to_nat i). split; [lia |]. apply in_seq. lia.
Qed.

Lemma range_split (n k : Z) :
  0 <= k < n -> exists rest, range n = (range k ++ k :: rest)%list.
Proof.
  intros Hk. unfold range.
  replace (Z.to_nat n) with (Z.to_nat k + S (Z.to_nat n - S (Z.to_nat k)))%nat by lia.
  rewrite seq_app, map_app. cbn [seq map Nat.add].
  rewrite Z2Nat.id by lia. eexists. reflexivity.
Qed.

(** X22. [scrape_multiple_months], in a month from 1 to 12 of a year of
    four digits after 1000.  For up to 12 months more than the number of
    the current month it returns a dict; every entry holds the records,
    some, of the page of a month from 0 to [num_months - 1] months before
    now, under the name and the year of that month, which the records
    carry as their month.  For more months it raises [KeyError(0)]: only
    one turn of the year is made up for, whatever the pages hold. *)
Theorem multiple_months_reach_one_year_back :
  forall (now : Now) (scraped_at : Z -> string) (web : string -> option Document)
         (num_months : Z),
    1 <= now_month now <= 12 ->
    1001 <= now_year now <= 9999 ->
    (num_months <= now_month now + 12 ->
     exists results,
       scrape_multiple_months now scraped_at web num_months = Returned results
       /\ forall e, In e results -> of_page now scraped_at web num_months e)
    /\ (now_month now + 12 < num_months ->
        scrape_multiple_months now scraped_at web num_months = Raised (KeyError 0)).
Proof.
  intros now scraped_at web n Hm Hy. unfold scrape_multiple_months. split.
  - intros Hn. apply months_loop_pages; try assumption.
    + intros i Hi. apply in_range in Hi. lia.
    + intros e [].
  - intros Hn.
    destruct (range_split n (now_month now + 12) ltac:(lia)) as (rest & ->).
    rewrite months_loop_app.
    destruct (months_loop_pages now scraped_at web n (range (now_month now + 12)) Hm Hy)
      with (results := @nil (string * list CDTRateFromMejorCDT))
      as (results' & -> & _).
    + intros i Hi. apply in_range in Hi. lia.
    + intros e [].
    + cbn [months_loop]. unfold month_of.
      destruct (Z.leb_spec (now_month now - (now_month now + 12)) 0) as [_ | N]; [| lia].
      replace (now_month now - (now_month now + 12) + 12) with 0 by lia.
      reflexivity.
Qed.

Lemma multiple_months_reach_one_year_back_witness :
  (exists results,
     scrape_multiple_months (mkNow 2 2026) (fun _ => "2026-02-01T10:00:00")
       (fun _ => None) 14
     = Returned results)
  /\ scrape_multiple_months (mkNow 2 2026) (fun _ => "2026-02-01T10:00:00")
       (fun _ => None) 15
     = Raised (KeyError 0).
Proof.
  split.
  - destruct (multiple_months_reach_one_year_back (mkNow 2 2026)
                (fun _ => "2026-02-01T10:00:00") (fun _ => None) 14)
      as ((results & E & _) & _).
    + cbn. lia.
    + cbn. lia.
    + cbn. lia.
    + exists results. exact E.
  - apply (multiple_months_reach_one_year_back (mkNow 2 2026)
             (fun _ => "2026-02-01T10:00:00") (fun _ => None) 15).
    + cbn. lia.
    + cbn. lia.
    + cbn. lia.
Defined.

End MonthsFacts.

(** ** The terms that [_parse_term] reads *)

Module TermFacts.
Import Samples MoreSamples Re ReFacts.

#[local] Arguments String.append !s1 s2 : simpl nomatch.

Lemma space_not_digit (c : ascii) : Text.is_space c = true -> Text.is_digit c = false.
Proof.
  destruct c as [[] [] [] [] [] [] [] []]; vm_compute; intros E;
    first [reflexivity | discriminate E].
Qed.

Lemma lower_char_digit (c : ascii) : Text.is_digit (Text.lower_char c) = Text.is_digit c.
Proof. destruct c as [[] [] [] [] [] [] [] []]; vm_compute; reflexivity. Qed.

Lemma no_digit_lower (s : string) :
  Text.all_chars (fun c => negb (Text.is_digit c)) (Text.lower s)
  = Text.all_chars (fun c => negb (Text.is_digit c)) s.
Proof.
  induction s as [| c s IH]; [reflexivity |].
  cbn [Text.lower Text.map_chars Text.all_chars].
  rewrite lower_char_digit. f_equal. exact IH.
Qed.

Lemma no_digit_lstrip (s : string) :
  Text.all_chars (fun c => negb (Text.is_digit c)) (Text.lstrip s)
  = Text.all_chars (fun c => negb (Text.is_digit c)) s.
Proof.
  induction s as [| c s IH]; [reflexivity |].
  cbn [Text.lstrip]. destruct (Text.is_space c) eqn:E; [| reflexivity].
  cbn [Text.all_chars]. rewrite (space_not_digit c E). exact IH.
Qed.

Lemma no_digit_rstrip (s : string) :
  Text.all_chars (fun c => negb (Text.is_digit c)) (Text.rstrip s)
  = Text.all_chars (fun c => negb (Text.is_digit c)) s.
Proof.
  induction s as [| c s IH]; [reflexivity |].
  cbn [Text.rstrip Text.all_chars]. rewrite <- IH.
  destruct (Text.rstrip s) as [| c' r].
  - destruct (Text.is_space c) eqn:E.
    + rewrite (space_not_digit c E). reflexivity.
    + reflexivity.
  - reflexivity.
Qed.

Lemma no_digit_strip (s : string) :
  Text.all_chars (fun c => negb (Text.is_digit c)) (Text.strip s)
  = Text.all_chars (fun c => negb (Text.is_digit c)) s.
Proof. unfold Text.strip. rewrite no_digit_rstrip. apply no_digit_lstrip. Qed.

(** A pattern that begins with a digit does not match where there is
    none. *)
Lemma digits_first_fails (r : regex) :
  (forall c s, Text.is_digit c = false -> match_at r (String c s) = None) ->
  match_at r EmptyString = None ->
  forall s, Text.all_chars (fun c => negb (Text.is_digit c)) s = true ->
            search r s = None.
Proof.
  intros Hc Hnil s. induction s as [| c s IH]; intros Hs.
  - rewrite search_nil, Hnil. reflexivity.
  - cbn [Text.all_chars] in Hs. apply andb_prop in Hs. destruct Hs as (Hd & Hs).
    apply negb_true_iff in Hd.
    rewrite search_cons, (Hc c s Hd). apply IH. exact Hs.
Qed.

Lemma digits_then_fails (tail : regex) (s : string) :
  Text.all_chars (fun c => negb (Text.is_digit c)) s = true ->
  search (Seq (Group 1 (Plus digit)) tail) s = None.
Proof.
  apply digits_first_fails.
  - intros c s' Hd. unfold match_at, Plus, digit. cbn [run]. rewrite Hd. reflexivity.
  - reflexivity.
Qed.

Lemma number_fails (s : string) :
  Text.all_chars (fun c => negb (Text.is_digit c)) s = true ->
  search BaseScraper.re_number s = None.
Proof.
  apply digits_first_fails.
  - intros c s' Hd. unfold match_at, BaseScraper.re_number, Plus, digit. cbn [run].
    rewrite Hd. reflexivity.
  - reflexivity.
Qed.

(** A digit is a match of [(\d+)]. *)
Lemma number_at_digit (c : ascii) (s : string) :
  Text.is_digit c = true -> match_at BaseScraper.re_number (String c s) <> None.
Proof.
  intros Hd. unfold match_at, BaseScraper.re_number, Plus, digit. cbn [run].
  rewrite Hd. generalize (String.length s). intros fuel.
  destruct fuel as [| fuel]; [discriminate |].
  match goal with |- match ?m with _ => _ end <> None => destruct m end; discriminate.
Qed.

Lemma number_found (s : string) :
  Text.all_chars (fun c => negb (Text.is_digit c)) s = false ->
  search BaseScraper.re_number s <> None.
Proof.
  induction s as [| c s IH]; [discriminate |].
  cbn [Text.all_chars]. intros Hs. rewrite search_cons.
  destruct (match_at BaseScraper.re_number (String c s)) as [[cs rest] |] eqn:E;
    [discriminate |].
  destruct (Text.is_digit c) eqn:Hd.
  - exfalso. exact (number_at_digit c s Hd E).
  - apply IH. exact Hs.
Qed.

(** X23. [_parse_term], of the adapters (a bare number up to 36 counts
    months) and of the consolidator (up to 24): it reads no term exactly
    from the texts that hold no digit, the empty text among them; a term
    that it reads is not negative. *)
Theorem parse_term_reads_every_number :
  forall (months_below : Z) (text : string),
    (BaseScraper.parse_term_with months_below text = None
     <-> Text.all_chars (fun c => negb (Text.is_digit c)) text = true)
    /\ (forall t, BaseScraper.parse_term_with months_below text = Some t -> 0 <= t)
    /\ BaseScraper._parse_term text = BaseScraper.parse_term_with 36 text
    /\ MejorCDTScraper._parse_term text = BaseScraper.parse_term_with 24 text.
Proof.
  intros months_below text.
  split; [| split; [apply parse_term_with_nonneg | split; reflexivity]].
  unfold BaseScraper.parse_term_with.
  destruct text as [| c0 text0]; [split; reflexivity |].
  cbn [Text.truthy negb].
  set (text := String c0 text0).
  set (low := Text.lower (Text.strip text)).
  assert (Hlow : Text.all_chars (fun c => negb (Text.is_digit c)) low
                 = Text.all_chars (fun c => negb (Text.is_digit c)) text).
  { unfold low. rewrite no_digit_lower. apply no_digit_strip. }
  rewrite <- Hlow.
  destruct (Text.all_chars (fun c => negb (Text.is_digit c)) low) eqn:Hd.
  - unfold BaseScraper.re_dias, BaseScraper.re_meses, BaseScraper.re_anos.
    rewrite !digits_then_fails by exact Hd.
    rewrite number_fails by exact Hd. split; reflexivity.
  - split; [| discriminate].
    destruct (search BaseScraper.re_dias low); [discriminate |].
    destruct (search BaseScraper.re_meses low); [discriminate |].
    destruct (search BaseScraper.re_anos low); [discriminate |].
    pose proof (number_found low Hd) as Hn.
    destruct (search BaseScraper.re_number low) as [cs |]; [| contradiction].
    destruct (BaseScraper.int_group1 cs <=? months_below); discriminate.
Qed.

End TermFacts.

(** ** The units of [_parse_term] *)

Module UnitFacts.
Import Samples MoreSamples Re ReFacts.

#[local] Arguments String.append !s1 s2 : simpl nomatch.

(** *** Numerals *)





(** *** The text after [strip] and [lower] *)








(** *** Where the patterns match *)





(** *** Where the patterns do not match *)












End UnitFacts.

(** ** What a generic adapter hands over *)

Module AdapterFacts.
Import Samples MoreSamples GenericTableScraper Adapter.

Lemma parse_row_one (config : BankConfig) (tc rc ac : option nat) (cells : list string) :
  (length (parse_row config tc rc ac cells) <= 1)%nat
  /\ forall r, In r (parse_row config tc rc ac cells) -> record_of config "" r.
Proof.
  unfold parse_row.
  destruct (length cells <? 2)%nat; [split; [cbn; lia | intros r []] |].
  destruct (BaseScraper._parse_term _); [| split; [cbn; lia | intros r []]].
  destruct (BaseScraper._parse_rate _); [| split; [cbn; lia | intros r []]].
  match goal with
  | |- context [if ?c then _ else _] => destruct c
  end; [| split; [cbn; lia | intros r []]].
  split; [cbn; lia |].
  intros r [<- | []]. unfold record_of. cbn. auto 10.
Qed.

Lemma flat_map_at_most_one {A B : Type} (f : A -> list B) (l : list A) :
  (forall x, (length (f x) <= 1)%nat) -> (length (flat_map f l) <= length l)%nat.
Proof.
  intros Hf. induction l as [| x l IH]; [cbn; lia |].
  change (flat_map f (x :: l)) with (f x ++ flat_map f l)%list.
  rewrite length_app. specialize (Hf x). cbn [length]. lia.
Qed.

Lemma parse_table_rows (config : BankConfig) (table : Table) :
  (length (_parse_table config table) <= Nat.pred (length (tbl_rows table)))%nat
  /\ forall r, In r (_parse_table config table) -> record_of config "" r.
Proof.
  unfold _parse_table. destruct (tbl_rows table) as [| header_row rows].
  - split; [cbn; lia | intros r []].
  - split.
    + cbn [length Nat.pred]. apply flat_map_at_most_one. intros cells.
      apply parse_row_one.
    + intros r Hr. apply in_flat_map in Hr. destruct Hr as (cells & _ & Hr).
      eapply parse_row_one. exact Hr.
Qed.

Lemma all_tables_rows (config : BankConfig) (tables : list Table) :
  (length (flat_map (_parse_table config) tables)
   <= list_sum (map (fun table => Nat.pred (length (tbl_rows table))) tables))%nat.
Proof.
  induction tables as [| t tables IH]; [cbn; lia |].
  change (flat_map (_parse_table config) (t :: tables))
    with (_parse_table config t ++ flat_map (_parse_table config) tables)%list.
  cbn [map list_sum fold_right]. fold (list_sum
    (map (fun table => Nat.pred (length (tbl_rows table))) tables)).
  rewrite length_app.
  pose proof (proj1 (parse_table_rows config t)). lia.
Qed.

Lemma unique_from_length (l : list CDTRate) :
  forall seen, (length (unique_from seen l) <= length l)%nat.
Proof.
  induction l as [| r l IH]; intros seen; [cbn; lia |].
  cbn [unique_from]. destruct (decide (key r ∈ seen)).
  - specialize (IH seen). cbn [length]. lia.
  - specialize (IH ({[ key r ]} ∪ seen)). cbn [length]. lia.
Qed.

Lemma stamp_key (at_ : string) (l : list CDTRate) :
  map key (map (BaseScraper.stamp at_) l) = map key l.
Proof. rewrite map_map. apply map_ext. intros r. reflexivity. Qed.

(** X25. A generic adapter, run on what the fetch of its page gave: [run]
    returns a result under the code and the name of the source, with the
    time of the clock.  The result is a success exactly when it holds
    records, and exactly then it has no error message; the message tells
    a page that could not be fetched from one without rates.  Every
    record carries the code, the name and the URL of the source and the
    time of the result, no upper amount and the default kinds; no bank
    code, term and rate occurs twice; and there is at most one record for
    each data row of the tables read. *)
Theorem generic_adapter_result :
  forall (config : BankConfig) (clock : BaseScraper.Clock) (page : option Document),
    exists result,
      BaseScraper.run config clock (Returned (scrape config page)) = Returned result
      /\ sr_bank_code result = cfg_code config
      /\ sr_bank_name result = cfg_name config
      /\ sr_scraped_at result = BaseScraper.now_iso clock
      /\ (success result = true <-> rates result <> [])
      /\ (error_message result = None <-> success result = true)
      /\ (page = None -> error_message result = Some "No se pudo obtener la pagina")
      /\ (page <> None -> success result = false ->
          error_message result = Some "No se encontraron tasas")
      /\ (forall r, In r (rates result) ->
            record_of config (BaseScraper.now_iso clock) r)
      /\ NoDup (map key (rates result))
      /\ (forall soup, page = Some soup ->
            (length (rates result) <= data_rows soup)%nat).
Proof.
  intros config clock page. eexists. split; [reflexivity |].
  cbn [sr_bank_code sr_bank_name sr_scraped_at success rates error_message].
  split; [destruct page; reflexivity |].
  split; [destruct page; reflexivity |].
  split; [reflexivity |].
  destruct page as [soup |].
  - cbn [scrape success rates error_message].
    set (all_rates := flat_map (_parse_table config) (_extract_tables soup)).
    assert (Hsub : forall r, In r (unique_from ∅ all_rates) -> record_of config "" r).
    { intros r Hr. apply list_elem_of_In in Hr.
      apply elem_of_sublist with (l2 := all_rates) in Hr;
        [| apply MergeFacts.unique_from_sublist].
      apply list_elem_of_In, in_flat_map in Hr. destruct Hr as (t & _ & Hr).
      eapply parse_table_rows. exact Hr. }
    split.
    { destruct (unique_from ∅ all_rates); cbn; split; intros H; congruence. }
    split.
    { destruct (unique_from ∅ all_rates); cbn; split; intros H; congruence. }
    split; [intros H; discriminate H |].
    split.
    { intros _. destruct (unique_from ∅ all_rates); cbn; intros H; congruence. }
    split.
    { intros r Hr. apply in_map_iff in Hr. destruct Hr as (r0 & <- & Hr0).
      destruct (Hsub r0 Hr0) as (H1 & H2 & H3 & _ & H5 & H6 & H7 & H8 & H9).
      unfold record_of. cbn. auto 10. }
    split.
    { rewrite stamp_key. apply MergeFacts.unique_from_fresh. }
    intros soup' [= <-]. rewrite length_map.
    etransitivity; [apply unique_from_length |]. apply all_tables_rows.
  - cbn [scrape success rates error_message map].
    split; [split; intros H; congruence |].
    split; [split; intros H; congruence |].
    split; [reflexivity |].
    split; [intros H; congruence |].
    split; [intros r [] |].
    split; [constructor |].
    intros soup H. discriminate H.
Qed.

End AdapterFacts.

(** ** A whole scraping with the scrapers of the registry *)

Module RegistryFacts.
Import Samples MoreSamples CDTOrchestrator StaticScrapers Registry SortFacts.

Local Abbreviation key := GenericTableScraper.key.

Lemma run_stamps (config : BankConfig) (clock : BaseScraper.Clock)
      (result : ScrapingResult) :
  BaseScraper.run config clock (Returned result) = Returned (stamped clock result).
Proof. reflexivity. Qed.

(** Every scraper of the registry has fixed rates: it is what
    [get_scraper] gives for its code, it works under that code and
    returns three records, one for each of the terms 30, 60 and 90. *)
Lemma registry_scraper (code : string) (s : Scraper) :
  In (code, s) SCRAPERS ->
  exists config result,
    s = fixed config result
    /\ get_scraper code = Some s
    /\ dict_get code SCRAPERS = Some s
    /\ sr_bank_code result = code
    /\ success result = true
    /\ map term_days (rates result) = [30; 60; 90]
    /\ map bank_code (rates result) = [code; code; code]
    /\ map source_url (rates result)
       = [cfg_url config; cfg_url config; cfg_url config].
Proof.
  unfold SCRAPERS. cbn [In].
  intros H.
  repeat (destruct H as [[= <- <-] | H];
          [do 2 eexists; repeat split; reflexivity |]).
  contradiction.
Qed.

Lemma registry_codes_distinct : List.NoDup (map fst SCRAPERS).
Proof.
  apply NoDup_ListNoDup. apply (bool_decide_unpack _). vm_compute. exact I.
Qed.

(** No bank code, term and rate occurs twice among the records of the
    registry, and each of them has a short term and a rate from 6 to
    15.5. *)
Lemma registry_keys_distinct : NoDup (map key registry_rates).
Proof. apply (bool_decide_unpack _). vm_compute. exact I. Qed.

Lemma registry_rates_short : forallb short_term registry_rates = true.
Proof. vm_compute. reflexivity. Qed.

(** The tasks of codes of the registry, each once, leave their entries
    in the order of completion. *)
Lemma scrape_all_registry (web : string -> option Document)
      (completion : list (string * BaseScraper.Clock)) :
  forall results,
    List.NoDup (map fst completion) ->
    (forall cc, In cc completion -> In (fst cc) (map fst SCRAPERS)) ->
    (forall cc, In cc completion -> ~ In (fst cc) (map fst results)) ->
    exists new,
      scrape_all completion web results = Returned (results ++ new)%list
      /\ Forall2 task_of completion new.
Proof.
  induction completion as [| [code clock] rest IH]; intros results Hnd Hreg Hfresh.
  - exists []. split; [rewrite app_nil_r; reflexivity | constructor].
  - cbn [map fst] in Hnd. inversion Hnd as [| x l Hcode Hnd']; subst.
    destruct (proj1 (in_map_iff _ _ _) (Hreg (code, clock) (or_introl eq_refl)))
      as ([code' s] & E & Hin).
    cbn [fst] in E. subst code'.
    destruct (registry_scraper code s Hin)
      as (config & result & -> & Hget & _ & _ & _ & _ & _ & _).
    cbn [scrape_all]. unfold scrape_bank. rewrite Hget.
    cbn [fixed s_config s_scrape]. rewrite run_stamps.
    cbn [mbind outcome_bind mret outcome_ret].
    rewrite BestRatesFacts.dict_set_new
      by exact (Hfresh (code, clock) (or_introl eq_refl)).
    destruct (IH (results ++ [(code, stamped clock result)])%list Hnd') as (new & E & Hnew).
    + intros cc Hcc. apply Hreg. right. exact Hcc.
    + intros cc Hcc Hk. rewrite map_app in Hk. apply in_app_or in Hk.
      destruct Hk as [Hk | [Hk | []]].
      * exact (Hfresh cc (or_intror Hcc) Hk).
      * cbn [fst] in Hk. apply Hcode. rewrite Hk. apply in_map. exact Hcc.
    + exists ((code, stamped clock result) :: new). split.
      * rewrite E, <- app_assoc. reflexivity.
      * constructor; [| exact Hnew].
        split; [reflexivity |]. exists config, result. auto.
Qed.

Lemma filter_length_perm {A : Type} (p : A -> bool) (l l' : list A) :
  l ≡ₚ l' -> length (List.filter p l) = length (List.filter p l').
Proof.
  induction 1 as [| x l l' _ IH | x y l | l l' l'' _ IH1 _ IH2]; cbn [List.filter].
  - reflexivity.
  - destruct (p x); cbn [length]; rewrite IH; reflexivity.
  - destruct (p x), (p y); reflexivity.
  - rewrite IH1. exact IH2.
Qed.

(** What the entries of the tasks hold. *)
Lemma tasks_hold (completion : list (string * BaseScraper.Clock))
      (new : results_dict) :
  Forall2 task_of completion new ->
  length (List.filter (fun kv => success (snd kv)) new) = length completion
  /\ length (get_all_rates new) = (3 * length completion)%nat
  /\ map key (get_all_rates new)
     = flat_map (fun code =>
                   match dict_get code SCRAPERS with
                   | Some s => map key (rates (s_scrape s None))
                   | None => []
                   end)
                (map fst completion)
  /\ (forall t, In t [30; 60; 90] ->
        length (List.filter (fun r => term_days r =? t) (get_all_rates new))
        = length completion)
  /\ (forall r, In r (get_all_rates new) ->
        exists clock s r0,
          In (bank_code r, clock) completion
          /\ In (bank_code r, s) SCRAPERS
          /\ In r0 registry_rates
          /\ r = BaseScraper.stamp (BaseScraper.now_iso clock) r0
          /\ source_url r = cfg_url (s_config s)).
Proof.
  induction 1 as [| [code clock] [k res] completion new Htask _ IH].
  - cbn. repeat split; try reflexivity. intros r [].
  - destruct Htask as (Hk & config & result & Hin & Hres).
    cbn [fst snd] in Hk, Hin, Hres. subst k res.
    destruct (registry_scraper code _ Hin)
      as (config' & result' & E & _ & Hget & Hcode & Hsucc & Hterms & Hcodes & Hurls).
    pose proof (f_equal s_config E) as Ec.
    pose proof (f_equal (fun s => s_scrape s None) E) as Es.
    cbn [fixed s_config s_scrape] in Ec, Es. subst config' result'. clear E.
    destruct IH as (IH1 & IH2 & IH3 & IH4 & IH5).
    rewrite MergeFacts.get_all_rates_cons.
    cbn [stamped success rates List.filter snd map fst flat_map].
    rewrite Hsucc, Hget. cbn [fixed s_scrape].
    destruct (rates result) as [| a [| b [| c [| d rest]]]] eqn:Er;
      try discriminate Hterms.
    cbn [map] in Hterms, Hcodes, Hurls.
    injection Hterms as Ta Tb Tc. injection Hcodes as Ca Cb Cc.
    injection Hurls as Ua Ub Uc.
    assert (Hreg : forall r0, In r0 [a; b; c] -> In r0 registry_rates).
    { intros r0 Hr0. unfold registry_rates. apply in_flat_map.
      exists (code, fixed config result). split; [exact Hin |].
      cbn [snd fixed s_scrape]. rewrite Er. exact Hr0. }
    split; [cbn [length]; rewrite IH1; reflexivity |].
    split; [cbn [map app length]; rewrite IH2; lia |].
    split; [cbn [map app]; rewrite IH3; reflexivity |].
    split.
    + intros t Ht. specialize (IH4 t Ht).
      cbn [map app List.filter BaseScraper.stamp term_days].
      rewrite Ta, Tb, Tc.
      destruct Ht as [<- | [<- | [<- | []]]]; cbn [Z.eqb Pos.eqb length];
        rewrite IH4; reflexivity.
    + intros r Hr. cbn [map app] in Hr.
      assert (Hcase : In r (map (BaseScraper.stamp (BaseScraper.now_iso clock)) [a; b; c])
                      \/ In r (get_all_rates new)).
      { cbn [map]. cbn [In] in Hr |- *. tauto. }
      destruct Hcase as [Hr' | Hr'].
      * apply in_map_iff in Hr'. destruct Hr' as (r0 & <- & Hr0).
        assert (Hc0 : bank_code r0 = code).
        { destruct Hr0 as [<- | [<- | [<- | []]]]; assumption. }
        exists clock, (fixed config result), r0.
        cbn [BaseScraper.stamp bank_code source_url]. rewrite Hc0.
        split; [left; reflexivity |].
        split; [exact Hin |].
        split; [apply Hreg; exact Hr0 |].
        split; [reflexivity |].
        cbn [fixed s_config].
        destruct Hr0 as [<- | [<- | [<- | []]]]; assumption.
      * destruct (IH5 r Hr') as (clock' & s & r0 & H1 & H2 & H3 & H4 & H5).
        exists clock', s, r0. split; [right; exact H1 | auto].
Qed.

Lemma filter_none {A : Type} (p : A -> bool) (l : list A) :
  (forall x, In x l -> p x = false) -> List.filter p l = [].
Proof.
  induction l as [| x l IH]; intros H; [reflexivity |].
  cbn [List.filter]. rewrite (H x (or_introl eq_refl)).
  apply IH. intros y Hy. apply H. right. exact Hy.
Qed.

Lemma registry_keys :
  flat_map (fun code =>
              match dict_get code SCRAPERS with
              | Some s => map key (rates (s_scrape s None))
              | None => []
              end)
           (map fst SCRAPERS)
  = map key registry_rates.
Proof. reflexivity. Qed.

(** X26. A whole scraping, [scrape_all] in parallel and then
    [get_ranking], with the scrapers of [SCRAPERS], whatever the order in
    which the tasks complete, the readings of the clock and the web (no
    page is fetched: every scraper of the registry has fixed rates, and
    the generic adapter is never run).  The ranking counts 14 banks and
    42 rates and has a top of 10; no bank code, term and rate occurs
    twice; every record has a term of 30, 60 or 90 days and a rate from
    6 to 15.5, and carries the time of the task of its bank and the URL
    of the config of its bank; the rankings of the terms 30, 60 and 90
    list 14 records each, those of the longer terms none. *)
Theorem registry_scraping :
  forall (completion : list (string * BaseScraper.Clock))
         (web : string -> option Document) (now : string),
    map fst completion ≡ₚ map fst SCRAPERS ->
    exists ranking,
      run_scraping completion web now = Returned ranking
      /\ generated_at ranking = now
      /\ total_banks ranking = 14%nat
      /\ total_rates ranking = 42%nat
      /\ length (all_rates ranking) = 42%nat
      /\ length (top_10 ranking) = 10%nat
      /\ NoDup (map key (all_rates ranking))
      /\ (forall r, In r (all_rates ranking) ->
            short_term r = true
            /\ exists clock s,
                 In (bank_code r, clock) completion
                 /\ In (bank_code r, s) SCRAPERS
                 /\ scraped_at r = BaseScraper.now_iso clock
                 /\ source_url r = cfg_url (s_config s))
      /\ (forall t l, In (t, l) (by_term ranking) ->
            if existsb (Z.eqb t) [30; 60; 90] then length l = 14%nat else l = []).
Proof.
  intros completion web now Hperm.
  assert (Hlen : length completion = 14%nat).
  { rewrite <- (length_map fst), (Permutation_length Hperm). reflexivity. }
  assert (Hnd : List.NoDup (map fst completion)).
  { apply NoDup_ListNoDup. rewrite Hperm. apply NoDup_ListNoDup.
    exact registry_codes_distinct. }
  assert (Hreg : forall cc, In cc completion -> In (fst cc) (map fst SCRAPERS)).
  { intros cc Hcc. apply list_elem_of_In. rewrite <- Hperm.
    apply list_elem_of_In, in_map. exact Hcc. }
  destruct (scrape_all_registry web completion [] Hnd Hreg) as (new & Hrun & Htasks).
  { intros cc _ []. }
  cbn [app] in Hrun.
  destruct (tasks_hold completion new Htasks) as (Hbanks & Hrates & Hkeys & Hterm & Hrec).
  destruct (RankingFacts.get_ranking_fields now new) as (stats & Hrank).
  cbv zeta in Hrank.
  set (sorted := stable_sort by_rate_desc (get_all_rates new)) in Hrank.
  assert (Hsorted : sorted ≡ₚ get_all_rates new) by apply stable_sort_perm.
  assert (Hin : forall r, In r sorted <-> In r (get_all_rates new)).
  { intros r. rewrite <- !list_elem_of_In, Hsorted. reflexivity. }
  assert (Hshort : forall r, In r sorted -> short_term r = true).
  { intros r Hr. apply Hin in Hr.
    destruct (Hrec r Hr) as (clock & s & r0 & _ & _ & Hr0 & -> & _).
    pose proof registry_rates_short as Hall. rewrite forallb_forall in Hall.
    exact (Hall r0 Hr0). }
  eexists. split.
  { unfold run_scraping. rewrite Hrun. cbn [mbind outcome_bind]. exact Hrank. }
  cbn [generated_at total_banks total_rates all_rates top_10 by_term].
  split; [reflexivity |].
  split; [rewrite Hbanks; exact Hlen |].
  assert (H42 : length sorted = 42%nat).
  { rewrite (Permutation_length Hsorted), Hrates, Hlen. reflexivity. }
  split; [exact H42 |]. split; [exact H42 |].
  split.
  { unfold slice_to. cbn [Z.leb Z.compare Z.to_nat Pos.to_nat Pos.iter_op Nat.add].
    rewrite length_firstn, H42. reflexivity. }
  split.
  { rewrite Hsorted, Hkeys, Hperm, registry_keys. exact registry_keys_distinct. }
  split.
  { intros r Hr. split; [exact (Hshort r Hr) |].
    apply Hin in Hr.
    destruct (Hrec r Hr) as (clock & s & r0 & H1 & H2 & _ & -> & H5).
    exists clock, s. auto. }
  intros t l Htl. apply in_map_iff in Htl. destruct Htl as (term & [= <- <-] & Hterm').
  assert (Hlong : ~ In term [30; 60; 90] ->
                  List.filter (fun r => term_days r =? term) sorted = []).
  { intros Hno. apply filter_none. intros r Hr.
    specialize (Hshort r Hr). unfold short_term in Hshort.
    apply andb_prop in Hshort. destruct Hshort as (Hshort & _).
    apply andb_prop in Hshort. destruct Hshort as (Hshort & _).
    apply existsb_exists in Hshort. destruct Hshort as (x & Hx & E).
    apply Z.eqb_eq in E. destruct (Z.eqb_spec (term_days r) term) as [E' | _];
      [| reflexivity].
    exfalso. apply Hno. rewrite <- E', E. exact Hx. }
  assert (Hshorts : In term [30; 60; 90] ->
                    length (stable_sort by_rate_desc
                              (List.filter (fun r => term_days r =? term) sorted))
                    = 14%nat).
  { intros Ht. rewrite (Permutation_length (stable_sort_perm _ _)).
    rewrite (filter_length_perm _ _ _ Hsorted), (Hterm term Ht). exact Hlen. }
  cbn [In] in Hterm'.
  destruct Hterm' as [<- | [<- | [<- | [<- | [<- | [<- | [<- | []]]]]]]];
    cbn [existsb Z.eqb Pos.eqb orb];
    first [ apply Hshorts; cbn; tauto
          | rewrite Hlong; [reflexivity | cbn; intros H; intuition discriminate] ].
Qed.

Lemma registry_scraping_witness :
  exists ranking,
    run_scraping (map (fun ks => (fst ks, sample_clock)) SCRAPERS) (fun _ => None)
                 "2025-12-01T10:00:05"
    = Returned ranking
    /\ total_banks ranking = 14%nat
    /\ total_rates ranking = 42%nat.
Proof.
  destruct (registry_scraping (map (fun ks => (fst ks, sample_clock)) SCRAPERS)
              (fun _ => None) "2025-12-01T10:00:05")
    as (ranking & Hrun & _ & Hb & Hr & _).
  - cbn. reflexivity.
  - exists ranking. split; [exact Hrun |]. split; [exact Hb | exact Hr].
Defined.

End RegistryFacts.

(** ** The statistics of the API ([get_statistics]) *)

Module StatsFacts.
Import Samples MoreSamples StatsEndpoint.

Lemma get_set_same (k : string) (v : json) (d : stats_dict) :
  dict_get k (dict_set k v d) = Some v.
Proof.
  induction d as [| [k' v'] d IH]; cbn [dict_set dict_get].
  - rewrite String.eqb_refl. reflexivity.
  - destruct (String.eqb k' k) eqn:E; cbn [dict_get]; rewrite E; [reflexivity | exact IH].
Qed.

Lemma get_set_other (k k' : string) (v : json) (d : stats_dict) :
  k <> k' -> dict_get k' (dict_set k v d) = dict_get k' d.
Proof.
  intros Hne. induction d as [| [k0 v0] d IH]; cbn [dict_set dict_get].
  - destruct (String.eqb_spec k k'); [contradiction | reflexivity].
  - destruct (String.eqb_spec k0 k) as [-> | N]; cbn [dict_get].
    + destruct (String.eqb_spec k k'); [contradiction | reflexivity].
    + destruct (String.eqb k0 k'); [reflexivity | exact IH].
Qed.

(** An assignment of the value that the key has changes nothing. *)
Lemma set_same (k : string) (v : json) (d : stats_dict) :
  dict_get k d = Some v -> dict_set k v d = d.
Proof.
  induction d as [| [k' v'] d IH]; cbn [dict_set dict_get]; [discriminate |].
  destruct (String.eqb k' k).
  - intros [= ->]. reflexivity.
  - intros H. rewrite (IH H). reflexivity.
Qed.

Lemma with_totals_gets (data : CachedData) (stats : stats_dict) :
  dict_get "generated_at" (with_totals data stats) = Some (or_null (c_generated_at data))
  /\ dict_get "total_banks" (with_totals data stats) = Some (or_null (c_total_banks data))
  /\ dict_get "total_rates" (with_totals data stats) = Some (or_null (c_total_rates data))
  /\ dict_get "market_trend" (with_totals data stats) = Some (JStr "estable")
  /\ forall k, ~ In k totals_keys ->
       dict_get k (with_totals data stats) = dict_get k stats.
Proof.
  unfold with_totals.
  repeat split;
    repeat first [ rewrite get_set_same; reflexivity
                 | rewrite get_set_other by discriminate ].
  intros k Hk. unfold totals_keys in Hk. cbn [In] in Hk.
  rewrite !get_set_other by (intros E; apply Hk; rewrite E; tauto).
  reflexivity.
Qed.

Lemma with_totals_again (data : CachedData) (stats : stats_dict) :
  with_totals data (with_totals data stats) = with_totals data stats.
Proof.
  destruct (with_totals_gets data stats) as (H1 & H2 & H3 & H4 & _).
  unfold with_totals at 1.
  rewrite (set_same "generated_at" _ _ H1).
  rewrite (set_same "total_banks" _ _ H2).
  rewrite (set_same "total_rates" _ _ H3).
  rewrite (set_same "market_trend" _ _ H4).
  reflexivity.
Qed.

(** X27. [get_statistics] writes into the data that the cache holds.  Its
    answer is the dict of the statistics with four more keys, the time
    and the totals of the data and a trend that is always [estable], the
    other keys being as they were; when the data have statistics, the
    same dict is what the data hold after the call, so that [get_ranking]
    of the API then answers with those four keys among its statistics,
    and a second call changes nothing more.  Data without statistics are
    left as they are. *)
Theorem get_statistics_writes_into_the_cache :
  forall data : CachedData,
    exists stats after,
      get_statistics (Some data) = (Ok stats, Some after)
      /\ dict_get "generated_at" stats = Some (or_null (c_generated_at data))
      /\ dict_get "total_banks" stats = Some (or_null (c_total_banks data))
      /\ dict_get "total_rates" stats = Some (or_null (c_total_rates data))
      /\ dict_get "market_trend" stats = Some (JStr "estable")
      /\ (forall k, ~ In k totals_keys ->
            dict_get k stats
            = dict_get k (match c_statistics data with Some d => d | None => [] end))
      /\ match c_statistics data with
         | Some _ =>
             c_statistics after = Some stats
             /\ (exists body, get_ranking (Some after) = Ok body
                              /\ rb_statistics body = Some stats)
             /\ get_statistics (Some after) = (Ok stats, Some after)
         | None => after = data
         end.
Proof.
  intros data.
  destruct (c_statistics data) as [d |] eqn:E.
  - destruct (with_totals_gets data d) as (H1 & H2 & H3 & H4 & H5).
    exists (with_totals data d),
           (mkCachedData (c_generated_at data) (c_total_banks data)
                         (c_total_rates data) (Some (with_totals data d))
                         (c_top_10 data)).
    split; [unfold get_statistics; rewrite E; reflexivity |].
    repeat (split; [assumption |]).
    split; [reflexivity |].
    split; [eexists; split; reflexivity |].
    unfold get_statistics. cbn [c_statistics].
    match goal with
    | |- context [with_totals ?a (with_totals data d)] =>
        change (with_totals a (with_totals data d))
          with (with_totals data (with_totals data d))
    end.
    rewrite with_totals_again. reflexivity.
  - destruct (with_totals_gets data []) as (H1 & H2 & H3 & H4 & H5).
    exists (with_totals data []), data.
    split; [unfold get_statistics; rewrite E; reflexivity |].
    repeat (split; [assumption |]). reflexivity.
Qed.

End StatsFacts.

(** ** The amounts that [_parse_amount] reads *)

Module AmountFacts.
Import Samples MoreSamples.
Import ReFacts.

#[local] Arguments String.append !s1 s2 : simpl nomatch.















End AmountFacts.

(** ** Records of equal rate in the ranking *)

Module TieFacts.
Import Samples MoreSamples CDTOrchestrator SortFacts.



End TieFacts.

(** ** The scraper of a code ([get_scraper], [scrape_bank]) *)

Module ScraperFacts.
Import Samples MoreSamples CDTOrchestrator StaticScrapers Registry.

Lemma dict_get_in {A : Type} (key : string) (d : list (string * A)) (v : A) :
  dict_get key d = Some v -> In (key, v) d.
Proof.
  unfold dict_get. destruct (List.find _ d) as [[k x] |] eqn:E; [| discriminate].
  apply find_some in E. destruct E as (Hin & Hk). cbn [fst] in Hk.
  apply String.eqb_eq in Hk. subst k. intros [= <-]. exact Hin.
Qed.

Lemma dict_get_none {A : Type} (key : string) (d : list (string * A)) :
  dict_get key d = None -> ~ In key (map fst d).
Proof.
  unfold dict_get. destruct (List.find _ d) as [[k x] |] eqn:E; [discriminate |].
  intros _ Hin. apply in_map_iff in Hin. destruct Hin as ([k v] & <- & Hin).
  pose proof (find_none _ _ E _ Hin) as Hk. cbn [fst] in Hk.
  rewrite String.eqb_refl in Hk. discriminate Hk.
Qed.

Lemma config_codes (code : string) (config : BankConfig) :
  In (code, config) BANKS_CONFIG -> cfg_code config = code.
Proof.
  unfold BANKS_CONFIG. cbn [In]. intros H.
  repeat (destruct H as [[= <- <-] | H]; [reflexivity |]).
  contradiction.
Qed.

Lemma registry_config_code (code : string) (s : Scraper) :
  In (code, s) SCRAPERS -> cfg_code (s_config s) = code.
Proof.
  unfold SCRAPERS. cbn [In]. intros H.
  repeat (destruct H as [[= <- <-] | H]; [reflexivity |]).
  contradiction.
Qed.

(** X30. [scrape_bank] always returns.  For a code that neither
    [SCRAPERS] nor [BANKS_CONFIG] knows it leaves the results as they
    are.  Otherwise [get_scraper] gives the scraper of the registry, or,
    for a code that only [BANKS_CONFIG] knows, the generic adapter of its
    config; the config has the code asked for, and the result that is
    stored under the code carries that code, as does each of its records,
    and the time of the run. *)
Theorem scrape_bank_stores_under_its_code :
  forall (results : results_dict) (code : string) (clock : BaseScraper.Clock)
         (web : string -> option Document),
    exists results',
      scrape_bank results code clock web = Returned results'
      /\ match get_scraper code with
         | None => ~ In code (map fst BANKS_CONFIG) /\ results' = results
         | Some s =>
             cfg_code (s_config s) = code
             /\ (In (code, s) SCRAPERS
                 \/ (~ In code (map fst SCRAPERS)
                     /\ In (code, s_config s) BANKS_CONFIG
                     /\ s_scrape s = GenericTableScraper.scrape (s_config s)))
             /\ exists result,
                  results' = dict_set code result results
                  /\ sr_bank_code result = code
                  /\ sr_scraped_at result = BaseScraper.now_iso clock
                  /\ forall r, In r (rates result) ->
                       bank_code r = code
                       /\ scraped_at r = BaseScraper.now_iso clock
         end.
Proof.
  intros results code clock web. unfold scrape_bank, get_scraper.
  destruct (dict_get code SCRAPERS) as [s |] eqn:Es.
  - apply dict_get_in in Es.
    destruct (RegistryFacts.registry_scraper code s Es)
      as (config & result & -> & _ & _ & Hcode & _ & _ & Hcodes & _).
    pose proof (registry_config_code _ _ Es) as Hcfg.
    cbn [fixed s_config s_scrape] in *. rewrite RegistryFacts.run_stamps.
    eexists. split; [reflexivity |].
    split; [exact Hcfg |]. split; [left; exact Es |].
    eexists. split; [reflexivity |].
    cbn [stamped sr_bank_code sr_scraped_at rates].
    split; [exact Hcode |]. split; [reflexivity |].
    intros r Hr. apply in_map_iff in Hr. destruct Hr as (r0 & <- & Hr0).
    split; [| reflexivity]. cbn [BaseScraper.stamp bank_code].
    apply (in_map bank_code) in Hr0. rewrite Hcodes in Hr0.
    destruct Hr0 as [<- | [<- | [<- | []]]]; reflexivity.
  - apply dict_get_none in Es.
    destruct (dict_get code BANKS_CONFIG) as [config |] eqn:Ec.
    + apply dict_get_in in Ec. pose proof (config_codes _ _ Ec) as Hcfg.
      cbn [s_config s_scrape]. rewrite RegistryFacts.run_stamps.
      eexists. split; [reflexivity |].
      split; [exact Hcfg |].
      split; [right; split; [exact Es | split; [exact Ec | reflexivity]] |].
      eexists. split; [reflexivity |].
      cbn [stamped sr_bank_code sr_scraped_at rates].
      split; [destruct (web (cfg_url config)); exact Hcfg |].
      split; [reflexivity |].
      intros r Hr. apply in_map_iff in Hr. destruct Hr as (r0 & <- & Hr0).
      split; [| reflexivity]. cbn [BaseScraper.stamp bank_code].
      rewrite <- Hcfg. eapply MergeFacts.generic_scrape_bank_code.
      apply list_elem_of_In. exact Hr0.
    + apply dict_get_none in Ec.
      eexists. split; [reflexivity |]. split; [exact Ec | reflexivity].
Qed.

End ScraperFacts.
